(** * skrl: Gaussian policy mixin (torch) and function-approximator base (jax)

    A shallow embedding of [skrl/models/torch/gaussian.py] and
    [skrl/models/jax/base.py].

    - Python exceptions are values of [exn]; a call that can raise returns a
      [result]; code that also assigns to attributes of an object runs in the
      state-and-exception monad [py S], whose state survives a raise, as the
      attributes of a Python object do.
    - The tensor engine (torch, jax.numpy) is an interface, [Backend]: the
      element type with its arithmetic, [tanh], [exp], [log], [log1p], [clamp],
      the not-a-number test and the float literals.  Everything structural is
      proved for every backend.  The engine of the program is [float32]:
      IEEE 754 binary32, with the functions of the mathematics library as
      they come.  What rests on the special values alone (+inf, -inf, NaN)
      is proved for [ideal], exact real arithmetic extended by them, where
      zero is unsigned and nothing is rounded; what rests on rounding is
      proved for [float32], or for every arithmetic of a given accuracy.
    - A tensor is a shape and an element for each multi-index; binary
      operations broadcast as torch and numpy do (shapes aligned at the trailing
      axis, an axis of size 1 stretched) and raise on incompatible shapes. *)

From Stdlib Require Import Reals Lra Lia ZArith QArith List String.
From Stdlib Require SpecFloat.
From stdpp Require Import base option list gmap strings.

Set Warnings "-register-all".
#[local] Open Scope string_scope.
#[local] Open Scope list_scope.
#[local] Open Scope nat_scope.

(** ** Exceptions and the two monads *)

Inductive exn : Type :=
| ValueError (msg : string)
| TypeError
| IndexError
| AttributeError
| RuntimeError
| OverflowError.

Inductive result (A : Type) : Type :=
| Ok (a : A)
| Raise (e : exn).
Arguments Ok {A} a.
Arguments Raise {A} e.

#[export] Instance result_ret : MRet result := fun A a => Ok a.
#[export] Instance result_bind : MBind result := fun A B k m =>
  match m with
  | Ok a => k a
  | Raise e => Raise e
  end.

#[export] Instance result_fmap : FMap result := fun A B f m =>
  match m with
  | Ok a => Ok (f a)
  | Raise e => Raise e
  end.

(** State and exceptions: the state reached when the exception was raised is
    kept. *)
Definition py (S A : Type) : Type := S -> S * result A.

#[export] Instance py_ret {S} : MRet (py S) := fun A a s => (s, Ok a).
#[export] Instance py_bind {S} : MBind (py S) := fun A B k m s =>
  match m s with
  | (s', Ok a) => k a s'
  | (s', Raise e) => (s', Raise e)
  end.

Definition get_state {S} : py S S := fun s => (s, Ok s).
Definition modify {S} (f : S -> S) : py S unit := fun s => (f s, Ok tt).
Definition lift {S A} (r : result A) : py S A := fun s => (s, r).
Definition raise {S A} (e : exn) : py S A := fun s => (s, Raise e).

(** Reading an attribute that may not have been assigned yet. *)
Definition attr {S A} (a : option A) : py S A :=
  match a with
  | Some x => mret x
  | None => raise AttributeError
  end.

(** ** IEEE 754 binary formats

    Numbers of [prec] bits of mantissa and largest exponent [emax]:
    [binary32] is 24 and 128, [binary64] is 53 and 1024.  The operations are
    those of Rocq's specification of floating-point arithmetic, which round
    to nearest, ties to even. *)

Module IEEE.
Import SpecFloat.

Section Format.
Variables prec emax : Z.

(** The number nearest to an integer. *)
Definition of_Z (z : Z) : spec_float := binary_normalize prec emax z 0 false.

(** The number nearest to a fraction whose numerator and denominator are
    numbers of the format. *)
Definition of_Q (q : Q) : spec_float :=
  SFdiv prec emax (of_Z (Qnum q)) (of_Z (Z.pos (Qden q))).

End Format.

Definition is_nan (x : spec_float) : bool :=
  match x with S754_nan => true | _ => false end.

(** Python's [int(x)]: towards zero; an infinity and NaN are refused. *)
Definition to_int (x : spec_float) : result Z :=
  match x with
  | S754_zero _ => Ok 0%Z
  | S754_finite s m e =>
      let magnitude :=
        if (0 <=? e)%Z then (Z.pos m * 2 ^ e)%Z else (Z.pos m / 2 ^ (- e))%Z in
      Ok (if s then (- magnitude)%Z else magnitude)
  | S754_infinity _ => Raise OverflowError
  | S754_nan => Raise (ValueError "cannot convert float NaN to integer")
  end.

(** [clamp(x, min=lo, max=hi)]: NaN stays NaN, everything else is raised
    to [lo], then lowered to [hi]. *)
Definition clamp (lo hi x : spec_float) : spec_float :=
  if is_nan x || is_nan lo || is_nan hi then S754_nan
  else
    let y := if SFltb x lo then lo else x in
    if SFltb hi y then hi else y.

End IEEE.

(** ** The tensor engine *)

Class Backend (F : Type) : Type := {
  fadd : F -> F -> F;
  fsub : F -> F -> F;
  fmul : F -> F -> F;
  fdiv : F -> F -> F;
  fneg : F -> F;
  ftanh : F -> F;
  fexp : F -> F;
  flog : F -> F;
  flog1p : F -> F;
  (** [fclamp lo hi x] is [clamp(x, min=lo, max=hi)] *)
  fclamp : F -> F -> F -> F;
  fisnan : F -> bool;
  (** Python's [==] on floats *)
  feqb : F -> F -> bool;
  (** a float literal, written as a fraction *)
  of_Q : Q -> F;
  (** [float("inf")] *)
  finf : F;
  (** [torch.finfo(dtype).eps] *)
  finfo_eps : F;
  (** [math.log(math.sqrt(2 * math.pi))] *)
  flog_sqrt_2pi : F;
  (** Python's [int(x)] on a float *)
  float_to_int : F -> result Z
}.

Section Tensors.
Context {F : Type} `{Backend F}.

Record tensor : Type := Tensor {
  tshape : list nat;
  tdata : list nat -> F
}.

Definition rank (t : tensor) : nat := length (tshape t).

(** All multi-indices of a shape, in row-major order. *)
Fixpoint indices (s : list nat) : list (list nat) :=
  match s with
  | [] => [[]]
  | d :: s' => i ← seq 0 d; (i ::.) <$> indices s'
  end.

(** Broadcasting of one axis. *)
Definition bdim (a b : nat) : option nat :=
  if decide (a = b) then Some a
  else if decide (a = 1) then Some b
  else if decide (b = 1) then Some a
  else None.

(** A shape padded with leading axes of size 1 up to rank [n]. *)
Definition pad_shape (n : nat) (s : list nat) : list nat :=
  replicate (n - length s) 1 ++ s.

Definition broadcast_shapes (s1 s2 : list nat) : option (list nat) :=
  let n := length s1 `max` length s2 in
  mapM (fun p => bdim p.1 p.2) (zip (pad_shape n s1) (pad_shape n s2)).

(** The index into an operand of shape [s] that a result index [idx] reads:
    trailing axes aligned, axes of size 1 read at 0. *)
Definition bidx (s : list nat) (idx : list nat) : list nat :=
  zip_with (fun d i => if decide (d = 1) then 0 else i)
           s (drop (length idx - length s) idx).

Definition expand (s : list nat) (t : tensor) : tensor :=
  Tensor s (fun idx => tdata t (bidx (tshape t) idx)).

Definition tmap (f : F -> F) (t : tensor) : tensor :=
  Tensor (tshape t) (fun idx => f (tdata t idx)).

Definition tbin (f : F -> F -> F) (a b : tensor) : result tensor :=
  match broadcast_shapes (tshape a) (tshape b) with
  | Some s =>
      Ok (Tensor s (fun idx => f (tdata a (bidx (tshape a) idx))
                                 (tdata b (bidx (tshape b) idx))))
  | None => Raise RuntimeError
  end.

(** [t.any()] of an elementwise test. *)
Definition tany (p : F -> bool) (t : tensor) : bool :=
  existsb (fun idx => p (tdata t idx)) (indices (tshape t)).

(** [t[:5]]: slicing needs at least one axis. *)
Definition head_slice (t : tensor) : result unit :=
  match tshape t with
  | [] => Raise IndexError
  | _ :: _ => Ok tt
  end.

(** [t.shape[0]] *)
Definition shape0 (t : tensor) : result nat :=
  match tshape t with
  | [] => Raise IndexError
  | d :: _ => Ok d
  end.

(** [torch.mean], [torch.sum], [torch.prod] *)
Inductive reduction : Type := torch_mean | torch_sum | torch_prod.

Definition fsum (l : list F) : F := foldl fadd (of_Q 0) l.
Definition fprod (l : list F) : F := foldl fmul (of_Q 1) l.

Definition reduce_list (r : reduction) (l : list F) : F :=
  match r with
  | torch_sum => fsum l
  | torch_prod => fprod l
  | torch_mean => fdiv (fsum l) (of_Q (inject_Z (Z.of_nat (length l))))
  end.

(** [r(t, dim=-1)]; a tensor without axes is returned as it is. *)
Definition treduce (r : reduction) (t : tensor) : tensor :=
  match tshape t with
  | [] => t
  | _ :: _ =>
      let d := List.last (tshape t) 0 in
      Tensor (removelast (tshape t))
             (fun idx => reduce_list r ((fun j => tdata t (idx ++ [j])) <$> seq 0 d))
  end.

(** [t.unsqueeze(-1)] *)
Definition unsqueeze_last (t : tensor) : tensor :=
  Tensor (tshape t ++ [1]) (fun idx => tdata t (removelast idx)).

(** A one-axis tensor from a vector. *)
Definition of_list (l : list F) : tensor :=
  Tensor [length l] (fun idx => default (of_Q 0) (l !! default 0 (head idx))).

(** The place of a multi-index in the list of the entries, row after
    row. *)
Definition ravel (s idx : list nat) : nat :=
  foldl (fun acc di => acc * di.1 + di.2) 0 (zip s idx).


End Tensors.
Arguments tensor F : clear implicits.

(** ** Python values, spaces and parameter trees *)

Section Values.
Context {F : Type} `{Backend F}.

(** What an [inputs] or [outputs] mapping holds. *)
Inductive pyval : Type :=
| PyNone
| PyTensor (t : tensor F).

Inductive framework : Type := gym | gymnasium.

(** What a model is given as observation or action space: a number, a
    shape, a space of [gym] or of [gymnasium], or any other object.  The
    bounds of a [Box] are arrays of the shape of the space; their entries
    are kept in one list, row after row, and the shape says where the rows
    end. *)
Inductive space : Type :=
| PyInt (n : Z)
| PyFloat (x : F)
| PySeq (dims : list Z)
| Discrete (lib : framework) (n : Z)
| Box (lib : framework) (shape : list Z) (low high : list F)
| Dict (lib : framework) (spaces : list (string * space))
| OtherSpace (lib : framework)
| OtherObject.

(** [isinstance(space, gymnasium.Space)] *)
Definition is_gymnasium_space (sp : space) : bool :=
  match sp with
  | Discrete gymnasium _ | Box gymnasium _ _ _
  | Dict gymnasium _ | OtherSpace gymnasium => true
  | _ => false
  end.

(** A space with the attributes [low] and [high]. *)
Definition has_bounds (sp : space) : bool :=
  match sp with
  | Box _ _ _ _ => true
  | _ => false
  end.

(** [space.low] and [space.high]: only a [Box] has them. *)
Definition get_low : py space (list F) := fun sp =>
  match sp with
  | Box _ _ low _ => (sp, Ok low)
  | _ => (sp, Raise AttributeError)
  end.

Definition get_high : py space (list F) := fun sp =>
  match sp with
  | Box _ _ _ high => (sp, Ok high)
  | _ => (sp, Raise AttributeError)
  end.

(** [space.low.shape]: the shape of the bounds is the shape of the space. *)
Definition get_shape : py space (list Z) := fun sp =>
  match sp with
  | Box _ shape _ _ => (sp, Ok shape)
  | _ => (sp, Raise AttributeError)
  end.

(** The writes [space.low[i] = v] and [space.high[i] = v] go to the arrays
    the space holds. *)
Definition set_low (low : list F) : py space unit := fun sp =>
  match sp with
  | Box lib shape _ high => (Box lib shape low high, Ok tt)
  | _ => (sp, Raise AttributeError)
  end.

Definition set_high (high : list F) : py space unit := fun sp =>
  match sp with
  | Box lib shape low _ => (Box lib shape low high, Ok tt)
  | _ => (sp, Raise AttributeError)
  end.

(** A flax parameter tree: arrays at the leaves, dictionaries above them.
    The items of a dictionary are listed in the order jax flattens them
    (sorted keys). *)
Inductive ptree : Type :=
| PLeaf (a : tensor F)
| PNode (items : list (string * ptree)).

End Values.
Arguments pyval F : clear implicits.
Arguments space F : clear implicits.
Arguments ptree F : clear implicits.

(** ** skrl/models/torch/gaussian.py *)

Module Torch.
Section GaussianMixin.
Context {F : Type} `{Backend F}.

Definition EPS : F := of_Q (1 # 1000000).

(** [torch.distributions.Normal]: location and scale broadcast to one
    shape. *)
Record Normal : Type := mkNormal {
  loc : tensor F;
  scale : tensor F
}.

Definition Normal_init (loc scale : tensor F) : result Normal :=
  match broadcast_shapes (tshape loc) (tshape scale) with
  | Some s => Ok (mkNormal (expand s loc) (expand s scale))
  | None => Raise RuntimeError
  end.

(** [rsample()]: [loc + eps * scale] for standard normal noise [eps] of the
    distribution's shape; the noise drawn is the argument [noise]. *)
Definition rsample (d : Normal) (noise : list nat -> F) : result (tensor F) :=
  let eps := Tensor (tshape (loc d)) noise in
  x ← tbin fmul eps (scale d);
  tbin fadd (loc d) x.

(** [log_prob(value)]:
    [-((value - loc) ** 2) / (2 * var) - log_scale - log(sqrt(2 * pi))] *)
Definition log_prob (d : Normal) (value : pyval F) : result (tensor F) :=
  match value with
  | PyNone => Raise TypeError
  | PyTensor v =>
      let var := tmap (fun x => fmul x x) (scale d) in
      let log_scale := tmap flog (scale d) in
      diff ← tbin fsub v (loc d);
      q ← tbin fdiv (tmap fneg (tmap (fun x => fmul x x) diff))
                    (tmap (fmul (of_Q 2)) var);
      r ← tbin fsub q log_scale;
      mret (tmap (fun x => fsub x flog_sqrt_2pi) r)
  end.

Record GaussianMixin : Type := mkGaussianMixin {
  _g_clip_actions : bool;
  _g_clip_actions_min : option (tensor F);
  _g_clip_actions_max : option (tensor F);
  _g_clip_log_std : bool;
  _g_log_std_min : F;
  _g_log_std_max : F;
  _g_log_std : option (tensor F);
  _g_num_samples : option nat;
  _g_distribution : option Normal;
  _g_reduction : option reduction
}.

Definition set_log_std (v : tensor F) (self : GaussianMixin) : GaussianMixin :=
  mkGaussianMixin (_g_clip_actions self) (_g_clip_actions_min self)
    (_g_clip_actions_max self) (_g_clip_log_std self) (_g_log_std_min self)
    (_g_log_std_max self) (Some v) (_g_num_samples self)
    (_g_distribution self) (_g_reduction self).

Definition set_num_samples (n : nat) (self : GaussianMixin) : GaussianMixin :=
  mkGaussianMixin (_g_clip_actions self) (_g_clip_actions_min self)
    (_g_clip_actions_max self) (_g_clip_log_std self) (_g_log_std_min self)
    (_g_log_std_max self) (_g_log_std self) (Some n)
    (_g_distribution self) (_g_reduction self).

Definition set_distribution (d : Normal) (self : GaussianMixin) : GaussianMixin :=
  mkGaussianMixin (_g_clip_actions self) (_g_clip_actions_min self)
    (_g_clip_actions_max self) (_g_clip_log_std self) (_g_log_std_min self)
    (_g_log_std_max self) (_g_log_std self) (_g_num_samples self)
    (Some d) (_g_reduction self).

(** What the loops of [__init__] do to one entry of a bound. *)
Definition sanitize (bad good : F) (x : F) : F :=
  if feqb x bad then good else x.

(** The loops of [__init__] over the bounds: every entry equal to [bad]
    is overwritten with [good]. *)
Definition replace_bound (bad good : F) (bound : list F) : list F :=
  foldl (fun b i =>
           match b !! i with
           | Some x => if feqb x bad then <[i := good]> b else b
           | None => b
           end)
        bound (seq 0 (length bound)).

Definition reduction_of (name : string) : option reduction :=
  if decide (name = "mean") then Some torch_mean
  else if decide (name = "sum") then Some torch_sum
  else if decide (name = "prod") then Some torch_prod
  else None.

(** The loops of [__init__] walk over the first axis of a bound and test
    [bound[i] == -float("inf")] in an [if].  An array without axes cannot
    be walked over ([TypeError]).  A row [bound[i]] of one entry, be it
    the entry itself or an array of one entry, compares to one truth
    value.  A row of several entries compares to an array of truth
    values, which [if] refuses ([ValueError]); so it does a row without
    entries (numpy 2.2 and later; before that [if] warned and took it for
    false).  Where the first axis is empty the loops do nothing. *)
Definition row_size (rest : list Z) : Z := foldl Z.mul 1%Z rest.

Definition iterate_bound (shape : list Z) : result unit :=
  match shape with
  | [] => Raise TypeError
  | n :: rest =>
      if decide (row_size rest = 1%Z) then Ok tt
      else if decide (n <= 0)%Z then Ok tt
      else if decide (row_size rest = 0%Z) then
        Raise (ValueError "The truth value of an empty array is ambiguous. Use `array.size > 0` to check that an array is not empty.")
      else
        Raise (ValueError "The truth value of an array with more than one element is ambiguous. Use a.any() or a.all()")
  end.

(** Whether the bounds of a space can be walked over in this way: only a
    [Box] has bounds. *)
Definition bounds_iterable (sp : space F) : result unit :=
  match sp with
  | Box _ shape _ _ => iterate_bound shape
  | _ => Raise AttributeError
  end.

(** [torch.tensor(bound)]: a tensor of the shape of the space; for a
    space of one axis, the vector of the entries. *)
Definition bound_tensor (shape : list Z) (bound : list F) : tensor F :=
  match shape with
  | [_] => of_list bound
  | _ =>
      let s := Z.to_nat <$> shape in
      Tensor s (fun idx => default (of_Q 0) (bound !! ravel s idx))
  end.

(** [GaussianMixin.__init__]; the state is the object [self.action_space],
    which the caller handed to the model. *)
Definition __init__ (clip_actions clip_log_std : bool)
    (min_log_std max_log_std : F) (reduction : string) (role : string)
  : py (space F) GaussianMixin :=
  action_space ← get_state;
  let g_clip_actions := clip_actions && is_gymnasium_space action_space in
  bounds ←
    (if g_clip_actions then
       low ← get_low;
       shape ← get_shape;
       _ ← lift (iterate_bound shape);
       _ ← set_low (replace_bound (fneg finf) (of_Q (-1)) low);
       high ← get_high;
       _ ← lift (iterate_bound shape);
       _ ← set_high (replace_bound finf (of_Q 1) high);
       low ← get_low;
       high ← get_high;
       mret (Some (bound_tensor shape low), Some (bound_tensor shape high))
     else mret (None, None));
  if decide (reduction ∈ ["mean"; "sum"; "prod"; "none"]) then
    mret (mkGaussianMixin g_clip_actions bounds.1 bounds.2 clip_log_std
            min_log_std max_log_std None None None (reduction_of reduction))
  else
    raise (ValueError "reduction must be one of 'mean', 'sum', 'prod' or 'none'").

(** [GaussianMixin.atanh] *)
Definition atanh (x : tensor F) : result (tensor F) :=
  d ← tbin fsub (tmap flog1p x) (tmap flog1p (tmap fneg x));
  mret (tmap (fmul (of_Q (1 # 2))) d).

(** [GaussianMixin.inverse_tanh] *)
Definition inverse_tanh (y : tensor F) : result (tensor F) :=
  let eps := finfo_eps in
  atanh (tmap (fclamp (fadd (of_Q (-1)) eps) (fsub (of_Q 1) eps)) y).

(** [act], up to the assignment [outputs["mean_actions"] = mean_actions]:
    the actions, the log-probability and the outputs it has produced when it
    reaches its test for not-a-number values.  [compute] is the method of
    the concrete model, [noise] what the sampler draws; the [head_slice]
    steps are the slices [t[:5]] that the calls to [print] take. *)
Definition act_outputs
    (compute : gmap string (pyval F) -> string ->
               tensor F * tensor F * gmap string (pyval F))
    (inputs : gmap string (pyval F)) (role : string) (noise : list nat -> F)
  : py GaussianMixin (tensor F * tensor F * gmap string (pyval F)) :=
  self ← get_state;
  let '(mean_actions, log_std, outputs) := compute inputs role in
  _ ← lift (head_slice mean_actions);
  let log_std :=
    if _g_clip_log_std self
    then tmap (fclamp (_g_log_std_min self) (_g_log_std_max self)) log_std
    else log_std in
  _ ← modify (set_log_std log_std);
  n ← lift (shape0 mean_actions);
  _ ← modify (set_num_samples n);
  let mean_actions :=
    if _g_clip_actions self then tmap ftanh mean_actions else mean_actions in
  dist ← lift (Normal_init mean_actions (tmap fexp log_std));
  _ ← modify (set_distribution dist);
  actions ← lift (rsample dist noise);
  _ ← lift (head_slice actions);
  '(actions, log_p, mean_actions) ←
    (if _g_clip_actions self then
       let scaled_actions := default PyNone (inputs !! "taken_actions") in
       log_p ←
         match scaled_actions with
         | PyTensor scaled_actions =>
             _ ← lift (head_slice scaled_actions);
             lo ← attr (_g_clip_actions_min self);
             a ← lift (tbin fsub scaled_actions lo);
             hi ← attr (_g_clip_actions_max self);
             lo ← attr (_g_clip_actions_min self);
             unscaled_actions ← lift (
               b ← tbin fsub hi lo;
               c ← tbin fdiv a b;
               mret (tmap (fun x => fsub (fmul x (of_Q 2)) (of_Q 1)) c));
             _ ← lift (head_slice unscaled_actions);
             gaussian_actions ← lift (inverse_tanh unscaled_actions);
             _ ← lift (head_slice gaussian_actions);
             log_p ← lift (
               p ← log_prob dist (PyTensor gaussian_actions);
               u2 ← tbin fmul unscaled_actions unscaled_actions;
               tbin fsub p
                 (tmap flog (tmap (fun x => fadd (fsub (of_Q 1) x) EPS) u2)));
             _ ← lift (head_slice log_p);
             mret log_p
         | PyNone =>
             log_p ← lift (log_prob dist (PyTensor actions));
             _ ← lift (head_slice log_p);
             mret log_p
         end;
       hi ← attr (_g_clip_actions_max self);
       lo ← attr (_g_clip_actions_min self);
       actions ← lift (
         w ← tbin fsub hi lo;
         a ← tbin fmul
               (tmap (fun x => fdiv (fadd (ftanh x) (of_Q 1)) (of_Q 2)) actions) w;
         tbin fadd a lo);
       _ ← lift (head_slice actions);
       mean_actions ← lift (
         w ← tbin fsub hi lo;
         a ← tbin fmul
               (tmap (fun x => fdiv (fadd x (of_Q 1)) (of_Q 2)) mean_actions) w;
         tbin fadd a lo);
       _ ← lift (head_slice mean_actions);
       mret (actions, log_p, mean_actions)
     else
       log_p ← lift (log_prob dist
                       (default (PyTensor actions) (inputs !! "taken_actions")));
       mret (actions, log_p, mean_actions));
  let log_p :=
    match _g_reduction self with
    | Some r => treduce r log_p
    | None => log_p
    end in
  let log_p :=
    if decide (rank log_p ≠ rank actions) then unsqueeze_last log_p else log_p in
  let outputs := <["mean_actions" := PyTensor mean_actions]> outputs in
  mret (actions, log_p, outputs).

(** [GaussianMixin.act] *)
Definition act
    (compute : gmap string (pyval F) -> string ->
               tensor F * tensor F * gmap string (pyval F))
    (inputs : gmap string (pyval F)) (role : string) (noise : list nat -> F)
  : py GaussianMixin (tensor F * tensor F * gmap string (pyval F)) :=
  '(actions, log_p, outputs) ← act_outputs compute inputs role noise;
  if tany fisnan actions
  then raise (ValueError "NaN values found in actions")
  else mret (actions, log_p, outputs).

(** [get_entropy], [get_log_std] and [distribution] read the state [act]
    leaves; of these only [distribution] is used below. *)
Definition distribution (role : string) (self : GaussianMixin) : option Normal :=
  _g_distribution self.

(** [Normal.entropy()]: [0.5 + 0.5 * math.log(2 * math.pi) + log(scale)];
    [log_2pi] stands for the float [math.log(2 * math.pi)]. *)
Definition entropy (log_2pi : F) (d : Normal) : tensor F :=
  tmap (fun s => fadd (fadd (of_Q (1 # 2)) (fmul (of_Q (1 # 2)) log_2pi))
                      (flog s))
       (scale d).

(** [GaussianMixin.get_entropy] *)
Definition get_entropy (log_2pi : F) (role : string) (self : GaussianMixin)
  : tensor F :=
  match _g_distribution self with
  | None => Tensor [] (fun _ => of_Q 0)
  | Some d => entropy log_2pi d
  end.

(** [t.repeat(n, 1)]: a tensor of at most two axes, read with two axes,
    laid out [n] times along the first; more axes than the two counts
    given are refused. *)
Definition repeat_rows (n : nat) (t : tensor F) : result (tensor F) :=
  match tshape t with
  | [] => Ok (Tensor [n; 1] (fun _ => tdata t []))
  | [b] => Ok (Tensor [n; b] (fun idx => tdata t [default 0 (idx !! 1)]))
  | [a; b] =>
      Ok (Tensor [n * a; b]
            (fun idx => tdata t [default 0 (idx !! 0) mod a;
                                 default 0 (idx !! 1)]))
  | _ => Raise RuntimeError
  end.

(** [GaussianMixin.get_log_std]: [None] has no [repeat], and [repeat]
    takes no [None]. *)
Definition get_log_std (role : string) (self : GaussianMixin)
  : result (tensor F) :=
  match _g_log_std self with
  | None => Raise AttributeError
  | Some log_std =>
      match _g_num_samples self with
      | None => Raise TypeError
      | Some n => repeat_rows n log_std
      end
  end.

(** The attributes [__init__] sets once and [act] only reads. *)
Definition configuration (self : GaussianMixin)
  : bool * option (tensor F) * option (tensor F) * bool * F * F
    * option reduction :=
  (_g_clip_actions self, _g_clip_actions_min self, _g_clip_actions_max self,
   _g_clip_log_std self, _g_log_std_min self, _g_log_std_max self,
   _g_reduction self).

(** *** The log-probability in the words of the specification *)

(** The log standard deviation [act] works with. *)
Definition clamped_log_std (self : GaussianMixin) (log_std : tensor F) : tensor F :=
  if _g_clip_log_std self
  then tmap (fclamp (_g_log_std_min self) (_g_log_std_max self)) log_std
  else log_std.


(** The linear map from [[low, high]] to [[-1, 1]]. *)
Definition rescale_to_unit (low high x : tensor F) : result (tensor F) :=
  a ← tbin fsub x low;
  b ← tbin fsub high low;
  c ← tbin fdiv a b;
  mret (tmap (fun v => fsub (fmul v (of_Q 2)) (of_Q 1)) c).

(** The correction [log(1 - u^2 + eps)] for the tanh. *)
Definition tanh_correction (u : tensor F) : result (tensor F) :=
  u2 ← tbin fmul u u;
  mret (tmap flog (tmap (fun x => fadd (fsub (of_Q 1) x) EPS) u2)).

(** The log-density of [dist] at the inverse tanh of the rescaled actions,
    minus the correction. *)
Definition squashed_log_prob (dist : Normal) (low high taken : tensor F)
  : result (tensor F) :=
  u ← rescale_to_unit low high taken;
  g ← inverse_tanh u;
  p ← log_prob dist (PyTensor g);
  k ← tanh_correction u;
  tbin fsub p k.

(** Values of [[0, 1]] scaled into [[low, high]]. *)
Definition scale_into (low high t : tensor F) : result (tensor F) :=
  w ← tbin fsub high low;
  a ← tbin fmul t w;
  tbin fadd a low.

(** The reduction along the last axis and the axis put back after it. *)
Definition reduce_log_prob (r : option reduction) (actions log_p : tensor F)
  : tensor F :=
  let log_p := match r with Some r => treduce r log_p | None => log_p end in
  if decide (rank log_p ≠ rank actions) then unsqueeze_last log_p else log_p.

End GaussianMixin.
Arguments Normal F : clear implicits.
Arguments GaussianMixin F : clear implicits.
End Torch.

(** ** skrl/models/jax/base.py *)

Module Jax.
Section Model.
Context {F : Type} `{Backend F}.

(** A Python number: [size] is an [int], a [float] of the model or a
    [float64] of numpy until [int(size)]. *)
Inductive pynum : Type :=
| NumInt (n : Z)
| NumFloat (x : F)
| NumFloat64 (x : SpecFloat.spec_float).

Definition int (v : pynum) : result Z :=
  match v with
  | NumInt n => Ok n
  | NumFloat x => float_to_int x
  | NumFloat64 x => IEEE.to_int x
  end.

(** [numpy.prod] of a tuple or list of Python integers.  numpy first makes
    an array of them.  It takes each integer for an [int64] if it fits one,
    else for a [uint64] if it fits one, else for a Python object, and gives
    the array the type that holds them all: of [int64] and [uint64]
    together that is [float64]; the empty list makes a [float64] array.
    The product is taken in that type, from the left: it wraps around in
    the two integer types, rounds and overflows in [float64], and is exact
    on Python objects. *)
Inductive dtype : Type := int64 | uint64 | float64 | object.

Definition fits_int64 (z : Z) : bool :=
  ((- 2 ^ 63 <=? z) && (z <? 2 ^ 63))%Z.

Definition fits_uint64 (z : Z) : bool :=
  ((0 <=? z) && (z <? 2 ^ 64))%Z.

Definition dtype_of (z : Z) : dtype :=
  if fits_int64 z then int64 else if fits_uint64 z then uint64 else object.

Definition promote (a b : dtype) : dtype :=
  match a, b with
  | object, _ | _, object => object
  | int64, int64 => int64
  | uint64, uint64 => uint64
  | _, _ => float64
  end.

Definition result_type (dims : list Z) : dtype :=
  match dims with
  | [] => float64
  | d :: rest => foldl (fun t z => promote t (dtype_of z)) (dtype_of d) rest
  end.

Definition wrap64 (z : Z) : Z :=
  ((z + 2 ^ 63) mod 2 ^ 64 - 2 ^ 63)%Z.

Definition prod_int64 (dims : list Z) : Z :=
  foldl (fun acc d => wrap64 (acc * d)) 1%Z dims.

Definition prod_uint64 (dims : list Z) : Z :=
  foldl (fun acc d => (acc * d) mod 2 ^ 64)%Z 1%Z dims.

Definition prod_float64 (dims : list Z) : SpecFloat.spec_float :=
  foldl (fun acc d => SpecFloat.SFmul 53 1024 acc (IEEE.of_Z 53 1024 d))
        (IEEE.of_Z 53 1024 1) dims.

Definition prod_object (dims : list Z) : Z := foldl Z.mul 1%Z dims.

Definition np_prod (dims : list Z) : pynum :=
  match result_type dims with
  | int64 => NumInt (prod_int64 dims)
  | uint64 => NumInt (prod_uint64 dims)
  | float64 => NumFloat64 (prod_float64 dims)
  | object => NumInt (prod_object dims)
  end.

(** Python's [sum] of a list of integers. *)
Definition sum (l : list Z) : Z := foldl Z.add 0%Z l.

(** [Model._get_space_size]; [gym] and [gymnasium] spaces go through two
    branches with the same text. *)
Fixpoint _get_space_size (sp : space F) (number_of_elements : bool) : result Z :=
  size ←
    match sp with
    | PyInt n => mret (Some (NumInt n))
    | PyFloat x => mret (Some (NumFloat x))
    | PySeq dims => mret (Some (np_prod dims))
    | Discrete _ n =>
        mret (Some (NumInt (if number_of_elements then n else 1%Z)))
    | Box _ shape _ _ => mret (Some (np_prod shape))
    | Dict _ spaces =>
        sizes ←
          (fix each (l : list (string * space F)) : result (list Z) :=
             match l with
             | [] => mret []
             | (_, child) :: rest =>
                 n ← _get_space_size child number_of_elements;
                 ns ← each rest;
                 mret (n :: ns)
             end) spaces;
        mret (Some (NumInt (sum sizes)))
    | OtherSpace _ => mret None
    | OtherObject => mret None
    end;
  match size with
  | None => Raise (ValueError "Space type not supported")
  | Some size => int size
  end.

(** The list comprehension over the children of a [Dict], on its own. *)
Definition resolve_children (number_of_elements : bool)
  : list (string * space F) -> result (list Z) :=
  fix each (l : list (string * space F)) : result (list Z) :=
    match l with
    | [] => mret []
    | (_, child) :: rest =>
        n ← _get_space_size child number_of_elements;
        ns ← each rest;
        mret (n :: ns)
    end.

(** [StateDict]: the apply function and the parameters. *)
Record StateDict : Type := mkStateDict {
  apply_fn : ptree F -> gmap string (pyval F) -> string ->
             result (tensor F * pyval F * gmap string (pyval F));
  params : ptree F
}.

(** [state_dict.replace(params=p)] *)
Definition replace (sd : StateDict) (p : ptree F) : StateDict :=
  mkStateDict (apply_fn sd) p.

(** The attributes of a [Model]; [state_dict] is unassigned until
    [init_state_dict] has run. *)
Record Model : Type := mkModel {
  observation_space : option (space F);
  action_space : option (space F);
  num_observations : option Z;
  num_actions : option Z;
  state_dict : option StateDict;
  training : bool
}.

Definition set_state_dict (sd : StateDict) (self : Model) : Model :=
  mkModel (observation_space self) (action_space self) (num_observations self)
    (num_actions self) (Some sd) (training self).

(** [jax.tree_util.tree_map(f, tree, rest)] first matches [rest] against the
    structure of [tree]: where [tree] has a dictionary, [rest] must have a
    dictionary with the same keys; where [tree] has a leaf, whatever [rest]
    has there is taken.  A mismatch is a [ValueError]. *)
Fixpoint flatten_up_to (tree rest : ptree F) : result unit :=
  match tree, rest with
  | PLeaf _, _ => mret tt
  | PNode _, PLeaf _ => Raise (ValueError "pytree structure mismatch")
  | PNode items, PNode items' =>
      if decide (items.*1 = items'.*1) then
        (fix each (l : list (string * ptree F)) (l' : list (string * ptree F))
           : result unit :=
           match l, l' with
           | (_, t) :: r, (_, t') :: r' =>
               _ ← flatten_up_to t t'; each r r'
           | _, _ => mret tt
           end) items items'
      else Raise (ValueError "pytree structure mismatch")
  end.

(** Then [f] is called at every leaf of [tree]. *)
Fixpoint tree_zip (f : tensor F -> ptree F -> result (tensor F))
    (tree rest : ptree F) : result (ptree F) :=
  match tree, rest with
  | PLeaf a, _ => PLeaf <$> f a rest
  | PNode _, PLeaf _ => Raise (ValueError "pytree structure mismatch")
  | PNode items, PNode items' =>
      PNode <$>
        (fix each (l : list (string * ptree F)) (l' : list (string * ptree F))
           : result (list (string * ptree F)) :=
           match l, l' with
           | (k, t) :: r, (_, t') :: r' =>
               x ← tree_zip f t t';
               xs ← each r r';
               mret ((k, x) :: xs)
           | _, _ => mret []
           end) items items'
  end.

Definition tree_map (f : tensor F -> ptree F -> result (tensor F))
    (tree rest : ptree F) : result (ptree F) :=
  _ ← flatten_up_to tree rest;
  tree_zip f tree rest.

(** [a + b] on jax arrays. *)
Definition jnp_add (a b : tensor F) : result (tensor F) :=
  match tbin fadd a b with
  | Ok t => Ok t
  | Raise _ => Raise TypeError
  end.

(** [lambda params, model_params:
       polyak * model_params + (1 - polyak) * params] *)
Definition soft_update (polyak : F) (params : tensor F) (model_params : ptree F)
  : result (tensor F) :=
  match model_params with
  | PLeaf model_params =>
      jnp_add (tmap (fmul polyak) model_params)
              (tmap (fmul (fsub (of_Q 1) polyak)) params)
  | PNode _ => Raise TypeError
  end.

(** [Model.update_parameters] *)
Definition update_parameters (model : Model) (polyak : F) : py Model unit :=
  self ← get_state;
  if feqb polyak (of_Q 1) then
    own ← attr (state_dict self);
    source ← attr (state_dict model);
    modify (set_state_dict (replace own (params source)))
  else
    own ← attr (state_dict self);
    source ← attr (state_dict model);
    new_params ← lift (tree_map (soft_update polyak) (params own) (params source));
    modify (set_state_dict (replace own new_params)).

Definition set_training (b : bool) (self : Model) : Model :=
  mkModel (observation_space self) (action_space self) (num_observations self)
    (num_actions self) (state_dict self) b.

(** [Model.__init__], without the device and flax's reserved attributes. *)
Definition __init__ (observation_space action_space : option (space F))
  : result Model :=
  num_observations ←
    match observation_space with
    | None => mret None
    | Some sp => Some <$> _get_space_size sp true
    end;
  num_actions ←
    match action_space with
    | None => mret None
    | Some sp => Some <$> _get_space_size sp true
    end;
  mret (mkModel observation_space action_space num_observations num_actions
          None false).

(** [Model.init_state_dict]; [apply] and [init] are the methods
    [self.apply] and [self.init] that flax gives the module. *)
Definition init_state_dict
    (apply : ptree F -> gmap string (pyval F) -> string ->
             result (tensor F * pyval F * gmap string (pyval F)))
    (init : F -> gmap string (pyval F) -> string -> ptree F)
    (key : F) (inputs : gmap string (pyval F)) (role : string)
  : py Model unit :=
  modify (set_state_dict (mkStateDict apply (init key inputs role))).

(** [Model.set_mode] *)
Definition set_mode (mode : string) : py Model unit :=
  if decide (mode = "train") then modify (set_training true)
  else if decide (mode = "eval") then modify (set_training false)
  else raise (ValueError
    "Invalid mode. Use 'train' for training or 'eval' for evaluation").

(** [Model.act]: [self.apply(self.state_dict.params, inputs, role)] *)
Definition act
    (apply : ptree F -> gmap string (pyval F) -> string ->
             result (tensor F * pyval F * gmap string (pyval F)))
    (inputs : gmap string (pyval F)) (role : string)
  : py Model (tensor F * pyval F * gmap string (pyval F)) :=
  self ← get_state;
  sd ← attr (state_dict self);
  lift (apply (params sd) inputs role).

(** [Model.freeze_parameters]: [pass] *)
Definition freeze_parameters (freeze : bool) : py Model unit := mret tt.

(** A space the resolver knows all the way down. *)
Fixpoint supported (sp : space F) : bool :=
  match sp with
  | OtherSpace _ | OtherObject => false
  | Dict _ spaces =>
      (fix each (l : list (string * space F)) : bool :=
         match l with
         | [] => true
         | (_, child) :: rest => supported child && each rest
         end) spaces
  | _ => true
  end.

(** A space that holds no [float]. *)
Fixpoint no_float (sp : space F) : bool :=
  match sp with
  | PyFloat _ => false
  | Dict _ spaces =>
      (fix each (l : list (string * space F)) : bool :=
         match l with
         | [] => true
         | (_, child) :: rest => no_float child && each rest
         end) spaces
  | _ => true
  end.

(** A space that holds no [Discrete] space. *)
Fixpoint no_discrete (sp : space F) : bool :=
  match sp with
  | Discrete _ _ => false
  | Dict _ spaces =>
      (fix each (l : list (string * space F)) : bool :=
         match l with
         | [] => true
         | (_, child) :: rest => no_discrete child && each rest
         end) spaces
  | _ => true
  end.

(** A space whose shapes, at any depth, have dimensions that fit
    [int64], as the shape of an array has. *)
Fixpoint int64_shapes (sp : space F) : bool :=
  match sp with
  | PySeq dims => forallb fits_int64 dims
  | Box _ shape _ _ => forallb fits_int64 shape
  | Dict _ spaces =>
      (fix each (l : list (string * space F)) : bool :=
         match l with
         | [] => true
         | (_, child) :: rest => int64_shapes child && each rest
         end) spaces
  | _ => true
  end.

(** The product of the dimensions, in unbounded integers. *)
Definition product (dims : list Z) : Z := foldl Z.mul 1%Z dims.

(** The loops of the three predicates over the children of a [Dict]. *)
Definition supported_children : list (string * space F) -> bool :=
  fix each l :=
    match l with
    | [] => true
    | (_, child) :: rest => supported child && each rest
    end.

Definition no_float_children : list (string * space F) -> bool :=
  fix each l :=
    match l with
    | [] => true
    | (_, child) :: rest => no_float child && each rest
    end.

Definition no_discrete_children : list (string * space F) -> bool :=
  fix each l :=
    match l with
    | [] => true
    | (_, child) :: rest => no_discrete child && each rest
    end.

Definition int64_shapes_children : list (string * space F) -> bool :=
  fix each l :=
    match l with
    | [] => true
    | (_, child) :: rest => int64_shapes child && each rest
    end.

(** Two trees have the same parameter paths. *)
Fixpoint same_paths (a b : ptree F) : bool :=
  match a, b with
  | PLeaf _, PLeaf _ => true
  | PNode items, PNode items' =>
      bool_decide (items.*1 = items'.*1) &&
      (fix each (l : list (string * ptree F)) (l' : list (string * ptree F))
         : bool :=
         match l, l' with
         | (_, t) :: r, (_, t') :: r' => same_paths t t' && each r r'
         | _, _ => true
         end) items items'
  | _, _ => false
  end.



(** The loops over the items of a dictionary, on their own. *)
Definition flatten_items
  : list (string * ptree F) -> list (string * ptree F) -> result unit :=
  fix each l l' :=
    match l, l' with
    | (_, t) :: r, (_, t') :: r' => _ ← flatten_up_to t t'; each r r'
    | _, _ => mret tt
    end.

Definition zip_items (f : tensor F -> ptree F -> result (tensor F))
  : list (string * ptree F) -> list (string * ptree F) ->
    result (list (string * ptree F)) :=
  fix each l l' :=
    match l, l' with
    | (k, t) :: r, (_, t') :: r' =>
        x ← tree_zip f t t';
        xs ← each r r';
        mret ((k, x) :: xs)
    | _, _ => mret []
    end.

Definition same_paths_items
  : list (string * ptree F) -> list (string * ptree F) -> bool :=
  fix each l l' :=
    match l, l' with
    | (_, t) :: r, (_, t') :: r' => same_paths t t' && each r r'
    | _, _ => true
    end.



End Model.
Arguments pynum F : clear implicits.
Arguments StateDict F : clear implicits.
Arguments Model F : clear implicits.
End Jax.

(** ** The ideal backend: exact reals with +inf, -inf and NaN

    Nothing is rounded here, nothing overflows or underflows, and zero
    has no sign: this is not the arithmetic of the program.  It has the
    special values of the floats and their rules (an infinity minus
    itself, zero times an infinity and zero over zero are NaN, NaN
    compares equal to nothing), and serves for what depends on those
    alone, and as the arithmetic without error among those of a given
    accuracy. *)

Module Ideal.
#[local] Open Scope R_scope.

Inductive xreal : Type :=
| Fin (r : R)
| PInf
| NInf
| NaN.

Definition xneg (x : xreal) : xreal :=
  match x with
  | Fin r => Fin (- r)
  | PInf => NInf
  | NInf => PInf
  | NaN => NaN
  end.

Definition xadd (x y : xreal) : xreal :=
  match x, y with
  | NaN, _ | _, NaN => NaN
  | Fin a, Fin b => Fin (a + b)
  | PInf, NInf | NInf, PInf => NaN
  | PInf, _ | _, PInf => PInf
  | NInf, _ | _, NInf => NInf
  end.

Definition xsub (x y : xreal) : xreal := xadd x (xneg y).

(** An infinity times or over a finite value: the sign decides, zero gives
    NaN. *)
Definition signed (a : R) (pos neg : xreal) : xreal :=
  if Rlt_dec 0 a then pos else if Rlt_dec a 0 then neg else NaN.

Definition xmul (x y : xreal) : xreal :=
  match x, y with
  | NaN, _ | _, NaN => NaN
  | Fin a, Fin b => Fin (a * b)
  | Fin a, PInf | PInf, Fin a => signed a PInf NInf
  | Fin a, NInf | NInf, Fin a => signed a NInf PInf
  | PInf, PInf | NInf, NInf => PInf
  | PInf, NInf | NInf, PInf => NInf
  end.

Definition xdiv (x y : xreal) : xreal :=
  match x, y with
  | NaN, _ | _, NaN => NaN
  | Fin a, Fin b => if Req_EM_T b 0 then signed a PInf NInf else Fin (a / b)
  | Fin _, _ => Fin 0
  | PInf, Fin b => if Rle_dec 0 b then PInf else NInf
  | NInf, Fin b => if Rle_dec 0 b then NInf else PInf
  | _, _ => NaN
  end.

Definition xtanh (x : xreal) : xreal :=
  match x with
  | Fin r => Fin (tanh r)
  | PInf => Fin 1
  | NInf => Fin (-1)
  | NaN => NaN
  end.

Definition xexp (x : xreal) : xreal :=
  match x with
  | Fin r => Fin (exp r)
  | PInf => PInf
  | NInf => Fin 0
  | NaN => NaN
  end.

Definition xlog (x : xreal) : xreal :=
  match x with
  | Fin r => if Rlt_dec 0 r then Fin (ln r)
             else if Req_EM_T r 0 then NInf else NaN
  | PInf => PInf
  | _ => NaN
  end.

Definition xlog1p (x : xreal) : xreal :=
  match x with
  | Fin r => if Rlt_dec (-1) r then Fin (ln (1 + r))
             else if Req_EM_T r (-1) then NInf else NaN
  | PInf => PInf
  | _ => NaN
  end.

Definition xisnan (x : xreal) : bool :=
  match x with NaN => true | _ => false end.

Definition xltb (x y : xreal) : bool :=
  match x, y with
  | NaN, _ | _, NaN => false
  | Fin a, Fin b => if Rlt_dec a b then true else false
  | _, NInf | PInf, _ => false
  | _, _ => true
  end.

Definition xeqb (x y : xreal) : bool :=
  match x, y with
  | Fin a, Fin b => if Req_EM_T a b then true else false
  | PInf, PInf | NInf, NInf => true
  | _, _ => false
  end.

(** [clamp]: NaN stays NaN, everything else is raised to [lo], then lowered
    to [hi]. *)
Definition xclamp (lo hi x : xreal) : xreal :=
  if xisnan x || xisnan lo || xisnan hi then NaN
  else
    let y := if xltb x lo then lo else x in
    if xltb hi y then hi else y.

Definition xof_Q (q : Q) : xreal :=
  Fin (IZR (Qnum q) / IZR (Z.pos (Qden q))).

(** Rounding towards zero. *)
Definition truncate (r : R) : Z :=
  if Rle_dec 0 r then Int_part r else (- Int_part (- r))%Z.

Definition xto_int (x : xreal) : result Z :=
  match x with
  | Fin r => Ok (truncate r)
  | NaN => Raise (ValueError "cannot convert float NaN to integer")
  | _ => Raise OverflowError
  end.

#[global] Instance ideal : Backend xreal := {
  fadd := xadd;
  fsub := xsub;
  fmul := xmul;
  fdiv := xdiv;
  fneg := xneg;
  ftanh := xtanh;
  fexp := xexp;
  flog := xlog;
  flog1p := xlog1p;
  fclamp := xclamp;
  fisnan := xisnan;
  feqb := xeqb;
  of_Q := xof_Q;
  finf := PInf;
  (** the machine epsilon of float32, 2^-23 *)
  finfo_eps := Fin (/ 8388608);
  flog_sqrt_2pi := Fin (ln (sqrt (2 * PI)));
  float_to_int := xto_int
}.

Definition is_finite (x : xreal) : Prop :=
  match x with Fin _ => True | _ => False end.

(** The inverse hyperbolic tangent, as [atanh] computes it on a number. *)
Definition atanh_formula (y : R) : R := (ln (1 + y) - ln (1 - y)) / 2.

End Ideal.

(** * Arithmetic of a given accuracy

    The standard model of rounding.  An arithmetic comes with the values
    that are numbers, neither infinite nor NaN, and with the real number
    each of them stands for.  The result [y] of an operation is near the
    exact result [r] when it is a number within [u * |r| + v] of it: [u]
    bounds the relative error, [v] the absolute error of a result near
    zero. *)
Module Rounding.
#[local] Open Scope R_scope.

Record model (F : Type) : Type := Model {
  number : F -> Prop;
  val : F -> R
}.
Arguments number {F} _ _.
Arguments val {F} _ _.

Section Accuracy.
Context {F : Type} `{Backend F}.
Variable M : model F.
Variables u v : R.

Definition near (r : R) (y : F) : Prop :=
  number M y /\ Rabs (val M y - r) <= u * Rabs r + v.

(** The bounds that [inverse_tanh] clamps to. *)
Definition clamp_low : F := fadd (of_Q (-1)) finfo_eps.
Definition clamp_high : F := fsub (of_Q 1) finfo_eps.

(** What [atanh] and [inverse_tanh] use of the arithmetic: [tanh] and
    [log1p] on their domains, the change of sign, which is exact, a
    difference and a half that stay far below the largest number, the
    clamp, which returns one of its arguments, and the two bounds of the
    clamp, which lie strictly between -1 and 1. *)
Record accurate : Prop := {
  tanh_near : forall x, number M x -> near (tanh (val M x)) (ftanh x);
  log1p_near :
    forall x, number M x -> -1 < val M x ->
              near (ln (1 + val M x)) (flog1p x);
  neg_exact :
    forall x, number M x -> number M (fneg x) /\ val M (fneg x) = - val M x;
  sub_near :
    forall x y, number M x -> number M y ->
                Rabs (val M x - val M y) <= 1000 ->
                near (val M x - val M y) (fsub x y);
  half_near :
    forall x, number M x -> Rabs (val M x) <= 1000 ->
              near (val M x / 2) (fmul (of_Q (1 # 2)) x);
  clamp_exact :
    forall lo hi x, number M lo -> number M hi -> number M x ->
      number M (fclamp lo hi x) /\
      val M (fclamp lo hi x) = Rmin (Rmax (val M x) (val M lo)) (val M hi);
  clamp_bounds :
    number M clamp_low /\ number M clamp_high /\
    -1 + / 2 ^ 64 <= val M clamp_low /\
    val M clamp_low <= val M clamp_high /\
    val M clamp_high <= 1 - / 2 ^ 64
}.

End Accuracy.

(** Exact arithmetic: the numbers are the reals, and each stands for
    itself. *)
Definition exact : model Ideal.xreal := {|
  number := Ideal.is_finite;
  val x := match x with Ideal.Fin r => r | _ => 0 end
|}.

End Rounding.

(** * The engine of the program: float32

    Arithmetic and comparisons are those of IEEE 754 binary32.  [tanh],
    [exp], [log] and [log1p] are the functions of the mathematics library
    the engine is built on; they are not specified bit for bit, and are
    taken as they come: [Libm]. *)
Module Float32.

Class Libm : Type := {
  tanh32 : SpecFloat.spec_float -> SpecFloat.spec_float;
  exp32 : SpecFloat.spec_float -> SpecFloat.spec_float;
  log32 : SpecFloat.spec_float -> SpecFloat.spec_float;
  log1p32 : SpecFloat.spec_float -> SpecFloat.spec_float
}.

(** The number of the format nearest to a fraction, and to an integer. *)
Definition literal (q : Q) : SpecFloat.spec_float := IEEE.of_Q 24 128 q.
Definition integer (z : Z) : SpecFloat.spec_float := IEEE.of_Z 24 128 z.

#[global] Instance float32 `{Libm} : Backend SpecFloat.spec_float := {
  fadd := SpecFloat.SFadd 24 128;
  fsub := SpecFloat.SFsub 24 128;
  fmul := SpecFloat.SFmul 24 128;
  fdiv := SpecFloat.SFdiv 24 128;
  fneg := SpecFloat.SFopp;
  ftanh := tanh32;
  fexp := exp32;
  flog := log32;
  flog1p := log1p32;
  fclamp := IEEE.clamp;
  fisnan := IEEE.is_nan;
  feqb := SpecFloat.SFeqb;
  of_Q := literal;
  finf := SpecFloat.S754_infinity false;
  (** 2^-23 *)
  finfo_eps := literal (1 # 8388608);
  (** the float32 nearest to 0.9189385332046727 *)
  flog_sqrt_2pi := SpecFloat.S754_finite false 15417230 (-24);
  float_to_int := IEEE.to_int
}.

(** What every mathematics library gives at zero and far out: [tanh(0)]
    is 0 and [exp(0)] is 1, exactly, and [tanh(x)] is 1 from 10 on, where
    it is nearer to 1 than to any other number of the format. *)
Record LibmLaws `{Libm} : Prop := {
  tanh32_zero :
    tanh32 (SpecFloat.S754_zero false) = SpecFloat.S754_zero false;
  exp32_zero : exp32 (SpecFloat.S754_zero false) = integer 1;
  tanh32_saturates :
    forall x, SpecFloat.SFleb (integer 10) x = true -> tanh32 x = integer 1
}.

(** A library that obeys the laws and is otherwise plain: [tanh] is the
    identity below 10, and the other functions are the identity but for
    [exp(0)].  It stands for no library in use; it shows that the laws
    can be met. *)
Definition plain_libm : Libm := {|
  tanh32 x := if SpecFloat.SFleb (integer 10) x then integer 1 else x;
  exp32 x :=
    match x with
    | SpecFloat.S754_zero _ => integer 1
    | _ => x
    end;
  log32 x := x;
  log1p32 x := x
|}.

End Float32.

(** * The helper of the agent test

    [_check_agent_config(config, default_config)]: two loops of [assert]s
    over the keys of the two dictionaries.  [None] stands for the
    [AssertionError] of an [assert] that fails. *)
Module TestA2C.

Definition assert (b : bool) : option unit := if b then Some tt else None.

Definition _check_agent_config {A B : Type}
    (config : gmap string A) (default_config : gmap string B) : option unit :=
  _ ← mapM (fun k => assert (bool_decide (is_Some (default_config !! k))))
        (elements (dom config));
  _ ← mapM (fun k => assert (bool_decide (is_Some (config !! k))))
        (elements (dom default_config));
  Some tt.

End TestA2C.

(** ** Concrete inputs

    Inputs on which the statements below are tried, in the ideal backend. *)

(** The [Dict] of the docstring: a 2 x 3 [Box] and a [Discrete(4)]. *)
Definition docstring_dict : space Ideal.xreal :=
  Dict gym [("a", Box gym [2%Z; 3%Z] [] []); ("b", Discrete gym 4)].

(** A one-dimensional [gymnasium] [Box] without bounds. *)
Definition unbounded_box : space Ideal.xreal :=
  Box gymnasium [1%Z] [Ideal.NInf] [Ideal.PInf].

(** Models whose parameter trees hold one array each, of one element:
    [model_w] has 1 under [w], [model_v] has 1 under [v], [model_inf] has
    [inf] under [w], [model_two] has 2 under [w]. *)
Definition no_apply : ptree Ideal.xreal -> gmap string (pyval Ideal.xreal) ->
    string ->
    result (tensor Ideal.xreal * pyval Ideal.xreal
            * gmap string (pyval Ideal.xreal)) :=
  fun _ _ _ => Raise RuntimeError.

Definition one_leaf (key : string) (x : Ideal.xreal) : Jax.StateDict Ideal.xreal :=
  Jax.mkStateDict no_apply (PNode [(key, PLeaf (of_list [x]))]).

Definition model_of (sd : Jax.StateDict Ideal.xreal) : Jax.Model Ideal.xreal :=
  Jax.mkModel None None None None (Some sd) false.

Definition state_w : Jax.StateDict Ideal.xreal := one_leaf "w" (Ideal.Fin 1).
Definition state_v : Jax.StateDict Ideal.xreal := one_leaf "v" (Ideal.Fin 1).
Definition state_two : Jax.StateDict Ideal.xreal := one_leaf "w" (Ideal.Fin 2).
Definition model_w : Jax.Model Ideal.xreal := model_of state_w.
Definition model_v : Jax.Model Ideal.xreal := model_of state_v.
Definition model_two : Jax.Model Ideal.xreal := model_of state_two.

(** A policy over three actions in [[-1, 1]], fed a batch of two states:
    the network answers with zero mean actions and a zero log standard
    deviation, and the sampler draws zeros. *)
Definition zeros (shape : list nat) : tensor Ideal.xreal :=
  Tensor shape (fun _ => Ideal.Fin 0).

Definition compute0 : gmap string (pyval Ideal.xreal) -> string ->
    tensor Ideal.xreal * tensor Ideal.xreal * gmap string (pyval Ideal.xreal) :=
  fun _ _ => (zeros [2; 3], zeros [3], ∅).

Definition inputs0 : gmap string (pyval Ideal.xreal) :=
  {["states" := PyTensor (zeros [2; 5])]}.

Definition inputs_replay : gmap string (pyval Ideal.xreal) :=
  <["taken_actions" := PyTensor (zeros [2; 3])]> inputs0.

(** Inputs that spell out that no actions were taken. *)
Definition inputs_none : gmap string (pyval Ideal.xreal) :=
  <["taken_actions" := PyNone]> inputs0.

Definition noise0 : list nat -> Ideal.xreal := fun _ => Ideal.Fin 0.

(** A sampler gone wrong: it draws NaN. *)
Definition noise_nan : list nat -> Ideal.xreal := fun _ => Ideal.NaN.

Definition lows : list Ideal.xreal :=
  [Ideal.Fin (-1); Ideal.Fin (-1); Ideal.Fin (-1)].
Definition highs : list Ideal.xreal :=
  [Ideal.Fin 1; Ideal.Fin 1; Ideal.Fin 1].

Definition bounded_box : space Ideal.xreal :=
  Box gymnasium [3%Z] lows highs.

Definition plain_policy : Torch.GaussianMixin Ideal.xreal :=
  Torch.mkGaussianMixin false None None true (of_Q (-20)) (of_Q 2)
    None None None (Some torch_sum).

Definition clipped_policy : Torch.GaussianMixin Ideal.xreal :=
  Torch.mkGaussianMixin true (Some (of_list lows)) (Some (of_list highs))
    true (of_Q (-20)) (of_Q 2) None None None (Some torch_sum).

(** A policy whose first action is pinned: its lower and upper bound are
    the same number.  It returns the log-probability of every action. *)
Definition pinned_highs : list Ideal.xreal :=
  [Ideal.Fin (-1); Ideal.Fin 1; Ideal.Fin 1].

Definition pinned_policy : Torch.GaussianMixin Ideal.xreal :=
  Torch.mkGaussianMixin true (Some (of_list lows)) (Some (of_list pinned_highs))
    true (of_Q (-20)) (of_Q 2) None None None None.

(** A policy over one action in [[-0.1, 0.2]], in float32: the bounds are
    the numbers of the format nearest to -0.1 and 0.2.  The network
    answers one state with a zero mean action and a zero log standard
    deviation, and the sampler draws 12. *)
Section Float32Inputs.
Context `{Float32.Libm}.

Definition low32 : SpecFloat.spec_float := Float32.literal (-1 # 10).
Definition high32 : SpecFloat.spec_float := Float32.literal (2 # 10).

Definition tenth_box : space SpecFloat.spec_float :=
  Box gymnasium [1%Z] [low32] [high32].

Definition tenth_policy : Torch.GaussianMixin SpecFloat.spec_float :=
  Torch.mkGaussianMixin true (Some (of_list [low32])) (Some (of_list [high32]))
    true (of_Q (-20)) (of_Q 2) None None None (Some torch_sum).

Definition compute32 : gmap string (pyval SpecFloat.spec_float) -> string ->
    tensor SpecFloat.spec_float * tensor SpecFloat.spec_float
    * gmap string (pyval SpecFloat.spec_float) :=
  fun _ _ => (Tensor [1; 1] (fun _ => SpecFloat.S754_zero false),
              Tensor [1] (fun _ => SpecFloat.S754_zero false), ∅).

Definition inputs32 : gmap string (pyval SpecFloat.spec_float) :=
  {["states" := PyTensor (Tensor [1; 5] (fun _ => SpecFloat.S754_zero false))]}.

Definition noise32 : list nat -> SpecFloat.spec_float :=
  fun _ => Float32.integer 12.

End Float32Inputs.

(** * Properties *)

(** ** Shapes, indices and broadcasting *)

Section TensorFacts.
Context {F : Type} `{Backend F}.

Lemma indices_spec (s idx : list nat) :
  idx ∈ indices s <-> Forall2 lt idx s.
Proof.
  revert idx. induction s as [|d s IH]; intros idx; cbn.
  - rewrite list_elem_of_singleton. split.
    + intros ->. constructor.
    + inversion 1. reflexivity.
  - rewrite list_elem_of_bind. split.
    + intros (i & Hidx & Hi).
      apply list_elem_of_fmap in Hidx as (idx' & -> & Hidx').
      apply elem_of_seq in Hi. constructor; [lia|]. apply IH, Hidx'.
    + inversion 1 as [|i d' idx' s' Hi Hrest]; subst.
      exists i. split.
      * apply list_elem_of_fmap. exists idx'. split; [reflexivity|].
        apply IH, Hrest.
      * apply elem_of_seq. lia.
Qed.

Lemma indices_length (s idx : list nat) :
  idx ∈ indices s -> length idx = length s.
Proof. rewrite indices_spec. apply Forall2_length. Qed.

Lemma bdim_diag (a : nat) : bdim a a = Some a.
Proof. unfold bdim. rewrite decide_True by reflexivity. reflexivity. Qed.

Lemma broadcast_shapes_diag (s : list nat) : broadcast_shapes s s = Some s.
Proof.
  unfold broadcast_shapes, pad_shape.
  rewrite Nat.max_id, Nat.sub_diag. cbn.
  induction s as [|a s IH]; [reflexivity|].
  cbn. rewrite bdim_diag. cbn. rewrite IH. reflexivity.
Qed.

(** An index of a shape reads a tensor of that shape at itself. *)
Lemma bidx_id (s idx : list nat) :
  idx ∈ indices s -> bidx s idx = idx.
Proof.
  intros Hidx. unfold bidx.
  rewrite (indices_length _ _ Hidx), Nat.sub_diag, drop_0.
  apply indices_spec in Hidx.
  induction Hidx as [|i d idx s Hi _ IH]; [reflexivity|].
  cbn. rewrite IH. destruct (decide (d = 1)); [f_equal; lia|reflexivity].
Qed.

Lemma tbin_same_shape (f : F -> F -> F) (a b : tensor F) :
  tshape a = tshape b ->
  exists c, tbin f a b = Ok c /\ tshape c = tshape a /\
    forall idx, idx ∈ indices (tshape a) ->
      tdata c idx = f (tdata a idx) (tdata b idx).
Proof.
  intros Hs. unfold tbin. rewrite <- Hs, broadcast_shapes_diag.
  eexists. split; [reflexivity|]. split; [reflexivity|].
  intros idx Hidx. cbn. rewrite (bidx_id _ _ Hidx). reflexivity.
Qed.

End TensorFacts.

(** ** The space-size resolver *)

Section SpaceSize.
Context {F : Type} `{Backend F}.
Import Jax.

Lemma get_space_size_Dict lib spaces flag :
  _get_space_size (Dict lib spaces) flag =
  sum <$> resolve_children flag spaces.
Proof.
  cbn [_get_space_size]. fold (resolve_children flag).
  destruct (resolve_children flag spaces); reflexivity.
Qed.

Lemma resolve_children_ok flag spaces sizes :
  Forall2 (fun kv n => _get_space_size kv.2 flag = Ok n) spaces sizes ->
  resolve_children flag spaces = Ok sizes.
Proof.
  induction 1 as [|[k child] n spaces sizes Hn _ IH]; [reflexivity|].
  cbn [resolve_children]. fold (resolve_children flag).
  cbn in Hn. rewrite Hn. cbn. rewrite IH. reflexivity.
Qed.

Lemma foldl_add_foldr (l : list Z) (acc : Z) :
  foldl Z.add acc l = (acc + foldr Z.add 0 l)%Z.
Proof.
  revert acc. induction l as [|x l IH]; intros acc; cbn; [lia|].
  rewrite IH. lia.
Qed.

Lemma sum_foldr (l : list Z) : sum l = foldr Z.add 0%Z l.
Proof. unfold sum. rewrite foldl_add_foldr. lia. Qed.

(** C8. [_get_space_size] is a function of the space and the flag: an
    [int] resolves to itself and a [float] to [int] of itself; a [Dict]
    whose children resolve, with the same flag, to [sizes] resolves to
    their sum; a [Discrete] space resolves to 1 when the elements are not
    counted, whatever its [n]; any other space, and any other object, is
    refused with the [ValueError] for unsupported spaces. *)
Theorem get_space_size_spec :
  (forall n flag, _get_space_size (PyInt n) flag = Ok n) /\
  (forall x flag, _get_space_size (PyFloat x) flag = float_to_int x) /\
  (forall lib spaces flag sizes,
     Forall2 (fun kv n => _get_space_size kv.2 flag = Ok n) spaces sizes ->
     _get_space_size (Dict lib spaces) flag = Ok (foldr Z.add 0%Z sizes)) /\
  (forall lib n, _get_space_size (Discrete lib n) false = Ok 1%Z) /\
  (forall lib flag,
     _get_space_size (OtherSpace lib) flag
     = Raise (ValueError "Space type not supported")) /\
  (forall flag,
     _get_space_size (@OtherObject F) flag
     = Raise (ValueError "Space type not supported")).
Proof.
  repeat split; try reflexivity.
  intros lib spaces flag sizes Hall.
  rewrite get_space_size_Dict, (resolve_children_ok _ _ _ Hall).
  cbn. f_equal. apply sum_foldr.
Qed.

End SpaceSize.

(** The values of the docstring. *)
Example size_of_int :
  Jax._get_space_size (PyInt 2 : space Ideal.xreal) true = Ok 2%Z.
Proof. reflexivity. Qed.

Example size_of_sequence :
  Jax._get_space_size (PySeq [2%Z; 3%Z] : space Ideal.xreal) true = Ok 6%Z.
Proof. reflexivity. Qed.

Example size_of_box :
  Jax._get_space_size (Box gym [2%Z; 3%Z] [] [] : space Ideal.xreal) true
  = Ok 6%Z.
Proof. reflexivity. Qed.

Example size_of_discrete :
  Jax._get_space_size (Discrete gym 4 : space Ideal.xreal) true = Ok 4%Z /\
  Jax._get_space_size (Discrete gym 4 : space Ideal.xreal) false = Ok 1%Z.
Proof. split; reflexivity. Qed.

Lemma get_space_size_spec_witness :
  Jax._get_space_size docstring_dict true = Ok 10%Z /\
  Jax._get_space_size docstring_dict false = Ok 7%Z.
Proof.
  pose proof (@get_space_size_spec Ideal.xreal Ideal.ideal)
    as (_ & _ & HDict & _).
  split.
  - apply (HDict gym _ true [6%Z; 4%Z]).
    repeat constructor.
  - apply (HDict gym _ false [6%Z; 1%Z]).
    repeat constructor.
Defined.

(** ** The constructor of the mixin and the action space *)

Section Init.
Context {F : Type} `{Backend F}.
Import Torch.

Lemma replace_bound_from (bad good : F) (l done : list F) :
  foldl (fun b i =>
           match b !! i with
           | Some x => if feqb x bad then <[i := good]> b else b
           | None => b
           end)
        (done ++ l) (seq (length done) (length l))
  = done ++ (sanitize bad good <$> l).
Proof.
  revert done. induction l as [|x l IH]; intros done; [reflexivity|].
  cbn [length seq foldl].
  rewrite list_lookup_middle by reflexivity.
  replace (if feqb x bad then <[length done := good]> (done ++ x :: l)
           else done ++ x :: l)
    with ((done ++ [sanitize bad good x]) ++ l).
  - specialize (IH (done ++ [sanitize bad good x])).
    rewrite length_app, Nat.add_1_r in IH. rewrite IH.
    rewrite <- app_assoc. reflexivity.
  - rewrite <- app_assoc. unfold sanitize. cbn.
    destruct (feqb x bad); [|reflexivity].
    rewrite insert_app_r_alt by lia.
    rewrite Nat.sub_diag. reflexivity.
Qed.

Lemma replace_bound_fmap (bad good : F) (l : list F) :
  replace_bound bad good l = sanitize bad good <$> l.
Proof. apply (replace_bound_from bad good l []). Qed.

(** The constructor on a [gymnasium] [Box], with clipping asked for:
    where the bounds can be walked over entry by entry, and where they
    cannot. *)
Lemma init_on_gymnasium_box
    (clip_log_std : bool) (min_log_std max_log_std : F)
    (reduction role : string) (shape : list Z) (low high : list F) :
  iterate_bound shape = Ok tt ->
  let low' := sanitize (fneg finf) (of_Q (-1)) <$> low in
  let high' := sanitize finf (of_Q 1) <$> high in
  __init__ true clip_log_std min_log_std max_log_std reduction role
    (Box gymnasium shape low high)
  = (Box gymnasium shape low' high',
     if decide (reduction ∈ ["mean"; "sum"; "prod"; "none"]) then
       Ok (mkGaussianMixin true (Some (bound_tensor shape low'))
             (Some (bound_tensor shape high'))
             clip_log_std min_log_std max_log_std None None None
             (reduction_of reduction))
     else
       Raise (ValueError
                "reduction must be one of 'mean', 'sum', 'prod' or 'none'")).
Proof.
  intros Hshape low' high'.
  unfold __init__, mbind, py_bind, get_state, get_low, set_low, get_high,
    set_high, get_shape, lift.
  cbn -[decide replace_bound iterate_bound bound_tensor].
  rewrite Hshape, !replace_bound_fmap.
  cbn -[decide replace_bound iterate_bound bound_tensor].
  fold low' high'. destruct (decide _); reflexivity.
Qed.

Lemma init_on_gymnasium_box_raises
    (clip_log_std : bool) (min_log_std max_log_std : F)
    (reduction role : string) (shape : list Z) (low high : list F) (e : exn) :
  iterate_bound shape = Raise e ->
  __init__ true clip_log_std min_log_std max_log_std reduction role
    (Box gymnasium shape low high)
  = (Box gymnasium shape low high, Raise e).
Proof.
  intros Hshape.
  unfold __init__, mbind, py_bind, get_state, get_low, set_low, get_high,
    set_high, get_shape, lift.
  cbn -[decide replace_bound iterate_bound bound_tensor].
  rewrite Hshape. reflexivity.
Qed.

Lemma iterate_bound_entries (n : Z) (rest : list Z) :
  row_size rest = 1%Z -> iterate_bound (n :: rest) = Ok tt.
Proof.
  intros Hrow. unfold iterate_bound. rewrite decide_True by exact Hrow.
  reflexivity.
Qed.

Lemma iterate_bound_rows (n : Z) (rest : list Z) :
  (0 < n)%Z -> (1 < row_size rest)%Z ->
  exists msg, iterate_bound (n :: rest) = Raise (ValueError msg).
Proof.
  intros Hn Hrow. unfold iterate_bound.
  rewrite decide_False by lia. rewrite decide_False by lia.
  destruct (decide _); eexists; reflexivity.
Qed.

(** C9, as the code has it. On a [gymnasium] [Box] whose bounds the loops
    can walk over entry by entry (one axis, or rows of one entry),
    [__init__] with [clip_actions] on writes the sanitized bounds into the
    arrays of the space it was given: afterwards every entry of [low] that
    was [-inf] is [-1.0] and every entry of [high] that was [inf] is
    [1.0], the other entries and the rest of the space are as before, also
    when the constructor then refuses the reduction; the bounds the policy
    keeps are tensors of the sanitized arrays.  On a [Box] without axes
    ([TypeError]), and on one with rows of more than one entry
    ([ValueError]), the first loop raises before it writes: the space is
    as it was and no policy is made. *)
Theorem init_sanitizes_space_in_place
    (clip_log_std : bool) (min_log_std max_log_std : F)
    (reduction role : string) (low high : list F) :
  (forall n rest,
     row_size rest = 1%Z ->
     exists low' high',
       __init__ true clip_log_std min_log_std max_log_std reduction role
         (Box gymnasium (n :: rest) low high)
       = (Box gymnasium (n :: rest) low' high',
          if decide (reduction ∈ ["mean"; "sum"; "prod"; "none"]) then
            Ok (mkGaussianMixin true
                  (Some (bound_tensor (n :: rest) low'))
                  (Some (bound_tensor (n :: rest) high'))
                  clip_log_std min_log_std max_log_std None None None
                  (reduction_of reduction))
          else
            Raise (ValueError
                     "reduction must be one of 'mean', 'sum', 'prod' or 'none'")) /\
       length low' = length low /\ length high' = length high /\
       (forall i x, low !! i = Some x ->
          low' !! i = Some (if feqb x (fneg finf) then of_Q (-1) else x)) /\
       (forall i x, high !! i = Some x ->
          high' !! i = Some (if feqb x finf then of_Q 1 else x))) /\
  (forall n, bound_tensor [n] low = of_list low) /\
  __init__ true clip_log_std min_log_std max_log_std reduction role
    (Box gymnasium [] low high)
  = (Box gymnasium [] low high, Raise TypeError) /\
  (forall n rest,
     (0 < n)%Z -> (1 < row_size rest)%Z ->
     exists msg,
       __init__ true clip_log_std min_log_std max_log_std reduction role
         (Box gymnasium (n :: rest) low high)
       = (Box gymnasium (n :: rest) low high, Raise (ValueError msg))).
Proof.
  split; [|split; [|split]].
  - intros n rest Hrow.
    exists (sanitize (fneg finf) (of_Q (-1)) <$> low),
           (sanitize finf (of_Q 1) <$> high).
    split; [apply init_on_gymnasium_box, iterate_bound_entries, Hrow|].
    rewrite !length_fmap.
    split; [reflexivity|]. split; [reflexivity|]. split.
    + intros i x Hx. rewrite list_lookup_fmap, Hx. reflexivity.
    + intros i x Hx. rewrite list_lookup_fmap, Hx. reflexivity.
  - reflexivity.
  - apply init_on_gymnasium_box_raises. reflexivity.
  - intros n rest Hn Hrow.
    destruct (iterate_bound_rows n rest Hn Hrow) as (msg & Hraise).
    exists msg. apply init_on_gymnasium_box_raises, Hraise.
Qed.

(** C10. When the action space is not a [gymnasium] space, [__init__] with
    [clip_actions=True] does what it does with [clip_actions=False]: the
    space is left as it is, nothing is raised on account of the flag, the
    policy has clipping off and no bounds, and [act] on the two policies is
    the same computation. *)
Theorem init_clip_without_gymnasium_space
    (clip_log_std : bool) (min_log_std max_log_std : F)
    (reduction role : string) (sp : space F) :
  is_gymnasium_space sp = false ->
  __init__ true clip_log_std min_log_std max_log_std reduction role sp
  = __init__ false clip_log_std min_log_std max_log_std reduction role sp /\
  __init__ true clip_log_std min_log_std max_log_std reduction role sp
  = (sp,
     if decide (reduction ∈ ["mean"; "sum"; "prod"; "none"]) then
       Ok (mkGaussianMixin false None None
             clip_log_std min_log_std max_log_std None None None
             (reduction_of reduction))
     else
       Raise (ValueError
                "reduction must be one of 'mean', 'sum', 'prod' or 'none'")) /\
  forall self self' compute inputs role' noise,
    (__init__ true clip_log_std min_log_std max_log_std reduction role sp).2
    = Ok self ->
    (__init__ false clip_log_std min_log_std max_log_std reduction role sp).2
    = Ok self' ->
    act compute inputs role' noise self = act compute inputs role' noise self'.
Proof.
  intros Hsp.
  assert (Heq : __init__ true clip_log_std min_log_std max_log_std reduction
                  role sp
                = __init__ false clip_log_std min_log_std max_log_std reduction
                    role sp).
  { unfold __init__, mbind, py_bind, get_state. cbn -[decide].
    rewrite Hsp. reflexivity. }
  split; [exact Heq|]. split.
  - rewrite Heq. unfold __init__, mbind, py_bind, get_state. cbn -[decide].
    destruct (decide _); reflexivity.
  - intros self self' compute inputs role' noise Hs Hs'.
    rewrite Heq, Hs' in Hs. injection Hs as <-. reflexivity.
Qed.

End Init.

(** The concrete clipped policy is what the constructor builds on the
    bounded box. *)
Lemma clipped_policy_constructed :
  Torch.__init__ true true (of_Q (-20)) (of_Q 2) "sum" "" bounded_box
  = (bounded_box, Ok clipped_policy).
Proof.
  unfold bounded_box. rewrite init_on_gymnasium_box by reflexivity.
  reflexivity.
Qed.

Lemma init_clip_without_gymnasium_space_witness :
  Torch.__init__ true true (of_Q (-20)) (of_Q 2) "sum" "" (PyInt 3)
  = (PyInt 3,
     Ok (Torch.mkGaussianMixin false None None true (of_Q (-20)) (of_Q 2)
           None None None (Some torch_sum))).
Proof.
  destruct (init_clip_without_gymnasium_space
              true (of_Q (-20)) (of_Q 2) "sum" "" (PyInt 3) eq_refl)
    as (_ & -> & _).
  reflexivity.
Defined.

Lemma init_sanitizes_space_in_place_witness :
  (exists low' high',
     (Torch.__init__ true true (of_Q (-20)) (of_Q 2) "sum" "" unbounded_box).1
     = Box gymnasium [1%Z] low' high' /\
     low' !! 0 = Some (of_Q (-1)) /\ high' !! 0 = Some (of_Q 1)) /\
  (exists msg,
     Torch.__init__ true true (of_Q (-20)) (of_Q 2) "sum" ""
       (Box gymnasium [2%Z; 3%Z] (replicate 6 Ideal.NInf)
          (replicate 6 Ideal.PInf))
     = (Box gymnasium [2%Z; 3%Z] (replicate 6 Ideal.NInf)
          (replicate 6 Ideal.PInf),
        Raise (ValueError msg))).
Proof.
  split.
  - destruct (init_sanitizes_space_in_place true (of_Q (-20)) (of_Q 2) "sum" ""
                [Ideal.NInf] [Ideal.PInf]) as (Hentries & _).
    destruct (Hentries 1%Z [] eq_refl)
      as (low' & high' & Hinit & _ & _ & Hlow & Hhigh).
    exists low', high'. unfold unbounded_box. rewrite Hinit.
    split; [reflexivity|]. split.
    + apply (Hlow 0 Ideal.NInf eq_refl).
    + apply (Hhigh 0 Ideal.PInf eq_refl).
  - destruct (init_sanitizes_space_in_place true (of_Q (-20)) (of_Q 2) "sum" ""
                (replicate 6 Ideal.NInf) (replicate 6 Ideal.PInf))
      as (_ & _ & _ & Hrows).
    apply (Hrows 2%Z [3%Z]); [lia|reflexivity].
Defined.

(** C9, as the claim has it, fails: a [Box] with the bounds [-inf] and [inf]
    comes out of the constructor with the bounds [-1.0] and [1.0]. *)
Lemma init_leaves_space_unchanged_counterexample :
  ~ (forall clip_log_std min_log_std max_log_std reduction role
            (sp : space Ideal.xreal),
       (Torch.__init__ true clip_log_std min_log_std max_log_std
          reduction role sp).1 = sp).
Proof.
  intros Hclaim.
  specialize (Hclaim true (of_Q (-20)) (of_Q 2) "sum" "" unbounded_box).
  unfold unbounded_box, Torch.__init__, mbind, py_bind, get_state in Hclaim.
  cbn in Hclaim. discriminate Hclaim.
Qed.

(** ** Parameter trees and [update_parameters] *)

Section ParameterTrees.
Context {F : Type} `{Backend F}.
Import Jax.

Lemma ptree_nested_ind (P : ptree F -> Prop) :
  (forall a, P (PLeaf a)) ->
  (forall items, Forall (fun kv => P kv.2) items -> P (PNode items)) ->
  forall t, P t.
Proof.
  intros Hleaf Hnode. fix IH 1. intros [a|items].
  - apply Hleaf.
  - apply Hnode. induction items as [|[k t] items IHitems]; constructor.
    + apply IH.
    + apply IHitems.
Qed.

Lemma flatten_up_to_PNode (items items' : list (string * ptree F)) :
  flatten_up_to (PNode items) (PNode items') =
  if decide (items.*1 = items'.*1) then flatten_items items items'
  else Raise (ValueError "pytree structure mismatch").
Proof. reflexivity. Qed.

Lemma tree_zip_PNode f (items items' : list (string * ptree F)) :
  tree_zip f (PNode items) (PNode items') = PNode <$> zip_items f items items'.
Proof. reflexivity. Qed.

Lemma same_paths_PNode (items items' : list (string * ptree F)) :
  same_paths (PNode items) (PNode items') =
  bool_decide (items.*1 = items'.*1) && same_paths_items items items'.
Proof. reflexivity. Qed.





Lemma flatten_up_to_raises (a b : ptree F) (e : exn) :
  flatten_up_to a b = Raise e -> e = ValueError "pytree structure mismatch".
Proof.
  revert b. induction a as [x|items IH] using ptree_nested_ind;
    intros [y|items']; try discriminate.
  - cbn. congruence.
  - rewrite flatten_up_to_PNode.
    destruct (decide _) as [_|_]; [|congruence].
    revert items'.
    induction IH as [|[k t] items IHt _ IHitems]; intros [|[k' t'] items'];
      cbn in *; try discriminate.
    destruct (flatten_up_to t t') as [[]|e'] eqn:Ht; cbn.
    + apply IHitems.
    + intros [= <-]. apply (IHt _ Ht).
Qed.

(** Past the structure test, [soft_update] is the only thing that raises. *)
Lemma tree_zip_raises (polyak : F) (a b : ptree F) (e : exn) :
  flatten_up_to a b = Ok tt ->
  tree_zip (soft_update polyak) a b = Raise e -> e = TypeError.
Proof.
  revert b. induction a as [x|items IH] using ptree_nested_ind;
    intros [y|items']; try discriminate.
  - intros _. cbn. unfold jnp_add. destruct (tbin _ _ _); cbn; congruence.
  - intros _. cbn. congruence.
  - rewrite flatten_up_to_PNode, tree_zip_PNode.
    destruct (decide _) as [_|_]; [|discriminate].
    intros Hflat Hzip.
    assert (Hitems : zip_items (soft_update polyak) items items' = Raise e).
    { destruct (zip_items _ _ _); [discriminate|]. cbn in Hzip. congruence. }
    clear Hzip. revert items' Hflat Hitems.
    induction IH as [|[k t] items IHt _ IHitems]; intros [|[k' t'] items'];
      cbn in *; try discriminate.
    destruct (flatten_up_to t t') as [[]|e'] eqn:Ht; cbn; [|discriminate].
    intros Hflat.
    destruct (tree_zip _ t t') as [x|e'] eqn:Hzt; cbn.
    + destruct (zip_items _ items items') as [xs|e'] eqn:Hzi; cbn;
        [discriminate|].
      intros [= <-]. apply (IHitems _ Hflat Hzi).
    + intros [= <-]. apply (IHt _ Ht Hzt).
Qed.

(** Where the paths differ and the structure test has passed, a leaf of
    the own tree meets a dictionary of the source. *)
Lemma tree_zip_mismatch (polyak : F) (a b : ptree F) :
  flatten_up_to a b = Ok tt -> same_paths a b = false ->
  tree_zip (soft_update polyak) a b = Raise TypeError.
Proof.
  revert b. induction a as [x|items IH] using ptree_nested_ind;
    intros [y|items']; try discriminate.
  - reflexivity.
  - rewrite flatten_up_to_PNode, tree_zip_PNode, same_paths_PNode.
    destruct (decide _) as [Hkeys|_]; [|discriminate].
    rewrite bool_decide_eq_true_2 by exact Hkeys. cbn. clear Hkeys.
    intros Hflat Hpaths.
    enough (zip_items (soft_update polyak) items items' = Raise TypeError)
      as -> by reflexivity.
    revert items' Hflat Hpaths.
    induction IH as [|[k t] items IHt _ IHitems]; intros [|[k' t'] items'];
      cbn in *; try discriminate.
    destruct (flatten_up_to t t') as [[]|e'] eqn:Ht; cbn; [|discriminate].
    intros Hflat Hpaths.
    destruct (same_paths t t') eqn:Hsame; cbn in Hpaths.
    + destruct (tree_zip _ t t') as [x|e'] eqn:Hzt; cbn.
      * rewrite (IHitems _ Hflat Hpaths). reflexivity.
      * rewrite (tree_zip_raises _ _ _ _ Ht Hzt). reflexivity.
    + rewrite (IHt _ Ht Hsame). reflexivity.
Qed.

Lemma tree_map_mismatch (polyak : F) (a b : ptree F) :
  same_paths a b = false ->
  exists e, tree_map (soft_update polyak) a b = Raise e /\
    (e = ValueError "pytree structure mismatch" \/ e = TypeError).
Proof.
  intros Hpaths. unfold tree_map.
  destruct (flatten_up_to a b) as [[]|e] eqn:Hflat; cbn.
  - exists TypeError. split; [|right; reflexivity].
    apply tree_zip_mismatch; assumption.
  - exists e. split; [reflexivity|]. left.
    apply (flatten_up_to_raises _ _ _ Hflat).
Qed.






(** The two branches of [update_parameters], for initialised models. *)
Lemma update_parameters_hard (self model : Model F) (own source : StateDict F)
    (polyak : F) :
  state_dict self = Some own -> state_dict model = Some source ->
  feqb polyak (of_Q 1) = true ->
  update_parameters model polyak self
  = (set_state_dict (replace own (params source)) self, Ok tt).
Proof.
  intros Hown Hsource Hpolyak.
  unfold update_parameters, mbind, py_bind, get_state.
  rewrite Hpolyak, Hown, Hsource. reflexivity.
Qed.

Lemma update_parameters_soft (self model : Model F) (own source : StateDict F)
    (polyak : F) :
  state_dict self = Some own -> state_dict model = Some source ->
  feqb polyak (of_Q 1) = false ->
  update_parameters model polyak self
  = match tree_map (soft_update polyak) (params own) (params source) with
    | Ok new_params => (set_state_dict (replace own new_params) self, Ok tt)
    | Raise e => (self, Raise e)
    end.
Proof.
  intros Hown Hsource Hpolyak.
  unfold update_parameters, mbind, py_bind, get_state.
  rewrite Hpolyak, Hown, Hsource. cbn.
  destruct (tree_map _ _ _); reflexivity.
Qed.


(** C7, as the code has it. When the parameter paths of the source differ
    from those of this model, a soft update (polyak other than 1) raises,
    from jax's structure test or from the arithmetic on a dictionary, and
    the model is left exactly as it was; a hard update (polyak 1, the
    default) compares nothing and installs the source's tree as it is. *)
Theorem update_parameters_paths_differ (self model : Model F)
    (own source : StateDict F) (polyak : F) :
  state_dict self = Some own -> state_dict model = Some source ->
  same_paths (params own) (params source) = false ->
  (feqb polyak (of_Q 1) = false ->
   exists e, update_parameters model polyak self = (self, Raise e) /\
     (e = ValueError "pytree structure mismatch" \/ e = TypeError)) /\
  (feqb polyak (of_Q 1) = true ->
   update_parameters model polyak self
   = (set_state_dict (replace own (params source)) self, Ok tt)).
Proof.
  intros Hown Hsource Hpaths. split; intros Hpolyak.
  - rewrite (update_parameters_soft _ _ _ _ _ Hown Hsource Hpolyak).
    destruct (tree_map_mismatch polyak _ _ Hpaths) as (e & -> & He).
    exists e. split; [reflexivity|exact He].
  - apply (update_parameters_hard _ _ _ _ _ Hown Hsource Hpolyak).
Qed.

End ParameterTrees.

(** Comparisons in the ideal backend. *)
Lemma xeqb_refl (a : R) : Ideal.xeqb (Ideal.Fin a) (Ideal.Fin a) = true.
Proof. cbn. destruct (Req_EM_T a a); [reflexivity|contradiction]. Qed.

Lemma xeqb_neq (a b : R) :
  a <> b -> Ideal.xeqb (Ideal.Fin a) (Ideal.Fin b) = false.
Proof. intros Hab. cbn. destruct (Req_EM_T a b); [contradiction|reflexivity]. Qed.

Lemma half_is_not_one : feqb (of_Q (1 # 2)) (of_Q 1) = false.
Proof. apply xeqb_neq. cbn. lra. Qed.


Lemma update_parameters_paths_differ_witness :
  (exists e,
     Jax.update_parameters model_v (of_Q (1 # 2)) model_w
     = (model_w, Raise e) /\
     (e = ValueError "pytree structure mismatch" \/ e = TypeError)) /\
  Jax.update_parameters model_v (of_Q 1) model_w
  = (Jax.set_state_dict (Jax.replace state_w (Jax.params state_v)) model_w,
     Ok tt).
Proof.
  split.
  - apply (update_parameters_paths_differ model_w model_v state_w state_v
             (of_Q (1 # 2)) eq_refl eq_refl eq_refl).
    apply half_is_not_one.
  - apply (update_parameters_paths_differ model_w model_v state_w state_v
             (of_Q 1) eq_refl eq_refl eq_refl).
    apply xeqb_refl.
Defined.

(** C7, as the claim has it, fails for the hard update: with polyak 1 a
    tree under the key [v] replaces a tree under the key [w] and nothing is
    raised. *)
Lemma update_parameters_always_checks_counterexample :
  ~ (forall (self model : Jax.Model Ideal.xreal)
            (own source : Jax.StateDict Ideal.xreal)
            (polyak : Ideal.xreal),
       Jax.state_dict self = Some own -> Jax.state_dict model = Some source ->
       Jax.same_paths (Jax.params own) (Jax.params source) = false ->
       exists e, Jax.update_parameters model polyak self = (self, Raise e)).
Proof.
  intros Hclaim.
  destruct (Hclaim model_w model_v state_w state_v (of_Q 1)
              eq_refl eq_refl eq_refl) as (e & He).
  rewrite (update_parameters_hard model_w model_v state_w state_v)
    in He by (reflexivity || apply xeqb_refl).
  discriminate He.
Qed.






(** ** Tactics for runs of the monads *)

(** Running the monad by hand. *)
Ltac py_unfold :=
  unfold mbind, py_bind, mret, py_ret, get_state, modify, lift, raise, attr
    in *.

(** Following a run that has returned: every call on the way has
    returned. *)
Ltac py_simpl H :=
  unfold result_bind, result_ret, result_fmap in H;
  cbn -[Torch.Normal_init Torch.rsample Torch.log_prob Torch.inverse_tanh
        tbin head_slice shape0 treduce unsqueeze_last rank tany] in H.

Ltac py_atomic r :=
  lazymatch r with
  | context [match _ with Ok _ => _ | Raise _ => _ end] => fail
  | context [match _ with Some _ => _ | None => _ end] => fail
  | _ => idtac
  end.

Ltac py_step H :=
  match type of H with
  | context [match ?r with Ok _ => _ | Raise _ => _ end] =>
      py_atomic r; destruct r eqn:?; py_simpl H; try discriminate H
  | context [match ?o with Some _ => _ | None => _ end] =>
      py_atomic o; destruct o eqn:?; py_simpl H; try discriminate H
  end.

Ltac py_run H := py_unfold; py_simpl H; repeat py_step H.

(** Replaying the calls that have returned. *)
Ltac py_goal_simpl :=
  unfold mbind, mret, result_bind, result_ret, result_fmap;
  cbn -[Torch.Normal_init Torch.rsample Torch.log_prob Torch.inverse_tanh
        tbin head_slice shape0 treduce unsqueeze_last rank tany].

Ltac py_rewrite :=
  py_goal_simpl;
  repeat match goal with
         | E : ?r = Ok _ |- context [?r] => rewrite E; py_goal_simpl
         end.

Ltac py_cases :=
  repeat match goal with
         | |- context [match ?r with Ok _ => _ | Raise _ => _ end] =>
             py_atomic r; destruct r eqn:?; py_goal_simpl; try discriminate
         end.

(** ** [act] *)

Section Act.
Context {F : Type} `{Backend F}.
Import Torch.

Implicit Types (self : GaussianMixin F) (inputs outputs : gmap string (pyval F)).

Lemma tany_true_iff (p : F -> bool) (t : tensor F) :
  tany p t = true <->
  exists idx, idx ∈ indices (tshape t) /\ p (tdata t idx) = true.
Proof.
  unfold tany. rewrite existsb_exists.
  split; intros (idx & Hidx & Hp); exists idx; split; try exact Hp;
    apply list_elem_of_In, Hidx.
Qed.

Lemma tany_false_iff (p : F -> bool) (t : tensor F) :
  tany p t = false <->
  forall idx, idx ∈ indices (tshape t) -> p (tdata t idx) = false.
Proof.
  rewrite <- not_true_iff_false, tany_true_iff. split.
  - intros Hno idx Hidx. apply not_true_iff_false. intros Hp.
    apply Hno. exists idx. split; assumption.
  - intros Hall (idx & Hidx & Hp). rewrite (Hall idx Hidx) in Hp.
    discriminate.
Qed.

(** [act] is [act_outputs] followed by the test. *)
Lemma act_unfold compute inputs role noise self :
  act compute inputs role noise self =
  match act_outputs compute inputs role noise self with
  | (self', Ok (actions, log_p, outputs)) =>
      (self', if tany fisnan actions
              then Raise (ValueError "NaN values found in actions")
              else Ok (actions, log_p, outputs))
  | (self', Raise e) => (self', Raise e)
  end.
Proof.
  unfold act. py_unfold.
  destruct (act_outputs compute inputs role noise self)
    as [self' [[[actions log_p] outputs]|e]]; [|reflexivity].
  destruct (tany fisnan actions); reflexivity.
Qed.

Lemma act_returns compute inputs role noise self self' actions log_p outputs :
  act compute inputs role noise self = (self', Ok (actions, log_p, outputs)) ->
  act_outputs compute inputs role noise self
  = (self', Ok (actions, log_p, outputs)) /\
  tany fisnan actions = false.
Proof.
  rewrite act_unfold.
  destruct (act_outputs compute inputs role noise self)
    as [self'' [[[actions' log_p'] outputs']|e]]; [|discriminate].
  destruct (tany fisnan actions') eqn:Hnan; [discriminate|].
  intros [= <- <- <- <-]. split; [reflexivity|exact Hnan].
Qed.

(** C5. Once [act] has produced its actions, it raises the [ValueError]
    for not-a-number values exactly when some element of the actions is
    NaN, and then returns nothing; the actions are not altered and nothing
    is tried again.  When no element is NaN it returns the actions, the
    log-probability and the outputs it has produced. *)
Theorem act_raises_iff_nan compute inputs role noise self self'
    actions log_p outputs :
  act_outputs compute inputs role noise self
  = (self', Ok (actions, log_p, outputs)) ->
  ((exists idx, idx ∈ indices (tshape actions) /\
                fisnan (tdata actions idx) = true) ->
   act compute inputs role noise self
   = (self', Raise (ValueError "NaN values found in actions"))) /\
  ((forall idx, idx ∈ indices (tshape actions) ->
                fisnan (tdata actions idx) = false) ->
   act compute inputs role noise self
   = (self', Ok (actions, log_p, outputs))).
Proof.
  intros Hout. rewrite act_unfold, Hout. split.
  - intros Hnan%tany_true_iff. rewrite Hnan. reflexivity.
  - intros Hnone%tany_false_iff. rewrite Hnone. reflexivity.
Qed.

(** C1. When clipping is on and [inputs] holds a tensor under
    ["taken_actions"], the log-probability [act] returns is, before the
    reduction, the log-density of the distribution of this call (location
    [tanh] of the mean actions, scale [exp] of the log standard deviation)
    at the inverse tanh of the taken actions rescaled from [[low, high]] to
    [[-1, 1]], minus [log(1 - u^2 + EPS)] for the rescaled actions [u], with
    [EPS] = 1e-6. *)
Theorem act_log_prob_of_taken_actions compute inputs role noise self self'
    actions log_p outputs taken :
  _g_clip_actions self = true ->
  inputs !! "taken_actions" = Some (PyTensor taken) ->
  act compute inputs role noise self = (self', Ok (actions, log_p, outputs)) ->
  exists dist low high p,
    Normal_init (tmap ftanh (compute inputs role).1.1)
      (tmap fexp (clamped_log_std self (compute inputs role).1.2)) = Ok dist /\
    _g_distribution self' = Some dist /\
    _g_clip_actions_min self = Some low /\
    _g_clip_actions_max self = Some high /\
    squashed_log_prob dist low high taken = Ok p /\
    log_p = reduce_log_prob (_g_reduction self) actions p /\
    EPS = of_Q (1 # 1000000).
Proof.
  intros Hclip Htaken [Hout _]%act_returns.
  unfold act_outputs in Hout.
  destruct (compute inputs role) as [[mean log_std] outs].
  py_unfold. py_simpl Hout. rewrite Hclip, Htaken in Hout.
  py_run Hout.
  all: injection Hout as <- <- <- <-.
  all: match goal with
       | Hd : Normal_init _ _ = Ok ?d, Hlo : _ = Some ?lo, Hhi : _ = Some ?hi,
         Hp : tbin fsub _ (tmap flog _) = Ok ?p |- _ =>
           exists d, lo, hi, p
       end.
  all: repeat split; try assumption; try reflexivity.
  all: unfold squashed_log_prob, rescale_to_unit, tanh_correction.
  all: py_rewrite; py_cases; congruence.
Qed.

(** Shapes through the distribution. *)
Lemma tbin_shape (f : F -> F -> F) (a b : tensor F) (s : list nat) :
  broadcast_shapes (tshape a) (tshape b) = Some s ->
  exists c, tbin f a b = Ok c /\ tshape c = s.
Proof.
  intros Hs. unfold tbin. rewrite Hs. eexists. split; reflexivity.
Qed.

Lemma rsample_shape (d : Normal F) (noise : list nat -> F) (s : list nat) :
  tshape (loc d) = s -> tshape (scale d) = s ->
  exists a, rsample d noise = Ok a /\ tshape a = s.
Proof.
  intros Hloc Hscale. unfold rsample.
  destruct (tbin_shape fmul (Tensor (tshape (loc d)) noise) (scale d) s)
    as (x & -> & Hx).
  { cbn. rewrite Hloc, Hscale. apply broadcast_shapes_diag. }
  py_goal_simpl. apply tbin_shape. rewrite Hloc, Hx.
  apply broadcast_shapes_diag.
Qed.

Lemma log_prob_shape (d : Normal F) (v : tensor F) (s : list nat) :
  tshape (loc d) = s -> tshape (scale d) = s ->
  broadcast_shapes (tshape v) s = Some s ->
  exists p, log_prob d (PyTensor v) = Ok p /\ tshape p = s.
Proof.
  intros Hloc Hscale Hv. unfold log_prob.
  destruct (tbin_shape fsub v (loc d) s) as (diff & -> & Hdiff).
  { rewrite Hloc. exact Hv. }
  py_goal_simpl.
  destruct (tbin_shape fdiv (tmap fneg (tmap (fun x => fmul x x) diff))
              (tmap (fmul (of_Q 2)) (tmap (fun x => fmul x x) (scale d))) s)
    as (q & -> & Hq).
  { cbn. rewrite Hdiff, Hscale. apply broadcast_shapes_diag. }
  py_goal_simpl.
  destruct (tbin_shape fsub q (tmap flog (scale d)) s) as (r & -> & Hr).
  { cbn. rewrite Hq, Hscale. apply broadcast_shapes_diag. }
  py_goal_simpl. eexists. split; [reflexivity|exact Hr].
Qed.

Lemma act_outputs_shapes compute inputs role noise self (B D : nat) :
  _g_clip_actions self = false ->
  tshape (compute inputs role).1.1 = [B; D] ->
  broadcast_shapes [B; D] (tshape (compute inputs role).1.2) = Some [B; D] ->
  (inputs !! "taken_actions" = None \/
   exists taken, inputs !! "taken_actions" = Some (PyTensor taken) /\
                 broadcast_shapes (tshape taken) [B; D] = Some [B; D]) ->
  exists self' actions log_p outputs,
    act_outputs compute inputs role noise self
    = (self', Ok (actions, log_p, outputs)) /\
    tshape actions = [B; D] /\
    tshape log_p = match _g_reduction self with
                   | Some _ => [B; 1]
                   | None => [B; D]
                   end.
Proof.
  intros Hclip Hmean Hstd Htaken. unfold act_outputs.
  destruct (compute inputs role) as [[mean log_std] outs]. cbn in Hmean, Hstd.
  py_unfold. rewrite Hclip. cbn -[Normal_init rsample log_prob].
  unfold head_slice at 1, shape0. rewrite Hmean.
  unfold Normal_init. cbn [tshape tmap].
  replace (tshape (if _g_clip_log_std self
                   then tmap (fclamp (_g_log_std_min self)
                                (_g_log_std_max self)) log_std
                   else log_std)) with (tshape log_std)
    by (destruct (_g_clip_log_std self); reflexivity).
  rewrite Hmean, Hstd.
  match goal with
  | |- context [rsample ?d noise] =>
      destruct (rsample_shape d noise [B; D] eq_refl eq_refl)
        as (actions & -> & Hactions);
      assert (Hp : exists p,
                 log_prob d (default (PyTensor actions)
                               (inputs !! "taken_actions")) = Ok p /\
                 tshape p = [B; D])
  end.
  { destruct Htaken as [-> | (taken & -> & Hshape)]; cbn [default];
      apply log_prob_shape; try reflexivity; try exact Hshape.
    rewrite Hactions. apply broadcast_shapes_diag. }
  destruct Hp as (p & -> & Hp).
  unfold head_slice. rewrite Hactions.
  eexists _, _, _, _. split; [reflexivity|]. split; [exact Hactions|].
  unfold rank. rewrite Hactions.
  destruct (_g_reduction self) as [r|].
  - unfold treduce. rewrite Hp. cbn.
    destruct (decide _) as [_|Hn]; [reflexivity|]. exfalso. apply Hn. lia.
  - rewrite Hp. cbn. destruct (decide _) as [Hn|_]; [|exact Hp].
    exfalso. apply Hn. reflexivity.
Qed.

(** C2. With clipping off, mean actions of shape [(B, D)], a log standard
    deviation that broadcasts into that shape and taken actions, if given,
    that do too, [act] produces actions of shape [(B, D)] and a
    log-probability of shape [(B, 1)] under the reductions mean, sum and
    prod (the reduction leaves [(B)], one axis short of the actions, and
    the axis is put back at the end) and of shape [(B, D)] without
    reduction; it returns them unless an action is NaN. *)
Theorem act_shapes compute inputs role noise self (B D : nat) :
  _g_clip_actions self = false ->
  tshape (compute inputs role).1.1 = [B; D] ->
  broadcast_shapes [B; D] (tshape (compute inputs role).1.2) = Some [B; D] ->
  (inputs !! "taken_actions" = None \/
   exists taken, inputs !! "taken_actions" = Some (PyTensor taken) /\
                 broadcast_shapes (tshape taken) [B; D] = Some [B; D]) ->
  exists self' actions log_p outputs,
    act_outputs compute inputs role noise self
    = (self', Ok (actions, log_p, outputs)) /\
    tshape actions = [B; D] /\
    tshape log_p = match _g_reduction self with
                   | Some _ => [B; 1]
                   | None => [B; D]
                   end /\
    (tany fisnan actions = false ->
     act compute inputs role noise self
     = (self', Ok (actions, log_p, outputs))).
Proof.
  intros Hclip Hmean Hstd Htaken.
  destruct (act_outputs_shapes compute inputs role noise self B D
              Hclip Hmean Hstd Htaken)
    as (self' & actions & log_p & outputs & Hout & Hactions & Hlog_p).
  exists self', actions, log_p, outputs. repeat split; try assumption.
  intros Hnan. rewrite act_unfold, Hout, Hnan. reflexivity.
Qed.

(** [atanh] always returns, and works element by element. *)
Lemma atanh_elementwise (x : tensor F) :
  exists r, atanh x = Ok r /\ tshape r = tshape x /\
    forall idx, idx ∈ indices (tshape x) ->
      tdata r idx = fmul (of_Q (1 # 2))
                      (fsub (flog1p (tdata x idx))
                            (flog1p (fneg (tdata x idx)))).
Proof.
  unfold atanh.
  destruct (tbin_same_shape fsub (tmap flog1p x) (tmap flog1p (tmap fneg x))
              eq_refl) as (d & -> & Hshape & Hdata).
  py_goal_simpl. eexists. split; [reflexivity|]. split; [exact Hshape|].
  intros idx Hidx. cbn. rewrite (Hdata idx Hidx). reflexivity.
Qed.

End Act.

(** ** The actions scaled into the bounds, element by element *)

Section Clip.
Context {F : Type} `{Backend F}.
Import Torch.

(** The last axis of an index into a broadcast result. *)
Lemma bidx_snoc (s : list nat) (d : nat) (pre : list nat) (i : nat) :
  length s <= length pre ->
  bidx (s ++ [d]) (pre ++ [i])
  = bidx s pre ++ [if decide (d = 1) then 0 else i].
Proof.
  intros Hlen. unfold bidx. rewrite !length_app. cbn [length].
  replace (length pre + 1 - (length s + 1)) with (length pre - length s)
    by lia.
  rewrite drop_app_le by lia.
  rewrite zip_with_app by (rewrite length_drop; lia).
  reflexivity.
Qed.

Lemma bidx_vector (d : nat) (pre : list nat) (i : nat) :
  bidx [d] (pre ++ [i]) = [if decide (d = 1) then 0 else i].
Proof. apply (bidx_snoc [] d pre i). cbn. lia. Qed.

Lemma bidx_vector1 (d i : nat) :
  bidx [d] [i] = [if decide (d = 1) then 0 else i].
Proof. apply (bidx_vector d [] i). Qed.

Lemma broadcast_shapes_length (s1 s2 s : list nat) :
  broadcast_shapes s1 s2 = Some s ->
  length s = length s1 `max` length s2.
Proof.
  unfold broadcast_shapes. intros Hs%length_mapM.
  rewrite <- Hs, length_zip_with. unfold pad_shape.
  rewrite !length_app, !length_replicate. lia.
Qed.

(** Broadcasting against a vector of [D] entries: the last axis of the
    result has [D] entries, unless [D] is 1. *)
Lemma broadcast_shapes_vector (s1 s : list nat) (D : nat) :
  broadcast_shapes s1 [D] = Some s ->
  exists s' d, s = s' ++ [d] /\ (D ≠ 1 -> d = D).
Proof.
  unfold broadcast_shapes. intros Hs%mapM_Some.
  set (n := length s1 `max` length [D]) in *.
  assert (Hn : length (pad_shape n s1) = n).
  { unfold pad_shape. rewrite length_app, length_replicate. lia. }
  assert (Hne : pad_shape n s1 ≠ []).
  { intros Hnil. rewrite Hnil in Hn. cbn in Hn. cbn in n. lia. }
  destruct (exists_last Hne) as (p1 & x & Hp1).
  rewrite Hp1 in Hs, Hn. unfold pad_shape at 1 in Hs. cbn [length] in Hs.
  rewrite length_app in Hn. cbn in Hn.
  rewrite zip_with_app in Hs by (rewrite length_replicate; lia).
  apply Forall2_app_inv_l in Hs as (s' & k & _ & Hk & ->).
  inversion Hk as [|? d ? ? Hd Hnil]; subst. inversion Hnil; subst.
  exists s', d. split; [reflexivity|]. intros HD. cbn in Hd.
  unfold bdim in Hd. repeat destruct (decide _); congruence.
Qed.

Lemma scale_into_element (low high : list F) (t a : tensor F)
    (pre : list nat) (i : nat) :
  length low = length high ->
  scale_into (of_list low) (of_list high) t = Ok a ->
  (pre ++ [i]) ∈ indices (tshape a) -> i < length low ->
  exists l h v,
    low !! i = Some l /\ high !! i = Some h /\
    tdata a (pre ++ [i]) = fadd (fmul (tdata t v) (fsub h l)) l.
Proof.
  intros Hlen Ha Hidx Hi. unfold scale_into in Ha.
  unfold mbind, result_bind in Ha.
  destruct (tbin fsub _ _) as [w|] eqn:Hw; [|discriminate].
  destruct (tbin fmul _ _) as [m|] eqn:Hm; [|discriminate].
  unfold tbin in Hw, Hm, Ha. cbn [tshape of_list] in Hw, Hm, Ha.
  rewrite <- Hlen, broadcast_shapes_diag in Hw. injection Hw as <-.
  cbn [tshape] in Hm.
  destruct (broadcast_shapes (tshape t) [length low]) as [sm|] eqn:Hsm;
    [|discriminate].
  injection Hm as <-. cbn [tshape] in Ha.
  destruct (broadcast_shapes sm [length low]) as [sa|] eqn:Hsa;
    [|discriminate].
  injection Ha as <-. cbn [tshape tdata] in *.
  destruct (broadcast_shapes_vector _ _ _ Hsm) as (sm' & d & -> & Hd).
  assert (Hpre : length sm' <= length pre).
  { apply indices_length in Hidx.
    apply broadcast_shapes_length in Hsa.
    rewrite !length_app in *. cbn in *. lia. }
  rewrite bidx_vector, bidx_snoc, !bidx_vector by exact Hpre.
  assert (Hpos : (if decide (length low = 1) then 0
                  else if decide (d = 1) then 0 else i) = i).
  { destruct (decide (length low = 1)) as [H1|H1]; [lia|].
    rewrite (Hd H1). rewrite decide_False by exact H1. reflexivity. }
  assert (Hpos' : (if decide (length low = 1) then 0 else i) = i).
  { destruct (decide (length low = 1)); lia. }
  rewrite Hpos, Hpos'. rewrite !bidx_vector1, Hpos'. cbn.
  destruct (lookup_lt_is_Some_2 low i Hi) as (l & Hl).
  destruct (lookup_lt_is_Some_2 high i ltac:(lia)) as (h & Hh).
  rewrite Hl, Hh. cbn.
  eexists l, h, _. split; [reflexivity|]. split; [reflexivity|].
  reflexivity.
Qed.

(** The actions [act] produces with clipping on are a sample, squashed
    and scaled into the bounds. *)
Lemma act_outputs_clipped compute inputs role noise
    (self self' : GaussianMixin F) (lo hi actions log_p : tensor F)
    (outputs : gmap string (pyval F)) :
  _g_clip_actions self = true ->
  _g_clip_actions_min self = Some lo -> _g_clip_actions_max self = Some hi ->
  act_outputs compute inputs role noise self
  = (self', Ok (actions, log_p, outputs)) ->
  exists sample,
    scale_into lo hi
      (tmap (fun x => fdiv (fadd (ftanh x) (of_Q 1)) (of_Q 2)) sample)
    = Ok actions.
Proof.
  intros Hclip Hlo Hhi Hout. unfold act_outputs in Hout.
  destruct (compute inputs role) as [[mean log_std] outs].
  py_unfold. py_simpl Hout. rewrite Hclip, Hlo, Hhi in Hout.
  destruct (inputs !! "taken_actions") as [[|taken]|]; py_run Hout.
  all: injection Hout as <- <- <- <-.
  all: match goal with
       | Hm : tbin fmul (tmap (fun x => fdiv (fadd (ftanh x) _) _) ?sample) _
              = Ok _ |- _ => exists sample
       end.
  all: unfold scale_into; py_rewrite; congruence.
Qed.

Lemma head_slice_matrix (t : tensor F) (B D : nat) :
  tshape t = [B; D] -> head_slice t = Ok tt.
Proof. intros Hs. unfold head_slice. rewrite Hs. reflexivity. Qed.

(** A batch against a vector of bounds. *)
Lemma broadcast_matrix_vector (B D : nat) :
  broadcast_shapes [B; D] [D] = Some [B; D].
Proof.
  unfold broadcast_shapes, pad_shape, bdim. cbn.
  rewrite (decide_True (P := D = D)) by reflexivity.
  destruct (decide (B = 1)) as [->|]; [reflexivity|].
  rewrite decide_True by reflexivity. reflexivity.
Qed.

Ltac shapes :=
  cbn [tshape tmap];
  repeat match goal with
         | E : tshape _ = _ |- _ => rewrite E
         end;
  first [apply broadcast_shapes_diag | apply broadcast_matrix_vector].

(** With clipping on, [act] gets through on a batch: mean actions of
    shape [(B, D)], bounds of [D] entries, a log standard deviation that
    broadcasts into the batch and taken actions, if given, of the shape of
    the batch. *)
Lemma act_outputs_clipped_returns compute inputs role noise
    (self : GaussianMixin F) (lo hi : tensor F) (B D : nat) :
  _g_clip_actions self = true ->
  _g_clip_actions_min self = Some lo -> _g_clip_actions_max self = Some hi ->
  tshape lo = [D] -> tshape hi = [D] ->
  tshape (compute inputs role).1.1 = [B; D] ->
  broadcast_shapes [B; D] (tshape (compute inputs role).1.2) = Some [B; D] ->
  (inputs !! "taken_actions" = None \/
   inputs !! "taken_actions" = Some PyNone \/
   exists taken, inputs !! "taken_actions" = Some (PyTensor taken) /\
                 tshape taken = [B; D]) ->
  exists self' actions log_p outputs dist sample,
    act_outputs compute inputs role noise self
    = (self', Ok (actions, log_p, outputs)) /\
    Normal_init (tmap ftanh (compute inputs role).1.1)
      (tmap fexp (clamped_log_std self (compute inputs role).1.2)) = Ok dist /\
    rsample dist noise = Ok sample /\
    scale_into lo hi
      (tmap (fun x => fdiv (fadd (ftanh x) (of_Q 1)) (of_Q 2)) sample)
    = Ok actions /\
    tshape actions = [B; D] /\
    tshape log_p = match _g_reduction self with
                   | Some _ => [B; 1]
                   | None => [B; D]
                   end.
Proof.
  intros Hclip Hlo Hhi Hslo Hshi Hmean Hstd Htaken. unfold act_outputs.
  destruct (compute inputs role) as [[mean log_std] outs]. cbn in Hmean, Hstd.
  unfold clamped_log_std. cbn [fst snd].
  py_unfold. py_goal_simpl. rewrite Hclip, Hlo, Hhi. py_goal_simpl.
  remember (if _g_clip_log_std self
            then tmap (fclamp (_g_log_std_min self)
                         (_g_log_std_max self)) log_std
            else log_std) as log_std' eqn:Hdef.
  assert (Hclamped : tshape log_std' = tshape log_std).
  { rewrite Hdef. destruct (_g_clip_log_std self); reflexivity. }
  clear Hdef.
  pose proof (head_slice_matrix mean B D Hmean) as Hmean1.
  assert (Hmean0 : shape0 mean = Ok B) by (unfold shape0; rewrite Hmean; reflexivity).
  assert (Hdist : Normal_init (tmap ftanh mean) (tmap fexp log_std')
                  = Ok (mkNormal (expand [B; D] (tmap ftanh mean))
                                 (expand [B; D] (tmap fexp log_std')))).
  { unfold Normal_init. cbn [tshape tmap]. rewrite Hclamped, Hmean, Hstd.
    reflexivity. }
  remember (mkNormal (expand [B; D] (tmap ftanh mean))
              (expand [B; D] (tmap fexp log_std'))) as dist eqn:Hdef.
  assert (Hsloc : tshape (loc dist) = [B; D]) by (rewrite Hdef; reflexivity).
  assert (Hsscale : tshape (scale dist) = [B; D])
    by (rewrite Hdef; reflexivity).
  clear Hdef.
  destruct (rsample_shape dist noise [B; D] Hsloc Hsscale)
    as (sample & Hsample & Hssample).
  pose proof (head_slice_matrix sample B D Hssample) as Hsample1.
  destruct (tbin_shape fsub hi lo [D]) as (w & Hw & Hsw); [shapes|].
  destruct (tbin_shape fmul
              (tmap (fun x => fdiv (fadd (ftanh x) (of_Q 1)) (of_Q 2)) sample)
              w [B; D]) as (m & Hm & Hsm); [shapes|].
  destruct (tbin_shape fadd m lo [B; D]) as (actions & Ha & Hsa); [shapes|].
  pose proof (head_slice_matrix actions B D Hsa) as Ha1.
  destruct (tbin_shape fmul
              (tmap (fun x => fdiv (fadd x (of_Q 1)) (of_Q 2))
                 (tmap ftanh mean))
              w [B; D]) as (m' & Hm' & Hsm'); [shapes|].
  destruct (tbin_shape fadd m' lo [B; D]) as (means & Ha' & Hsa'); [shapes|].
  pose proof (head_slice_matrix means B D Hsa') as Ha'1.
  assert (Hreduce : forall p, tshape p = [B; D] ->
            tshape (reduce_log_prob (_g_reduction self) actions p)
            = match _g_reduction self with
              | Some _ => [B; 1]
              | None => [B; D]
              end).
  { intros p Hsp. unfold reduce_log_prob, rank. rewrite Hsa.
    destruct (_g_reduction self) as [r|].
    - unfold treduce. rewrite Hsp. cbn.
      destruct (decide _) as [_|Hn]; [reflexivity|]. exfalso. apply Hn. lia.
    - rewrite Hsp. cbn. destruct (decide _) as [Hn|_]; [|exact Hsp].
      exfalso. apply Hn. reflexivity. }
  assert (Hscale : scale_into lo hi
                     (tmap (fun x => fdiv (fadd (ftanh x) (of_Q 1)) (of_Q 2))
                        sample) = Ok actions).
  { unfold scale_into. py_rewrite. reflexivity. }
  assert (Hfresh : exists p, log_prob dist (PyTensor sample) = Ok p /\
                             tshape p = [B; D]).
  { apply log_prob_shape; try assumption. shapes. }
  destruct Htaken as [Hnone | [Hnone | (taken & Htaken & Hstaken)]].
  1, 2: destruct Hfresh as (p & Hp & Hsp);
    pose proof (head_slice_matrix p B D Hsp) as Hp1;
    rewrite Hnone; py_rewrite;
    eexists _, actions, _, _, dist, sample;
    (split; [reflexivity|]); repeat split; try assumption;
    apply (Hreduce p Hsp).
  pose proof (head_slice_matrix taken B D Hstaken) as Htaken1.
  destruct (tbin_shape fsub taken lo [B; D]) as (a & Ea & Hsa0); [shapes|].
  destruct (tbin_shape fdiv a w [B; D]) as (c & Ec & Hsc); [shapes|].
  remember (tmap (fun x => fsub (fmul x (of_Q 2)) (of_Q 1)) c) as u eqn:Hdef.
  assert (Hsu : tshape u = [B; D]) by (rewrite Hdef; exact Hsc).
  pose proof (head_slice_matrix u B D Hsu) as Hu1.
  assert (Eg : exists g, inverse_tanh u = Ok g /\ tshape g = [B; D]).
  { unfold inverse_tanh.
    match goal with
    | |- context [atanh ?t] =>
        destruct (atanh_elementwise t) as (g & Eg & Hsg & _)
    end.
    exists g. split; [exact Eg|]. rewrite Hsg. exact Hsu. }
  destruct Eg as (g & Eg & Hsg).
  pose proof (head_slice_matrix g B D Hsg) as Hg1.
  destruct (log_prob_shape dist g [B; D] Hsloc Hsscale)
    as (p & Ep & Hsp); [shapes|].
  destruct (tbin_shape fmul u u [B; D]) as (u2 & Eu2 & Hsu2); [shapes|].
  destruct (tbin_shape fsub p
              (tmap flog (tmap (fun x => fadd (fsub (of_Q 1) x) EPS) u2))
              [B; D]) as (lp & Elp & Hslp); [shapes|].
  pose proof (head_slice_matrix lp B D Hslp) as Hlp1.
  rewrite Htaken. py_rewrite. rewrite <- Hdef. py_rewrite.
  eexists _, actions, _, _, dist, sample.
  split; [reflexivity|]. repeat split; try assumption.
  apply (Hreduce lp Hslp).
Qed.

End Clip.
(** ** Bounds on the logarithm and the exponential *)

Section RealBounds.
#[local] Open Scope R_scope.

Lemma Rabs_within (x a : R) : Rabs x <= a -> - a <= x <= a.
Proof. unfold Rabs. destruct (Rcase_abs x); lra. Qed.

Lemma ln_below (p : R) : 0 < p -> ln p <= p - 1.
Proof.
  intros Hp. pose proof (exp_ineq1_le (ln p)) as H.
  rewrite (exp_ln p Hp) in H. lra.
Qed.

(** [ln] moves by at most [K * d] between two numbers above [1 / K] that
    are [d] apart. *)
Lemma ln_close (p q d K : R) :
  0 < K -> / K <= p -> / K <= q -> Rabs (q - p) <= d ->
  Rabs (ln q - ln p) <= K * d.
Proof.
  intros HK Hp Hq Hd.
  assert (HiK : 0 < / K) by (apply Rinv_0_lt_compat; exact HK).
  apply Rabs_within in Hd.
  assert (Hstep : forall a b, / K <= a -> / K <= b -> b - a <= d ->
            ln b - ln a <= K * d).
  { intros a b Ha Hb Hba.
    assert (Ha0 : 0 < a) by lra. assert (Hb0 : 0 < b) by lra.
    assert (Hia : 0 < / a) by (apply Rinv_0_lt_compat; exact Ha0).
    pose proof (ln_below (b * / a)
                  ltac:(apply Rmult_lt_0_compat; assumption)) as Hl.
    rewrite ln_mult, ln_Rinv in Hl by assumption.
    assert (Hle : / a <= K).
    { rewrite <- (Rinv_inv K). apply Rinv_le_contravar; assumption. }
    assert (Heq : b * / a - 1 = (b - a) * / a) by (field; lra).
    destruct (Rle_dec (b - a) 0) as [Hneg|Hpos].
    - assert ((b - a) * / a <= 0).
      { rewrite <- (Rmult_0_l (/ a)). apply Rmult_le_compat_r; lra. }
      assert (0 <= K * d) by (apply Rmult_le_pos; lra).
      lra.
    - assert ((b - a) * / a <= d * K) by (apply Rmult_le_compat; lra).
      lra. }
  apply Rabs_le. split.
  - pose proof (Hstep q p Hq Hp ltac:(lra)). lra.
  - apply Hstep; [assumption|assumption|lra].
Qed.

Lemma exp_6 : exp 6 <= 729.
Proof.
  replace 6 with (1 + (1 + (1 + (1 + (1 + 1))))) by lra.
  rewrite !exp_plus. pose proof exp_le_3. pose proof (exp_pos 1).
  generalize dependent (exp 1). intros e He H0.
  assert (e * e <= 9) by nra.
  assert (e * (e * e) <= 27) by nra.
  assert (e * (e * (e * e)) <= 81) by nra.
  assert (e * (e * (e * (e * e))) <= 243) by nra.
  nra.
Qed.

(** [ln] of a number between [2^-n] and 2. *)
Lemma ln_range (n : nat) (p : R) :
  / 2 ^ n <= p <= 2 -> - INR n <= ln p <= 1.
Proof.
  intros [Hlo Hhi].
  assert (H2n : 0 < 2 ^ n) by (apply pow_lt; lra).
  assert (Hi : 0 < / 2 ^ n) by (apply Rinv_0_lt_compat; exact H2n).
  assert (Hp : 0 < p) by lra.
  assert (H2 : ln 2 <= 1) by (pose proof (ln_below 2); lra).
  split; [|pose proof (ln_below p Hp); lra].
  assert (Hln : ln (/ 2 ^ n) <= ln p).
  { destruct (Req_dec (/ 2 ^ n) p) as [->|Hne]; [lra|].
    left. apply ln_increasing; lra. }
  rewrite ln_Rinv, ln_pow in Hln by lra.
  assert (INR n * ln 2 <= INR n * 1)
    by (apply Rmult_le_compat_l; [apply pos_INR|exact H2]).
  lra.
Qed.

End RealBounds.

Section RealTanh.
Import Ideal.
#[local] Open Scope R_scope.

Lemma cosh_positive (x : R) : 0 < cosh x.
Proof.
  unfold cosh. pose proof (exp_pos x). pose proof (exp_pos (- x)). lra.
Qed.

Lemma cosh_plus_sinh (x : R) : cosh x + sinh x = exp x.
Proof. unfold cosh, sinh. lra. Qed.

Lemma cosh_minus_sinh (x : R) : cosh x - sinh x = exp (- x).
Proof. unfold cosh, sinh. lra. Qed.

Lemma one_plus_tanh (x : R) : 1 + tanh x = exp x / cosh x.
Proof.
  unfold tanh. rewrite <- cosh_plus_sinh.
  pose proof (cosh_positive x). field. lra.
Qed.

Lemma one_minus_tanh (x : R) : 1 - tanh x = exp (- x) / cosh x.
Proof.
  unfold tanh. rewrite <- cosh_minus_sinh.
  pose proof (cosh_positive x). field. lra.
Qed.

Lemma tanh_bounds (x : R) : -1 < tanh x < 1.
Proof.
  pose proof (one_plus_tanh x) as Hp. pose proof (one_minus_tanh x) as Hm.
  assert (0 < exp x / cosh x)
    by (apply Rdiv_lt_0_compat; [apply exp_pos|apply cosh_positive]).
  assert (0 < exp (- x) / cosh x)
    by (apply Rdiv_lt_0_compat; [apply exp_pos|apply cosh_positive]).
  lra.
Qed.

Lemma atanh_formula_tanh (x : R) : atanh_formula (tanh x) = x.
Proof.
  unfold atanh_formula. rewrite one_plus_tanh, one_minus_tanh.
  pose proof (cosh_positive x). pose proof (exp_pos x).
  pose proof (exp_pos (- x)).
  unfold Rdiv at 2 3.
  rewrite !ln_mult by (try assumption; apply Rinv_0_lt_compat; assumption).
  rewrite !ln_exp. lra.
Qed.

(** Below 3, [1 - tanh(x)] is at least 1/365. *)
Lemma one_minus_tanh_margin (x : R) : x < 3 -> / 365 <= 1 - tanh x.
Proof.
  intros Hx.
  pose proof (exp_pos x) as Ha. pose proof (exp_pos (- x)) as Hb.
  assert (Hab : exp x * exp (- x) = 1).
  { rewrite <- exp_plus. replace (x + - x) with 0 by lra. apply exp_0. }
  assert (Haa : exp x * exp x <= 729).
  { rewrite <- exp_plus. pose proof exp_6.
    assert (exp (x + x) < exp 6) by (apply exp_increasing; lra). lra. }
  assert (Hle : exp x <= 729 * exp (- x)).
  { replace (exp x) with (exp x * exp x * exp (- x)) at 1.
    - apply Rmult_le_compat_r; lra.
    - rewrite Rmult_assoc, Hab. lra. }
  pose proof (cosh_positive x) as Hc.
  assert (Hm : (1 - tanh x) * cosh x = exp (- x)).
  { rewrite one_minus_tanh. field. lra. }
  assert (Hcosh : cosh x <= 365 * exp (- x)) by (unfold cosh; lra).
  rewrite <- Hm in Hcosh.
  assert (Hpos : 0 <= cosh x * (365 * (1 - tanh x) - 1)) by lra.
  destruct (Rle_dec 1 (365 * (1 - tanh x))) as [|Hn]; [lra|].
  exfalso.
  assert (cosh x * (365 * (1 - tanh x) - 1) < 0).
  { rewrite <- (Rmult_0_r (cosh x)). apply Rmult_lt_compat_l; lra. }
  lra.
Qed.

Lemma tanh_opp (x : R) : tanh (- x) = - tanh x.
Proof.
  unfold tanh, sinh, cosh. rewrite Ropp_involutive.
  pose proof (exp_pos x). pose proof (exp_pos (- x)). field. lra.
Qed.

Lemma tanh_margin (x : R) :
  -3 < x < 3 -> / 365 <= 1 + tanh x /\ / 365 <= 1 - tanh x.
Proof.
  intros [Hlo Hhi]. split; [|apply one_minus_tanh_margin; exact Hhi].
  pose proof (one_minus_tanh_margin (- x) ltac:(lra)) as Hm.
  rewrite tanh_opp in Hm. lra.
Qed.

End RealTanh.

(** ** [atanh] and [inverse_tanh] in an arithmetic of a given accuracy *)

Section AccurateTanh.
Context {F : Type} `{Backend F}.
Import Ideal Torch Rounding.
#[local] Open Scope R_scope.
Variable M : model F.
Variables u v : R.
Hypothesis Hacc : accurate M u v.
Hypothesis Hu : 0 <= u.
Hypothesis Hv : 0 <= v.

(** A result near [r], for [r] of magnitude at most [K], is within
    [K * (u + v)] of it. *)
Lemma near_within (r K : R) (y : F) :
  near M u v r y -> Rabs r <= K -> 1 <= K ->
  number M y /\ - (K * (u + v)) <= val M y - r <= K * (u + v).
Proof.
  intros [Hn Hr] HK H1. split; [exact Hn|].
  apply Rabs_within.
  assert (u * Rabs r <= u * K) by (apply Rmult_le_compat_l; assumption).
  assert (v <= K * v) by nra.
  lra.
Qed.

(** One element of [atanh(tanh(x))]. *)
Lemma round_trip_element (x : F) :
  u + v <= / 1000 -> number M x -> -3 < val M x < 3 ->
  number M (fmul (of_Q (1 # 2))
              (fsub (flog1p (ftanh x)) (flog1p (fneg (ftanh x))))) /\
  Rabs (val M (fmul (of_Q (1 # 2))
                 (fsub (flog1p (ftanh x)) (flog1p (fneg (ftanh x)))))
        - val M x) <= 800 * (u + v).
Proof.
  intros Hd Hx Hrange.
  destruct (tanh_margin (val M x) Hrange) as [Hp Hm].
  pose proof (tanh_bounds (val M x)) as Hb.
  pose proof (atanh_formula_tanh (val M x)) as Hinv.
  unfold atanh_formula in Hinv.
  destruct (near_within _ 1 _ (tanh_near _ _ _ Hacc x Hx)
              ltac:(apply Rabs_le; lra) ltac:(lra)) as [Nt Ht].
  destruct (neg_exact _ _ _ Hacc _ Nt) as [Nn Hn].
  revert Ht Hinv Hp Hm Hb.
  generalize (tanh (val M x)). intros t Ht Hinv Hp Hm Hb.
  assert (Hr1 : -10 <= ln (1 + val M (ftanh x)) <= 1).
  { pose proof (ln_range 10 (1 + val M (ftanh x))) as Hl. simpl in Hl. lapply Hl; lra. }
  assert (Hr2 : -10 <= ln (1 + - val M (ftanh x)) <= 1).
  { pose proof (ln_range 10 (1 + - val M (ftanh x))) as Hl. simpl in Hl. lapply Hl; lra. }
  pose proof (ln_close (1 + t) (1 + val M (ftanh x)) (u + v) 730 ltac:(lra) ltac:(lra)
                ltac:(lra) ltac:(apply Rabs_le; lra)) as Hc1.
  pose proof (ln_close (1 - t) (1 + - val M (ftanh x)) (u + v) 730 ltac:(lra) ltac:(lra)
                ltac:(lra) ltac:(apply Rabs_le; lra)) as Hc2.
  apply Rabs_within in Hc1, Hc2.
  destruct (near_within _ 10 _
              (log1p_near _ _ _ Hacc _ Nt ltac:(lra))
              ltac:(apply Rabs_le; lra) ltac:(lra)) as [N1 H1].
  destruct (near_within _ 10 _
              (log1p_near _ _ _ Hacc _ Nn ltac:(rewrite Hn; lra))
              ltac:(apply Rabs_le; rewrite Hn; lra) ltac:(lra)) as [N2 H2].
  rewrite Hn in H2.
  destruct (near_within _ 30 _
              (sub_near _ _ _ Hacc _ _ N1 N2 ltac:(apply Rabs_le; lra))
              ltac:(apply Rabs_le; lra) ltac:(lra)) as [Nd Hd'].
  destruct (near_within _ 20 _
              (half_near _ _ _ Hacc _ Nd ltac:(apply Rabs_le; lra))
              ltac:(apply Rabs_le; lra) ltac:(lra)) as [Nr Hr].
  split; [exact Nr|]. apply Rabs_le. lra.
Qed.

(** One element of [inverse_tanh(y)]. *)
Lemma clamped_element (y : F) :
  u + v <= / 1000 -> number M y ->
  number M (fmul (of_Q (1 # 2))
              (fsub (flog1p (fclamp clamp_low clamp_high y))
                    (flog1p (fneg (fclamp clamp_low clamp_high y))))) /\
  Rabs (val M (fmul (of_Q (1 # 2))
                 (fsub (flog1p (fclamp clamp_low clamp_high y))
                       (flog1p (fneg (fclamp clamp_low clamp_high y)))))
        - atanh_formula (Rmin (Rmax (val M y) (val M clamp_low))
                              (val M clamp_high))) <= 200 * (u + v).
Proof.
  intros Hd Hy.
  destruct (clamp_bounds _ _ _ Hacc) as (Nlo & Nhi & Hlo & Hmid & Hhi).
  destruct (clamp_exact _ _ _ Hacc _ _ _ Nlo Nhi Hy) as [Nc Hc].
  destruct (neg_exact _ _ _ Hacc _ Nc) as [Nn Hn].
  assert (Hrange : val M clamp_low
                   <= val M (fclamp clamp_low clamp_high y)
                   <= val M clamp_high).
  { rewrite Hc. split.
    - apply Rmin_glb; [apply Rmax_r|exact Hmid].
    - apply Rmin_r. }
  rewrite <- Hc. unfold atanh_formula.
  assert (Hr1 : -64 <= ln (1 + val M (fclamp clamp_low clamp_high y)) <= 1).
  { pose proof (ln_range 64 (1 + val M (fclamp clamp_low clamp_high y)))
      as Hl.
    rewrite INR_IZR_INZ in Hl. change (Z.of_nat 64) with 64%Z in Hl.
    lapply Hl; lra. }
  replace (1 - val M (fclamp clamp_low clamp_high y))
    with (1 + - val M (fclamp clamp_low clamp_high y)) by lra.
  assert (Hr2 : -64 <= ln (1 + - val M (fclamp clamp_low clamp_high y)) <= 1).
  { pose proof (ln_range 64 (1 + - val M (fclamp clamp_low clamp_high y)))
      as Hl.
    rewrite INR_IZR_INZ in Hl. change (Z.of_nat 64) with 64%Z in Hl.
    lapply Hl; lra. }
  destruct (near_within _ 64 _
              (log1p_near _ _ _ Hacc _ Nc ltac:(lra))
              ltac:(apply Rabs_le; lra) ltac:(lra)) as [N1 H1].
  destruct (near_within _ 64 _
              (log1p_near _ _ _ Hacc _ Nn ltac:(rewrite Hn; lra))
              ltac:(apply Rabs_le; rewrite Hn; lra) ltac:(lra)) as [N2 H2].
  rewrite Hn in H2.
  destruct (near_within _ 129 _
              (sub_near _ _ _ Hacc _ _ N1 N2 ltac:(apply Rabs_le; lra))
              ltac:(apply Rabs_le; lra) ltac:(lra)) as [Nd Hd'].
  destruct (near_within _ 65 _
              (half_near _ _ _ Hacc _ Nd ltac:(apply Rabs_le; lra))
              ltac:(apply Rabs_le; lra) ltac:(lra)) as [Nr Hr].
  split; [exact Nr|]. apply Rabs_le. lra.
Qed.

End AccurateTanh.

Section IdealTanh.
Import Ideal Torch Rounding.
#[local] Open Scope R_scope.

(** Exact arithmetic is accurate without any error. *)
Lemma exact_accurate : accurate exact 0 0.
Proof.
  assert (Hnear : forall r, near exact 0 0 r (Fin r)).
  { intros r. split; [exact I|]. cbn.
    replace (r - r) with 0 by lra. rewrite Rabs_R0. lra. }
  constructor.
  - intros [r| | |] Hx; try contradiction. apply Hnear.
  - intros [r| | |] Hx Hr; try contradiction. cbn in Hr |- *.
    destruct (Rlt_dec (-1) r) as [_|Hn]; [apply Hnear|exfalso; lra].
  - intros [r| | |] Hx; try contradiction. split; [exact I|reflexivity].
  - intros [a| | |] [b| | |] Ha Hb _; try contradiction.
    replace (val exact (Fin a) - val exact (Fin b)) with (a + - b)
      by (cbn; lra).
    apply Hnear.
  - intros [a| | |] Ha _; try contradiction.
    split; [exact I|]. cbn.
    match goal with
    | |- Rabs ?e <= _ => replace e with 0 by field
    end.
    rewrite Rabs_R0. lra.
  - intros [lo| | |] [hi| | |] [x| | |] Hlo Hhi Hx; try contradiction.
    cbn. unfold xclamp, Rmin, Rmax. cbn.
    repeat destruct (Rlt_dec _ _); repeat destruct (Rle_dec _ _);
      (split; [exact I|cbn; lra]).
  - cbn. assert (/ 2 ^ 64 <= / 8388608).
    { apply Rinv_le_contravar; [lra|].
      replace 8388608 with (2 ^ 23) by lra.
      apply Rle_pow; [lra|lia]. }
    repeat split; lra.
Qed.

(** One element of [atanh], on a number strictly between -1 and 1. *)
Lemma atanh_element (y : R) :
  -1 < y < 1 ->
  fmul (of_Q (1 # 2)) (fsub (flog1p (Fin y)) (flog1p (fneg (Fin y))))
  = Fin (atanh_formula y).
Proof.
  intros Hy. cbn.
  destruct (Rlt_dec (-1) y) as [_|Hn]; [|exfalso; lra].
  destruct (Rlt_dec (-1) (- y)) as [_|Hn]; [|exfalso; lra].
  cbn. f_equal. unfold atanh_formula.
  replace (1 + - y) with (1 - y) by lra. lra.
Qed.

(** C4.  In an arithmetic that is accurate to a relative error [u] and an
    absolute error [v], with [u + v] at most 1/1000 (binary32 has [u] of
    the order of 2^-24): for every number [x] strictly between -3 and 3,
    [atanh(tanh(x))] is a number within [800 * (u + v)] of [x]; and for
    every number [y], so for every [y] of [-1, 1] with -1 and 1 themselves,
    [inverse_tanh(y)] is a number, neither infinite nor NaN: it is within
    [200 * (u + v)] of the inverse hyperbolic tangent of [y] clamped
    between the two bounds [-1 + eps] and [1 - eps] of the arithmetic.
    In exact arithmetic both are equalities. *)
Theorem inverse_tanh_round_trip_and_finite {F : Type} `{Backend F}
    (M : model F) (u v : R) :
  accurate M u v -> 0 <= u -> 0 <= v -> u + v <= / 1000 ->
  (forall (x : tensor F) idx,
     idx ∈ indices (tshape x) ->
     number M (tdata x idx) -> -3 < val M (tdata x idx) < 3 ->
     exists r, atanh (tmap ftanh x) = Ok r /\ tshape r = tshape x /\
               number M (tdata r idx) /\
               Rabs (val M (tdata r idx) - val M (tdata x idx))
               <= 800 * (u + v)) /\
  (forall (y : tensor F) idx,
     idx ∈ indices (tshape y) -> number M (tdata y idx) ->
     exists r, inverse_tanh y = Ok r /\ tshape r = tshape y /\
               number M (tdata r idx) /\
               Rabs (val M (tdata r idx)
                     - atanh_formula
                         (Rmin (Rmax (val M (tdata y idx)) (val M clamp_low))
                               (val M clamp_high)))
               <= 200 * (u + v)).
Proof.
  intros Hacc Hu Hv Hd. split.
  - intros x idx Hidx Hx Hrange.
    destruct (atanh_elementwise (tmap ftanh x)) as (r & Hr & Hshape & Hdata).
    exists r. split; [exact Hr|]. split; [exact Hshape|].
    rewrite (Hdata idx Hidx). cbn [tmap tdata].
    apply (round_trip_element M u v Hacc Hu Hv); assumption.
  - intros y idx Hidx Hy. unfold inverse_tanh.
    match goal with
    | |- context [atanh ?t] =>
        destruct (atanh_elementwise t) as (r & Hr & Hshape & Hdata)
    end.
    exists r. split; [exact Hr|]. split; [exact Hshape|].
    rewrite (Hdata idx Hidx). cbn [tmap tdata].
    apply (clamped_element M u v Hacc Hu Hv); assumption.
Qed.

(** Without rounding, a squashed and scaled value is a number between the
    bounds: the scaling of a sample that is not NaN is not NaN. *)
Lemma squash_value (l h : R) (v : xreal) :
  l <= h -> fisnan v = false ->
  exists a,
    fadd (fmul (fdiv (fadd (ftanh v) (of_Q 1)) (of_Q 2))
               (fsub (Fin h) (Fin l))) (Fin l) = Fin a /\
    l <= a <= h.
Proof.
  intros Hlh.
  assert (Hfin : forall t : R, -1 <= t <= 1 ->
            exists a,
              fadd (fmul (fdiv (fadd (Fin t) (of_Q 1)) (of_Q 2))
                         (fsub (Fin h) (Fin l))) (Fin l) = Fin a /\
              l <= a <= h).
  { intros t Ht. cbn.
    destruct (Req_EM_T _ 0) as [H0|_]; [exfalso; lra|].
    cbn. eexists. split; [reflexivity|].
    assert (Hu : 0 <= (t + 1 / 1) / (2 / 1) <= 1) by lra.
    revert Hu. generalize ((t + 1 / 1) / (2 / 1)). intros u Hu.
    pose proof (Rmult_le_pos u (h - l) ltac:(lra) ltac:(lra)).
    pose proof (Rmult_le_pos (1 - u) (h - l) ltac:(lra) ltac:(lra)).
    split; lra. }
  destruct v as [x| | |]; cbn [ftanh ideal xtanh].
  - intros _. apply Hfin. pose proof (tanh_bounds x). lra.
  - intros _. apply Hfin. lra.
  - intros _. apply Hfin. lra.
  - discriminate.
Qed.

(** Without rounding, actions scaled from a sample without NaN hold no
    NaN. *)
Lemma scaled_sample_not_nan (low high : list xreal)
    (sample actions : tensor xreal) (B : nat) :
  Forall2 (fun l h => exists a b, l = Fin a /\ h = Fin b /\ a <= b) low high ->
  scale_into (of_list low) (of_list high)
    (tmap (fun x => fdiv (fadd (ftanh x) (of_Q 1)) (of_Q 2)) sample)
  = Ok actions ->
  tshape actions = [B; length low] ->
  (forall v, fisnan (tdata sample v) = false) ->
  tany fisnan actions = false.
Proof.
  intros Hbounds Hscale Hshape Hsample.
  apply tany_false_iff. intros idx Hidx.
  assert (Hsplit : exists b i, idx = [b] ++ [i] /\ (i < length low)%nat).
  { rewrite Hshape in Hidx. apply indices_spec in Hidx.
    inversion Hidx as [|b ? ? ? _ Hrest]; subst.
    inversion Hrest as [|i ? ? ? Hi Hnil]; subst.
    inversion Hnil; subst. exists b, i. split; [reflexivity|exact Hi]. }
  destruct Hsplit as (b & i & -> & Hi).
  destruct (scale_into_element low high _ _ [b] i
              (Forall2_length _ _ _ Hbounds) Hscale Hidx Hi)
    as (l & h & v & Hl & Hh & Hdata).
  destruct (Forall2_lookup_lr _ _ _ _ _ _ Hbounds Hl Hh)
    as (x & y & -> & -> & Hxy).
  rewrite Hdata. cbn [tmap tdata].
  destruct (squash_value x y _ Hxy (Hsample v)) as (r & -> & _).
  reflexivity.
Qed.

End IdealTanh.

(** ** The scaled actions in float32 *)

Section Float32Act.
Context `{Float32.Libm}.
Import Torch.

Lemma tenth_policy_constructed :
  __init__ true true (of_Q (-20)) (of_Q 2) "sum" "" tenth_box
  = (tenth_box, Ok tenth_policy).
Proof.
  unfold tenth_box. rewrite init_on_gymnasium_box by reflexivity.
  reflexivity.
Qed.

(** C3, in float32.  The scaling of [act],
    [(tanh(x) + 1) / 2 * (high - low) + low], is rounded at every step and
    can come out above the upper bound.  On the space [[-0.1, 0.2]], whose
    bounds are the numbers of the format nearest to -0.1 and 0.2, a sample
    whose [tanh] is 1 is scaled to [1 * (0.2 - (-0.1)) + (-0.1)], which in
    float32 is 13421774 * 2^-26 = 0.20000001788, the number of the format
    next above the upper bound 13421773 * 2^-26 = 0.20000000298; [act]
    returns it, for every mathematics library that obeys the laws. *)
Theorem act_action_above_high :
  Float32.LibmLaws ->
  exists self' actions log_p outputs,
    __init__ true true (of_Q (-20)) (of_Q 2) "sum" "" tenth_box
    = (tenth_box, Ok tenth_policy) /\
    act compute32 inputs32 "" noise32 tenth_policy
    = (self', Ok (actions, log_p, outputs)) /\
    tshape actions = [1; 1] /\
    high32 = SpecFloat.S754_finite false 13421773 (-26) /\
    tdata actions [0; 0] = SpecFloat.S754_finite false 13421774 (-26) /\
    SpecFloat.SFltb high32 (tdata actions [0; 0]) = true.
Proof.
  intros laws.
  destruct (act_outputs_clipped_returns compute32 inputs32 "" noise32
              tenth_policy (of_list [low32]) (of_list [high32]) 1 1
              eq_refl eq_refl eq_refl eq_refl eq_refl eq_refl eq_refl)
    as (self' & actions & log_p & outputs & dist & sample
        & Hout & Hdist & Hsample & Hscale & Hshape & _).
  { left. reflexivity. }
  assert (Hvalue : forall idx, idx ∈ indices (tshape actions) ->
            tdata actions idx = SpecFloat.S754_finite false 13421774 (-26)).
  { intros idx Hidx. pose proof Hidx as Hidx'.
    rewrite Hshape in Hidx'. apply indices_spec in Hidx'.
    inversion Hidx' as [|b ? rest ? Hb Hrest]; subst.
    inversion Hrest as [|i ? rest' ? Hi Hnil]; subst.
    inversion Hnil; subst.
    assert (b = 0) by lia. assert (i = 0) by lia. subst b i.
    destruct (scale_into_element [low32] [high32] _ _ [0] 0 eq_refl Hscale
                Hidx) as (l & h & v & Hl & Hh & Hdata); [cbn; lia|].
    injection Hl as <-. injection Hh as <-.
    change ([0] ++ [0]) with [0; 0] in Hdata. rewrite Hdata.
    unfold Normal_init in Hdist. cbn in Hdist. injection Hdist as <-.
    unfold rsample, tbin in Hsample. cbn in Hsample. injection Hsample as <-.
    cbn [tmap tdata expand].
    change (noise32 _) with (Float32.integer 12).
    cbn [ftanh fexp fclamp fadd fmul of_Q Float32.float32].
    match goal with
    | |- context [Float32.exp32 ?x] =>
        replace x with (SpecFloat.S754_zero false) by reflexivity
    end.
    rewrite (Float32.exp32_zero laws), (Float32.tanh32_zero laws).
    match goal with
    | |- context [Float32.tanh32 ?x] =>
        replace x with (Float32.integer 12) by reflexivity
    end.
    rewrite (Float32.tanh32_saturates laws) by reflexivity.
    reflexivity. }
  assert (Hnan : tany fisnan actions = false).
  { apply tany_false_iff. intros idx Hidx. rewrite (Hvalue idx Hidx).
    reflexivity. }
  assert (Hidx : [0; 0] ∈ indices (tshape actions)).
  { rewrite Hshape. apply indices_spec. repeat constructor. }
  exists self', actions, log_p, outputs.
  split; [apply tenth_policy_constructed|].
  split; [rewrite act_unfold, Hout, Hnan; reflexivity|].
  split; [exact Hshape|]. split; [reflexivity|].
  split; [exact (Hvalue _ Hidx)|].
  rewrite (Hvalue _ Hidx). reflexivity.
Qed.

End Float32Act.

Section Float32Witness.
#[local] Existing Instance Float32.plain_libm.
Import Torch.

Lemma plain_libm_laws : Float32.LibmLaws.
Proof.
  split; try reflexivity.
  intros x Hx.
  change (Float32.tanh32 x)
    with (if SpecFloat.SFleb (Float32.integer 10) x
          then Float32.integer 1 else x).
  rewrite Hx. reflexivity.
Qed.

Lemma act_action_above_high_witness :
  exists self' actions log_p outputs,
    __init__ true true (of_Q (-20)) (of_Q 2) "sum" "" tenth_box
    = (tenth_box, Ok tenth_policy) /\
    act compute32 inputs32 "" noise32 tenth_policy
    = (self', Ok (actions, log_p, outputs)) /\
    tshape actions = [1; 1] /\
    high32 = SpecFloat.S754_finite false 13421773 (-26) /\
    tdata actions [0; 0] = SpecFloat.S754_finite false 13421774 (-26) /\
    SpecFloat.SFltb high32 (tdata actions [0; 0]) = true.
Proof. exact (act_action_above_high plain_libm_laws). Defined.

End Float32Witness.

(** ** The statements on the concrete policy *)

Section Scenario.
Import Ideal Torch Rounding.
#[local] Open Scope R_scope.

Lemma bounds_ordered :
  Forall2 (fun l h => exists a b, l = Fin a /\ h = Fin b /\ a <= b) lows highs.
Proof. repeat constructor; eexists _, _; repeat split; lra. Qed.

(** What the sampler gives on the concrete policy is a number
    everywhere. *)
Lemma sample_is_number (dist : Normal xreal) (sample : tensor xreal) :
  Normal_init (tmap ftanh (compute0 ∅ "").1.1)
    (tmap fexp (clamped_log_std clipped_policy (compute0 ∅ "").1.2))
  = Ok dist ->
  rsample dist noise0 = Ok sample ->
  forall v, fisnan (tdata sample v) = false.
Proof.
  intros Hdist Hsample v.
  unfold Normal_init in Hdist. cbn in Hdist. injection Hdist as <-.
  unfold rsample, tbin in Hsample. cbn in Hsample. injection Hsample as <-.
  cbn.
  repeat (destruct (Rlt_dec _ _); try (exfalso; lra); cbn).
  reflexivity.
Qed.

(** [act] returns on the concrete policy, with or without taken
    actions. *)
Lemma clipped_call_returns (inputs : gmap string (pyval xreal)) :
  (inputs !! "taken_actions" = None \/
   inputs !! "taken_actions" = Some (PyTensor (zeros [2; 3]%nat))) ->
  exists self' actions log_p outputs,
    act_outputs compute0 inputs "" noise0 clipped_policy
    = (self', Ok (actions, log_p, outputs)) /\
    tany fisnan actions = false /\
    act compute0 inputs "" noise0 clipped_policy
    = (self', Ok (actions, log_p, outputs)).
Proof.
  intros Htaken.
  destruct (act_outputs_clipped_returns compute0 inputs "" noise0
              clipped_policy (of_list lows) (of_list highs) 2 3
              eq_refl eq_refl eq_refl eq_refl eq_refl eq_refl eq_refl)
    as (self' & actions & log_p & outputs & dist & sample
        & Hout & Hdist & Hsample & Hscale & Hshape & _).
  { destruct Htaken as [Hnone|Hsome]; [left; exact Hnone|].
    right; right. eexists. split; [exact Hsome|reflexivity]. }
  assert (Hnan : tany fisnan actions = false).
  { apply (scaled_sample_not_nan lows highs sample actions 2
             bounds_ordered Hscale Hshape).
    apply (sample_is_number dist sample Hdist Hsample). }
  exists self', actions, log_p, outputs.
  split; [exact Hout|]. split; [exact Hnan|].
  rewrite act_unfold, Hout, Hnan. reflexivity.
Qed.

Lemma inputs0_fresh : inputs0 !! "taken_actions" = None.
Proof. reflexivity. Qed.

Lemma inputs_replay_taken :
  inputs_replay !! "taken_actions" = Some (PyTensor (zeros [2; 3]%nat)).
Proof. reflexivity. Qed.


Lemma act_log_prob_of_taken_actions_witness :
  exists self' actions log_p outputs,
    act compute0 inputs_replay "" noise0 clipped_policy
    = (self', Ok (actions, log_p, outputs)) /\
    exists dist low high p,
      Normal_init (tmap ftanh (zeros [2; 3]%nat))
        (tmap fexp (clamped_log_std clipped_policy (zeros [3%nat])))
      = Ok dist /\
      _g_distribution self' = Some dist /\
      Some (of_list lows) = Some low /\
      Some (of_list highs) = Some high /\
      squashed_log_prob dist low high (zeros [2; 3]%nat) = Ok p /\
      log_p = reduce_log_prob (Some torch_sum) actions p /\
      EPS = of_Q (1 # 1000000).
Proof.
  destruct (clipped_call_returns inputs_replay (or_intror inputs_replay_taken))
    as (self' & actions & log_p & outputs & _ & _ & Hact).
  exists self', actions, log_p, outputs. split; [exact Hact|].
  exact (act_log_prob_of_taken_actions compute0 inputs_replay "" noise0
           clipped_policy self' actions log_p outputs (zeros [2; 3]%nat)
           eq_refl inputs_replay_taken Hact).
Defined.

Lemma act_shapes_witness :
  exists self' actions log_p outputs,
    act_outputs compute0 inputs0 "" noise0 plain_policy
    = (self', Ok (actions, log_p, outputs)) /\
    tshape actions = [2; 3]%nat /\
    tshape log_p = [2; 1]%nat /\
    (tany fisnan actions = false ->
     act compute0 inputs0 "" noise0 plain_policy
     = (self', Ok (actions, log_p, outputs))).
Proof.
  exact (act_shapes compute0 inputs0 "" noise0 plain_policy 2 3
           eq_refl eq_refl eq_refl (or_introl inputs0_fresh)).
Defined.

(** With a sampler that draws NaN the actions are NaN. *)
Lemma nan_call_produces_nan :
  exists self' actions log_p outputs,
    act_outputs compute0 inputs0 "" noise_nan clipped_policy
    = (self', Ok (actions, log_p, outputs)) /\
    [0; 0]%nat ∈ indices (tshape actions) /\
    fisnan (tdata actions [0; 0]%nat) = true.
Proof.
  destruct (act_outputs_clipped_returns compute0 inputs0 "" noise_nan
              clipped_policy (of_list lows) (of_list highs) 2 3
              eq_refl eq_refl eq_refl eq_refl eq_refl eq_refl eq_refl
              (or_introl inputs0_fresh))
    as (self' & actions & log_p & outputs & dist & sample
        & Hout & Hdist & Hsample & Hscale & Hshape & _).
  exists self', actions, log_p, outputs. split; [exact Hout|].
  assert (Hidx : ([0] ++ [0])%nat ∈ indices (tshape actions)).
  { rewrite Hshape. apply indices_spec. repeat constructor. }
  split; [exact Hidx|].
  destruct (scale_into_element lows highs _ _ [0%nat] 0%nat eq_refl Hscale Hidx)
    as (l & h & v & _ & _ & Hdata); [cbn; lia|].
  cbn [app] in Hdata. rewrite Hdata. cbn [tmap tdata].
  unfold Normal_init in Hdist. cbn in Hdist. injection Hdist as <-.
  unfold rsample, tbin in Hsample. cbn in Hsample. injection Hsample as <-.
  cbn. repeat (destruct (Rlt_dec _ _); try (exfalso; lra); cbn).
  reflexivity.
Qed.

Lemma act_raises_iff_nan_witness :
  (exists self' actions log_p outputs,
     act_outputs compute0 inputs0 "" noise0 clipped_policy
     = (self', Ok (actions, log_p, outputs)) /\
     act compute0 inputs0 "" noise0 clipped_policy
     = (self', Ok (actions, log_p, outputs))) /\
  (exists self',
     act compute0 inputs0 "" noise_nan clipped_policy
     = (self', Raise (ValueError "NaN values found in actions"))).
Proof.
  split.
  - destruct (clipped_call_returns inputs0 (or_introl inputs0_fresh))
      as (self' & actions & log_p & outputs & Hout & Hnan & _).
    exists self', actions, log_p, outputs. split; [exact Hout|].
    apply (act_raises_iff_nan compute0 inputs0 "" noise0 clipped_policy
             self' actions log_p outputs Hout).
    apply tany_false_iff, Hnan.
  - destruct nan_call_produces_nan
      as (self' & actions & log_p & outputs & Hout & Hidx & Hnan).
    exists self'.
    apply (act_raises_iff_nan compute0 inputs0 "" noise_nan clipped_policy
             self' actions log_p outputs Hout).
    exists [0; 0]%nat. split; [exact Hidx|exact Hnan].
Defined.

Lemma inverse_tanh_round_trip_and_finite_witness :
  (exists r, atanh (tmap ftanh (of_list [Fin 2])) = Ok r /\
             tshape r = [1%nat] /\ tdata r [0%nat] = Fin 2) /\
  (exists r, inverse_tanh (of_list [Fin 1]) = Ok r /\
             tshape r = [1%nat] /\
             tdata r [0%nat] = Fin (atanh_formula (1 - / 8388608))).
Proof.
  destruct (inverse_tanh_round_trip_and_finite exact 0 0 exact_accurate
              (Rle_refl 0) (Rle_refl 0) ltac:(lra)) as [Hround Hfinite].
  assert (Hidx : [0%nat] ∈ indices [1%nat])
    by (apply indices_spec; repeat constructor).
  split.
  - destruct (Hround (of_list [Fin 2]) [0%nat] Hidx I ltac:(cbn; lra))
      as (r & Hr & Hshape & Hn & Hval).
    exists r. split; [exact Hr|]. split; [exact Hshape|].
    destruct (tdata r [0%nat]) as [a| | |]; try contradiction.
    cbn in Hval. apply Rabs_within in Hval. f_equal. lra.
  - destruct (Hfinite (of_list [Fin 1]) [0%nat] Hidx I)
      as (r & Hr & Hshape & Hn & Hval).
    exists r. split; [exact Hr|]. split; [exact Hshape|].
    destruct (tdata r [0%nat]) as [a| | |]; try contradiction.
    cbn in Hval. apply Rabs_within in Hval. f_equal.
    replace (Rmin (Rmax 1 (-1 / 1 + / 8388608)) (1 / 1 + - / 8388608))
      with (1 - / 8388608) in Hval; [lra|].
    unfold Rmin, Rmax. repeat destruct (Rle_dec _ _); lra.
Defined.

End Scenario.

(** * Further properties *)

(** ** More on the space-size resolver *)

Section SpaceSizeMore.
Context {F : Type} `{Backend F}.
Import Jax.

Lemma space_nested_ind (P : space F -> Prop) :
  (forall n, P (PyInt n)) ->
  (forall x, P (PyFloat x)) ->
  (forall dims, P (PySeq dims)) ->
  (forall lib n, P (Discrete lib n)) ->
  (forall lib shape low high, P (Box lib shape low high)) ->
  (forall lib spaces, Forall (fun kv => P kv.2) spaces -> P (Dict lib spaces)) ->
  (forall lib, P (OtherSpace lib)) ->
  P OtherObject ->
  forall sp, P sp.
Proof.
  intros HInt HFloat HSeq HDiscrete HBox HDict HSpace HObject.
  fix IH 1. intros [n|x|dims|lib n|lib shape low high|lib spaces|lib|];
    [apply HInt|apply HFloat|apply HSeq|apply HDiscrete|apply HBox|
     |apply HSpace|apply HObject].
  apply HDict. induction spaces as [|[k child] spaces IHspaces]; constructor.
  - apply IH.
  - apply IHspaces.
Qed.

Lemma resolve_children_cons flag k (child : space F) rest :
  resolve_children flag ((k, child) :: rest) =
  n ← _get_space_size child flag;
  ns ← resolve_children flag rest;
  mret (n :: ns).
Proof. reflexivity. Qed.

(** X1. The flag [number_of_elements] matters to [Discrete] spaces only:
    a space that holds no [Discrete] space, at any depth, has the same
    size with the flag on and off. *)
Theorem get_space_size_flag_only_discrete (sp : space F) :
  no_discrete sp = true ->
  _get_space_size sp true = _get_space_size sp false.
Proof.
  induction sp as [n|x|dims|lib n|lib shape low high|lib spaces IH|lib|]
    using space_nested_ind; try reflexivity; try discriminate.
  change (no_discrete (Dict lib spaces)) with (no_discrete_children spaces).
  intros Hno. rewrite !get_space_size_Dict. f_equal.
  induction IH as [|[k child] spaces IHchild _ IHspaces]; [reflexivity|].
  cbn in Hno, IHchild. apply andb_true_iff in Hno as [Hchild Hrest].
  rewrite !resolve_children_cons, (IHchild Hchild), (IHspaces Hrest).
  reflexivity.
Qed.

Lemma wrap64_mul (a d : Z) : wrap64 (wrap64 a * d) = wrap64 (a * d).
Proof.
  unfold wrap64. f_equal.
  rewrite (Z.mod_eq (a + 2 ^ 63) (2 ^ 64)) by lia.
  set (q := ((a + 2 ^ 63) / 2 ^ 64)%Z).
  replace ((a + 2 ^ 63 - 2 ^ 64 * q - 2 ^ 63) * d + 2 ^ 63)%Z
    with (a * d + 2 ^ 63 + (- q * d) * 2 ^ 64)%Z by ring.
  apply Z_mod_plus_full.
Qed.

Lemma prod_int64_from (a : Z) (dims : list Z) :
  foldl (fun acc d => wrap64 (acc * d)) (wrap64 a) dims
  = wrap64 (foldl Z.mul a dims).
Proof.
  revert a. induction dims as [|d dims IH]; intros a; [reflexivity|].
  cbn. rewrite wrap64_mul. apply IH.
Qed.

Lemma wrap64_small (z : Z) :
  (- 2 ^ 63 <= z < 2 ^ 63)%Z -> wrap64 z = z.
Proof. intros Hz. unfold wrap64. rewrite Z.mod_small; lia. Qed.

(** The element type numpy gives a list of integers that all fit
    [int64]. *)
Lemma promote_int64 (rest : list Z) :
  forallb fits_int64 rest = true ->
  foldl (fun t z => promote t (dtype_of z)) int64 rest = int64.
Proof.
  induction rest as [|d rest IH]; intros Hall; [reflexivity|].
  cbn in Hall. apply andb_true_iff in Hall as [Hd Hrest].
  cbn [foldl].
  replace (dtype_of d) with int64 by (unfold dtype_of; rewrite Hd; reflexivity).
  exact (IH Hrest).
Qed.

Lemma result_type_int64 (d : Z) (rest : list Z) :
  forallb fits_int64 (d :: rest) = true -> result_type (d :: rest) = int64.
Proof.
  cbn [forallb result_type]. intros [Hd Hrest]%andb_true_iff.
  replace (dtype_of d) with int64 by (unfold dtype_of; rewrite Hd; reflexivity).
  exact (promote_int64 _ Hrest).
Qed.

(** The size of a shape whose dimensions fit [int64]. *)
Lemma int_np_prod_int64 (dims : list Z) :
  forallb fits_int64 dims = true ->
  int (np_prod dims : pynum F) = Ok (wrap64 (product dims)).
Proof.
  intros Hall. destruct dims as [|d rest]; [reflexivity|].
  unfold np_prod. rewrite (result_type_int64 _ _ Hall). cbn [int].
  unfold prod_int64, product.
  change 1%Z with (wrap64 1) at 1. rewrite prod_int64_from. reflexivity.
Qed.

(** The resolver on a space without floats whose shapes fit [int64]: a
    size for a supported space, the [ValueError] for any other. *)
Lemma space_size_of_supported (sp : space F) (flag : bool) :
  no_float sp = true -> int64_shapes sp = true ->
  if supported sp
  then exists n, _get_space_size sp flag = Ok n
  else _get_space_size sp flag = Raise (ValueError "Space type not supported").
Proof.
  induction sp as [n|x|dims|lib n|lib shape low high|lib spaces IH|lib|]
    using space_nested_ind; try discriminate; intros Hno Hfit;
    try (cbn; eexists; reflexivity); try reflexivity.
  - cbn in Hfit. cbn -[np_prod]. unfold mbind, result_bind, mret, result_ret.
    rewrite (int_np_prod_int64 _ Hfit). eexists. reflexivity.
  - cbn in Hfit. cbn -[np_prod]. unfold mbind, result_bind, mret, result_ret.
    rewrite (int_np_prod_int64 _ Hfit). eexists. reflexivity.
  - change (no_float (Dict lib spaces)) with (no_float_children spaces) in Hno.
    change (int64_shapes (Dict lib spaces))
      with (int64_shapes_children spaces) in Hfit.
    change (supported (Dict lib spaces)) with (supported_children spaces).
    rewrite get_space_size_Dict.
    enough (if supported_children spaces
            then exists ns, resolve_children flag spaces = Ok ns
            else resolve_children flag spaces
                 = Raise (ValueError "Space type not supported")) as Hall.
    { destruct (supported_children spaces).
      - destruct Hall as (ns & ->). eexists. reflexivity.
      - rewrite Hall. reflexivity. }
    induction IH as [|[k child] spaces IHchild _ IHspaces];
      [eexists; reflexivity|].
    cbn in Hno, Hfit, IHchild.
    apply andb_true_iff in Hno as [Hchild Hrest].
    apply andb_true_iff in Hfit as [Hfchild Hfrest].
    specialize (IHchild Hchild Hfchild). specialize (IHspaces Hrest Hfrest).
    cbn [supported_children]. rewrite resolve_children_cons.
    destruct (supported child).
    + destruct IHchild as (n & ->). cbn.
      destruct (supported_children spaces).
      * destruct IHspaces as (ns & ->). eexists. reflexivity.
      * rewrite IHspaces. reflexivity.
    + rewrite IHchild. reflexivity.
Qed.

(** X2. On a space without floats whose shapes have dimensions that fit
    [int64], the resolver returns a size when every space in it, at any
    depth, is a number, a shape, a [Discrete], a [Box] or a [Dict], and
    raises the [ValueError] for unsupported spaces as soon as anything
    else sits in it: a [Dict] is refused for one child that is not
    supported. *)
Theorem get_space_size_supported (sp : space F) (flag : bool) :
  no_float sp = true -> int64_shapes sp = true ->
  if supported sp
  then exists n, _get_space_size sp flag = Ok n
  else _get_space_size sp flag = Raise (ValueError "Space type not supported").
Proof. apply space_size_of_supported. Qed.

(** X3. A shape, and a [Box], whose dimensions fit [int64] resolve to the
    product of the dimensions wrapped around at 64 bits, so to the
    product itself whenever that fits a signed 64-bit integer. *)
Theorem get_space_size_product (dims : list Z) (flag : bool) :
  forallb fits_int64 dims = true ->
  _get_space_size (PySeq dims : space F) flag = Ok (wrap64 (product dims)) /\
  (forall lib low high,
     _get_space_size (Box lib dims low high : space F) flag
     = Ok (wrap64 (product dims))) /\
  ((- 2 ^ 63 <= product dims < 2 ^ 63)%Z ->
   _get_space_size (PySeq dims : space F) flag = Ok (product dims) /\
   forall lib low high,
     _get_space_size (Box lib dims low high : space F) flag
     = Ok (product dims)).
Proof.
  intros Hall. pose proof (int_np_prod_int64 dims Hall) as Hprod.
  assert (Hseq : _get_space_size (PySeq dims : space F) flag
                 = Ok (wrap64 (product dims))).
  { cbn -[np_prod]. unfold mbind, result_bind, mret, result_ret.
    exact Hprod. }
  assert (Hbox : forall lib low high,
            _get_space_size (Box lib dims low high : space F) flag
            = Ok (wrap64 (product dims))).
  { intros lib low high. cbn -[np_prod].
    unfold mbind, result_bind, mret, result_ret. exact Hprod. }
  split; [exact Hseq|]. split; [exact Hbox|].
  intros Hfits. split; [|intros lib low high].
  - rewrite Hseq, wrap64_small by exact Hfits. reflexivity.
  - rewrite Hbox, wrap64_small by exact Hfits. reflexivity.
Qed.

End SpaceSizeMore.

(** Beyond [int64] numpy leaves the integers: a shape that mixes
    dimensions within and beyond [int64] is multiplied in [float64], one
    with a dimension beyond 64 bits in Python integers. *)
Example size_beyond_int64 :
  Jax._get_space_size (PySeq [2 ^ 63; 1]%Z : space Ideal.xreal) true
  = Ok (2 ^ 63)%Z /\
  Jax._get_space_size (PySeq [2 ^ 64; 2]%Z : space Ideal.xreal) true
  = Ok (2 ^ 65)%Z /\
  Jax._get_space_size
    (PySeq (replicate 17 (2 ^ 63)%Z ++ [(-1)%Z]) : space Ideal.xreal) true
  = Raise OverflowError.
Proof. repeat split; vm_compute; reflexivity. Qed.


Lemma get_space_size_flag_only_discrete_witness :
  Jax._get_space_size
    (Dict gym [("a", Box gym [2%Z; 3%Z] [] []); ("b", PyInt 4)]
     : space Ideal.xreal) true
  = Jax._get_space_size
      (Dict gym [("a", Box gym [2%Z; 3%Z] [] []); ("b", PyInt 4)]) false.
Proof. apply get_space_size_flag_only_discrete. reflexivity. Defined.

Lemma get_space_size_supported_witness :
  (exists n, Jax._get_space_size docstring_dict false = Ok n) /\
  Jax._get_space_size
    (Dict gymnasium [("a", Discrete gymnasium 4);
                      ("b", Dict gymnasium [("c", OtherSpace gymnasium)])]
     : space Ideal.xreal) true
  = Raise (ValueError "Space type not supported").
Proof.
  split.
  - apply (get_space_size_supported docstring_dict false eq_refl eq_refl).
  - apply (get_space_size_supported
             (Dict gymnasium [("a", Discrete gymnasium 4);
                               ("b", Dict gymnasium [("c", OtherSpace gymnasium)])])
             true eq_refl eq_refl).
Defined.

Lemma get_space_size_product_witness :
  Jax._get_space_size (PySeq [4%Z; 5%Z; 6%Z] : space Ideal.xreal) true
  = Ok 120%Z /\
  Jax._get_space_size (PySeq [2 ^ 32; 2 ^ 32]%Z : space Ideal.xreal) true
  = Ok 0%Z.
Proof.
  split.
  - apply (get_space_size_product (F := Ideal.xreal) [4; 5; 6]%Z true eq_refl).
    cbn. lia.
  - apply (get_space_size_product (F := Ideal.xreal) [2 ^ 32; 2 ^ 32]%Z true
             eq_refl).
Defined.

(** ** More on the constructor and the accessors of the mixin *)

Section InitMore.
Context {F : Type} `{Backend F}.
Import Torch.

(** X4. What [__init__] raises, and when.  With clipping asked for on a
    [gymnasium] space whose bounds the loops cannot walk over, it raises
    before it looks at the reduction and leaves the space alone:
    [AttributeError] on [low] for a space that is not a [Box], [TypeError]
    for a [Box] without axes, [ValueError] for a [Box] with rows of more
    than one entry.  Otherwise it returns exactly when the reduction is
    one of ["mean"], ["sum"], ["prod"] and ["none"], and raises the
    [ValueError] for the reduction if not; the policy it returns has
    clipping on only on a [gymnasium] space, the reduction of that name,
    and no log standard deviation, sample count or distribution yet. *)
Theorem init_outcome (clip_actions clip_log_std : bool)
    (min_log_std max_log_std : F) (reduction role : string) (sp : space F) :
  let run := __init__ clip_actions clip_log_std min_log_std max_log_std
               reduction role sp in
  (clip_actions && is_gymnasium_space sp = true ->
   forall e, bounds_iterable sp = Raise e -> run = (sp, Raise e)) /\
  ((clip_actions && is_gymnasium_space sp = false \/
    bounds_iterable sp = Ok tt) ->
   (reduction ∉ ["mean"; "sum"; "prod"; "none"] ->
    run.2 = Raise (ValueError
                     "reduction must be one of 'mean', 'sum', 'prod' or 'none'")) /\
   (reduction ∈ ["mean"; "sum"; "prod"; "none"] ->
    exists self, run.2 = Ok self /\
      _g_clip_actions self = clip_actions && is_gymnasium_space sp /\
      _g_clip_log_std self = clip_log_std /\
      _g_log_std_min self = min_log_std /\
      _g_log_std_max self = max_log_std /\
      _g_reduction self = reduction_of reduction /\
      _g_log_std self = None /\ _g_num_samples self = None /\
      _g_distribution self = None)) /\
  (has_bounds sp = false -> bounds_iterable sp = Raise AttributeError) /\
  (forall lib low high,
     sp = Box lib [] low high -> bounds_iterable sp = Raise TypeError) /\
  (forall lib n rest low high,
     sp = Box lib (n :: rest) low high ->
     (row_size rest = 1%Z -> bounds_iterable sp = Ok tt) /\
     ((0 < n)%Z -> (1 < row_size rest)%Z ->
      exists msg, bounds_iterable sp = Raise (ValueError msg))).
Proof.
  intros run. subst run. split; [|split; [|split; [|split]]].
  - intros Hclip e Hwalk.
    apply andb_true_iff in Hclip as [-> Hgym].
    destruct sp as [| | | |lib shape low high| | |];
      try discriminate Hgym;
      try (cbn in Hwalk; injection Hwalk as <-; destruct lib;
           [discriminate Hgym|reflexivity]).
    destruct lib; [discriminate Hgym|].
    apply init_on_gymnasium_box_raises. exact Hwalk.
  - intros Hcase. unfold __init__, mbind, py_bind, get_state.
    destruct (clip_actions && is_gymnasium_space sp) eqn:Hclip.
    + destruct Hcase as [Hcase|Hwalk]; [discriminate|].
      destruct sp as [| | | |lib shape low high| | |]; try discriminate.
      unfold get_low, get_shape, set_low, get_high, set_high, lift.
      cbn -[decide replace_bound iterate_bound bound_tensor] in Hwalk |- *.
      rewrite Hwalk.
      cbn -[decide replace_bound iterate_bound bound_tensor].
      split; intros Hred.
      * rewrite decide_False by exact Hred. reflexivity.
      * rewrite decide_True by exact Hred. eexists. split; [reflexivity|].
        cbn. repeat split; reflexivity.
    + cbn -[decide]. split; intros Hred.
      * rewrite decide_False by exact Hred. reflexivity.
      * rewrite decide_True by exact Hred. eexists. split; [reflexivity|].
        cbn. repeat split; reflexivity.
  - destruct sp; try discriminate; reflexivity.
  - intros lib low high ->. reflexivity.
  - intros lib n rest low high ->. split.
    + apply iterate_bound_entries.
    + apply iterate_bound_rows.
Qed.

(** X5. On a policy fresh from [__init__], before any [act]:
    [get_entropy] returns the scalar zero, [distribution] returns nothing,
    and [get_log_std] raises, for there is no log standard deviation to
    repeat. *)
Theorem accessors_before_act (clip_actions clip_log_std : bool)
    (min_log_std max_log_std : F) (reduction role : string) (sp : space F)
    (self : GaussianMixin F) (log_2pi : F) (role' : string) :
  (__init__ clip_actions clip_log_std min_log_std max_log_std reduction role
     sp).2 = Ok self ->
  get_entropy log_2pi role' self = Tensor [] (fun _ => of_Q 0) /\
  distribution role' self = None /\
  get_log_std role' self = Raise AttributeError.
Proof.
  intros Hinit.
  assert (Hfresh : _g_log_std self = None /\ _g_distribution self = None).
  { unfold __init__, mbind, py_bind, get_state, get_low, get_shape, set_low,
      get_high, set_high, lift in Hinit.
    destruct (clip_actions && is_gymnasium_space sp);
      [destruct sp as [| | | |lib shape low high| | |];
       try discriminate Hinit;
       cbn -[decide replace_bound iterate_bound bound_tensor] in Hinit;
       destruct (iterate_bound shape) as [[]|e]; [|discriminate Hinit]|];
      cbn -[decide replace_bound iterate_bound bound_tensor] in Hinit;
      destruct (decide _); try discriminate Hinit;
      injection Hinit as <-; split; reflexivity. }
  destruct Hfresh as [Hstd Hdist].
  unfold get_entropy, distribution, get_log_std. rewrite Hstd, Hdist.
  repeat split.
Qed.

End InitMore.

Lemma init_outcome_witness :
  Torch.__init__ true true (of_Q (-20)) (of_Q 2) "sum" ""
    (Discrete gymnasium 3 : space Ideal.xreal)
  = (Discrete gymnasium 3, Raise AttributeError) /\
  (Torch.__init__ true true (of_Q (-20)) (of_Q 2) "median" "" bounded_box).2
  = Raise (ValueError
             "reduction must be one of 'mean', 'sum', 'prod' or 'none'") /\
  (exists self,
     (Torch.__init__ false true (of_Q (-20)) (of_Q 2) "none" "" bounded_box).2
     = Ok self /\ Torch._g_reduction self = None) /\
  (exists msg,
     Torch.__init__ true true (of_Q (-20)) (of_Q 2) "sum" ""
       (Box gymnasium [2%Z; 3%Z] (replicate 6 (Ideal.Fin 0))
          (replicate 6 (Ideal.Fin 1)))
     = (Box gymnasium [2%Z; 3%Z] (replicate 6 (Ideal.Fin 0))
          (replicate 6 (Ideal.Fin 1)),
        Raise (ValueError msg))).
Proof.
  split; [|split; [|split]].
  - apply (init_outcome true true (of_Q (-20)) (of_Q 2) "sum" ""
             (Discrete gymnasium 3)); reflexivity.
  - apply (proj1 (proj2 (init_outcome true true (of_Q (-20)) (of_Q 2) "median" ""
                           bounded_box))); [right; reflexivity|].
    intros Hin. repeat (apply elem_of_cons in Hin as [Hin|Hin];
                        [discriminate Hin|]).
    inversion Hin.
  - destruct (init_outcome false true (of_Q (-20)) (of_Q 2) "none" ""
                bounded_box) as (_ & Hrest & _).
    destruct (Hrest (or_introl eq_refl)) as (_ & Hok).
    destruct Hok as (self & Hself & _ & _ & _ & _ & Hred & _).
    { repeat constructor. }
    exists self. split; [exact Hself|exact Hred].
  - destruct (init_outcome true true (of_Q (-20)) (of_Q 2) "sum" ""
                (Box gymnasium [2%Z; 3%Z] (replicate 6 (Ideal.Fin 0))
                   (replicate 6 (Ideal.Fin 1))))
      as (Hraise & _ & _ & _ & Hbox).
    destruct (Hbox _ _ _ _ _ eq_refl) as (_ & Hrows).
    destruct (Hrows ltac:(lia) ltac:(reflexivity)) as (msg & Hmsg).
    exists msg. apply (Hraise eq_refl _ Hmsg).
Defined.

Lemma accessors_before_act_witness :
  Torch.get_entropy (of_Q 2) "" clipped_policy
  = Tensor [] (fun _ => of_Q 0) /\
  Torch.distribution "" clipped_policy = None /\
  Torch.get_log_std "" clipped_policy = Raise AttributeError.
Proof.
  apply (accessors_before_act true true (of_Q (-20)) (of_Q 2) "sum" ""
           bounded_box clipped_policy (of_Q 2) "").
  rewrite clipped_policy_constructed. reflexivity.
Defined.

(** ** More on [act] and what it leaves behind *)

Section ActMore.
Context {F : Type} `{Backend F}.
Import Torch.

Implicit Types (self : GaussianMixin F) (inputs outputs : gmap string (pyval F)).

(** Every way through [act_outputs], one call at a time. *)
Ltac py_paths :=
  repeat match goal with
         | |- context [match ?r with Ok _ => _ | Raise _ => _ end] =>
             py_atomic r; destruct r; py_goal_simpl
         | |- context [match ?o with Some _ => _ | None => _ end] =>
             py_atomic o; destruct o; py_goal_simpl
         end.

Lemma act_outputs_configuration compute inputs role noise self :
  configuration (act_outputs compute inputs role noise self).1
  = configuration self.
Proof.
  unfold act_outputs.
  destruct (compute inputs role) as [[mean log_std] outs].
  py_unfold. py_goal_simpl.
  destruct (_g_clip_actions self) eqn:Hclip;
    destruct (inputs !! "taken_actions") as [[|taken]|];
    py_goal_simpl; py_paths; reflexivity.
Qed.

(** X6. [act] only reads the configuration of the policy: the clipping
    flag, the bounds, the clamp of the log standard deviation and the
    reduction are after the call what they were before it, whether it
    returns or raises. *)
Theorem act_keeps_configuration compute inputs role noise self :
  configuration (act compute inputs role noise self).1 = configuration self.
Proof.
  rewrite act_unfold.
  pose proof (act_outputs_configuration compute inputs role noise self)
    as Hframe.
  destruct (act_outputs compute inputs role noise self)
    as [self' [[[actions log_p] outputs]|e]]; exact Hframe.
Qed.

Lemma shape0_head (t : tensor F) (n : nat) :
  shape0 t = Ok n -> head (tshape t) = Some n.
Proof. unfold shape0. destruct (tshape t); [discriminate|]. intros [= <-]. reflexivity. Qed.

(** What [act_outputs] has recorded when it returns. *)
Lemma act_outputs_state compute inputs role noise self self' result :
  act_outputs compute inputs role noise self = (self', Ok result) ->
  _g_log_std self'
  = Some (clamped_log_std self (compute inputs role).1.2) /\
  _g_num_samples self' = head (tshape (compute inputs role).1.1) /\
  exists dist,
    _g_distribution self' = Some dist /\
    Normal_init
      (if _g_clip_actions self
       then tmap ftanh (compute inputs role).1.1
       else (compute inputs role).1.1)
      (tmap fexp (clamped_log_std self (compute inputs role).1.2))
    = Ok dist.
Proof.
  intros Hout. unfold act_outputs in Hout.
  destruct (compute inputs role) as [[mean log_std] outs].
  unfold clamped_log_std. cbn [fst snd].
  py_unfold. py_simpl Hout.
  destruct (_g_clip_actions self) eqn:Hclip;
    destruct (inputs !! "taken_actions") as [[|taken]|];
    py_run Hout; injection Hout as <- _;
    (split; [reflexivity|]);
    (split; [symmetry; apply shape0_head; assumption|]);
    eexists; (split; [reflexivity|]); py_goal_simpl;
    first [assumption | reflexivity].
Qed.

(** X7. A call of [act] that gets as far as its test for NaN, whether it
    then returns or raises on the test, leaves on the policy the log
    standard deviation it worked with (clamped if the policy clamps), the
    size of the first axis of the mean actions, and its distribution:
    location the mean actions, through [tanh] if the policy clips, scale
    [exp] of the log standard deviation. *)
Theorem act_records_state compute inputs role noise self self' result :
  act_outputs compute inputs role noise self = (self', Ok result) ->
  (act compute inputs role noise self).1 = self' /\
  _g_log_std self'
  = Some (clamped_log_std self (compute inputs role).1.2) /\
  _g_num_samples self' = head (tshape (compute inputs role).1.1) /\
  exists dist,
    _g_distribution self' = Some dist /\
    Normal_init
      (if _g_clip_actions self
       then tmap ftanh (compute inputs role).1.1
       else (compute inputs role).1.1)
      (tmap fexp (clamped_log_std self (compute inputs role).1.2))
    = Ok dist.
Proof.
  intros Hout. split; [|apply (act_outputs_state _ _ _ _ _ _ _ Hout)].
  rewrite act_unfold, Hout. destruct result as [[actions log_p] outputs].
  destruct (tany fisnan actions); reflexivity.
Qed.

Lemma clamped_log_std_shape self (log_std : tensor F) :
  tshape (clamped_log_std self log_std) = tshape log_std.
Proof. unfold clamped_log_std. destruct (_g_clip_log_std self); reflexivity. Qed.

(** X8. [get_log_std] after a call of [act] on mean actions of shape
    [(B, D)].  A log standard deviation of shape [(D)], one value for each
    action, comes back as [(B, D)], every row the log standard deviation
    [act] worked with.  A log standard deviation that [compute] already
    gave per sample, of shape [(B, D)], is repeated all the same and comes
    back as [(B * B, D)].  One of more than two axes is refused by
    [repeat]. *)
Theorem get_log_std_after_act compute inputs role noise self self' result
    (B D : nat) (role' : string) :
  act_outputs compute inputs role noise self = (self', Ok result) ->
  tshape (compute inputs role).1.1 = [B; D] ->
  let log_std := clamped_log_std self (compute inputs role).1.2 in
  (tshape (compute inputs role).1.2 = [D] ->
   exists t, get_log_std role' self' = Ok t /\ tshape t = [B; D] /\
     forall b i, tdata t [b; i] = tdata log_std [i]) /\
  (tshape (compute inputs role).1.2 = [B; D] ->
   exists t, get_log_std role' self' = Ok t /\ tshape t = [B * B; D] /\
     forall r i, tdata t [r; i] = tdata log_std [r mod B; i]) /\
  (2 < length (tshape (compute inputs role).1.2) ->
   get_log_std role' self' = Raise RuntimeError).
Proof.
  intros Hout Hmean log_std.
  destruct (act_outputs_state _ _ _ _ _ _ _ Hout) as (Hstd & Hnum & _).
  rewrite Hmean in Hnum. cbn in Hnum.
  pose proof (clamped_log_std_shape self (compute inputs role).1.2) as Hshape.
  fold log_std in Hstd, Hshape.
  unfold get_log_std, repeat_rows. rewrite Hstd, Hnum, Hshape.
  split; [|split].
  - intros ->. eexists. split; [reflexivity|]. split; reflexivity.
  - intros ->. eexists. split; [reflexivity|]. split; reflexivity.
  - intros Hrank.
    destruct (tshape (compute inputs role).1.2) as [|a [|b [|c rest]]];
      cbn in Hrank; try lia. reflexivity.
Qed.

(** X9. A [None] under ["taken_actions"] is an error only without
    clipping.  Without clipping [act] hands it to [log_prob], which raises
    [TypeError], after the distribution has been stored; with clipping
    [act] takes it for no taken actions at all and goes on with the
    sample it drew. *)
Theorem act_taken_actions_none compute inputs role noise self (B D : nat) :
  inputs !! "taken_actions" = Some PyNone ->
  tshape (compute inputs role).1.1 = [B; D] ->
  broadcast_shapes [B; D] (tshape (compute inputs role).1.2) = Some [B; D] ->
  (_g_clip_actions self = false ->
   exists self', act compute inputs role noise self = (self', Raise TypeError) /\
                 _g_distribution self' <> None) /\
  (_g_clip_actions self = true ->
   forall lo hi,
     _g_clip_actions_min self = Some lo -> _g_clip_actions_max self = Some hi ->
     tshape lo = [D] -> tshape hi = [D] ->
     exists self' result,
       act_outputs compute inputs role noise self = (self', Ok result)).
Proof.
  intros Hnone Hmean Hstd. split.
  - intros Hclip. rewrite act_unfold. unfold act_outputs.
    destruct (compute inputs role) as [[mean log_std] outs].
    cbn in Hmean, Hstd.
    py_unfold. rewrite Hclip, Hnone. cbn -[Normal_init rsample log_prob].
    unfold head_slice at 1, shape0. rewrite Hmean.
    unfold Normal_init. cbn [tshape tmap].
    replace (tshape (if _g_clip_log_std self
                     then tmap (fclamp (_g_log_std_min self)
                                  (_g_log_std_max self)) log_std
                     else log_std)) with (tshape log_std)
      by (destruct (_g_clip_log_std self); reflexivity).
    rewrite Hmean, Hstd.
    match goal with
    | |- context [rsample ?d noise] =>
        destruct (rsample_shape d noise [B; D] eq_refl eq_refl)
          as (actions & -> & Hactions)
    end.
    unfold head_slice. rewrite Hactions. cbn.
    eexists. split; [reflexivity|]. discriminate.
  - intros Hclip lo hi Hlo Hhi Hslo Hshi.
    destruct (act_outputs_clipped_returns compute inputs role noise self
                lo hi B D Hclip Hlo Hhi Hslo Hshi Hmean Hstd)
      as (self' & actions & log_p & outputs & _ & _ & Hout & _).
    { right; left. exact Hnone. }
    eexists _, _. exact Hout.
Qed.

(** X10. The outputs [act] returns are those of [compute] with the mean
    actions put under ["mean_actions"]: every other key is as [compute]
    left it.  Without clipping the mean actions are those of [compute];
    with clipping they are squashed by [tanh] and scaled into the bounds
    as the actions are. *)
Theorem act_outputs_mean_actions compute inputs role noise self self'
    actions log_p outputs :
  act_outputs compute inputs role noise self
  = (self', Ok (actions, log_p, outputs)) ->
  (forall k, k <> "mean_actions" ->
             outputs !! k = (compute inputs role).2 !! k) /\
  exists m,
    outputs !! "mean_actions" = Some (PyTensor m) /\
    (_g_clip_actions self = false -> m = (compute inputs role).1.1) /\
    (_g_clip_actions self = true ->
     forall lo hi,
       _g_clip_actions_min self = Some lo ->
       _g_clip_actions_max self = Some hi ->
       scale_into lo hi
         (tmap (fun x => fdiv (fadd x (of_Q 1)) (of_Q 2))
            (tmap ftanh (compute inputs role).1.1)) = Ok m).
Proof.
  intros Hout. unfold act_outputs in Hout.
  destruct (compute inputs role) as [[mean log_std] outs]. cbn [fst snd].
  py_unfold. py_simpl Hout.
  destruct (_g_clip_actions self) eqn:Hclip;
    destruct (inputs !! "taken_actions") as [[|taken]|];
    py_run Hout; injection Hout as <- <- <- <-.
  all: split; [intros k Hk; apply lookup_insert_ne; congruence|].
  all: eexists; split; [apply lookup_insert_eq|].
  all: split; [intros; first [reflexivity | discriminate]|].
  all: try (intros; discriminate).
  all: intros _ lo hi [= <-] [= <-]; unfold scale_into; py_rewrite;
    first [assumption | reflexivity].
Qed.

(** X17. With clipping on and no taken actions, under ["taken_actions"]
    nothing or [None], the log-probability [act] has when it reaches its
    test for NaN, the one it returns, is, before the reduction, the log-density of the distribution of this call at the
    sample as it was drawn, before [tanh] and the scaling, and without
    the term [log(1 - u^2 + EPS)] that is taken off for taken actions;
    the actions are that sample, squashed and scaled into the bounds. *)
Theorem act_log_prob_of_sample compute inputs role noise self self'
    actions log_p outputs :
  _g_clip_actions self = true ->
  (inputs !! "taken_actions" = None \/
   inputs !! "taken_actions" = Some PyNone) ->
  act_outputs compute inputs role noise self
  = (self', Ok (actions, log_p, outputs)) ->
  exists dist sample low high p,
    Normal_init (tmap ftanh (compute inputs role).1.1)
      (tmap fexp (clamped_log_std self (compute inputs role).1.2)) = Ok dist /\
    rsample dist noise = Ok sample /\
    _g_clip_actions_min self = Some low /\
    _g_clip_actions_max self = Some high /\
    scale_into low high
      (tmap (fun x => fdiv (fadd (ftanh x) (of_Q 1)) (of_Q 2)) sample)
    = Ok actions /\
    log_prob dist (PyTensor sample) = Ok p /\
    log_p = reduce_log_prob (_g_reduction self) actions p.
Proof.
  intros Hclip Htaken Hout.
  unfold act_outputs in Hout.
  destruct (compute inputs role) as [[mean log_std] outs].
  py_unfold. py_simpl Hout. rewrite Hclip in Hout.
  destruct Htaken as [Htaken|Htaken]; rewrite Htaken in Hout.
  all: py_run Hout.
  all: injection Hout as <- <- <- <-.
  all: match goal with
       | Hd : Normal_init _ _ = Ok ?d, Hs : rsample ?d _ = Ok ?x,
         Hlo : _g_clip_actions_min _ = Some ?lo,
         Hhi : _g_clip_actions_max _ = Some ?hi,
         Hp : log_prob ?d (PyTensor ?x) = Ok ?p |- _ =>
           exists d, x, lo, hi, p
       end.
  all: repeat match goal with |- _ /\ _ => split end;
    try assumption; try reflexivity.
  all: unfold scale_into; py_rewrite; congruence.
Qed.

(** X18. Without clipping the actions [act] has when it reaches its test
    for NaN, the ones it returns, are the sample as it was drawn from the distribution of this call (location the mean
    actions, scale [exp] of the log standard deviation), the
    log-probability is, before the reduction, the log-density at the
    taken actions if the inputs hold some and at the sample otherwise, and
    the mean actions in the outputs are those of [compute]. *)
Theorem act_without_clipping compute inputs role noise self self'
    actions log_p outputs :
  _g_clip_actions self = false ->
  act_outputs compute inputs role noise self
  = (self', Ok (actions, log_p, outputs)) ->
  exists dist p,
    Normal_init (compute inputs role).1.1
      (tmap fexp (clamped_log_std self (compute inputs role).1.2)) = Ok dist /\
    rsample dist noise = Ok actions /\
    log_prob dist (default (PyTensor actions) (inputs !! "taken_actions"))
    = Ok p /\
    log_p = reduce_log_prob (_g_reduction self) actions p /\
    outputs = <["mean_actions" := PyTensor (compute inputs role).1.1]>
                (compute inputs role).2.
Proof.
  intros Hclip Hout.
  unfold act_outputs in Hout.
  destruct (compute inputs role) as [[mean log_std] outs].
  py_unfold. py_simpl Hout. rewrite Hclip in Hout.
  py_run Hout.
  all: injection Hout as <- <- <- <-.
  all: match goal with
       | Hd : Normal_init _ _ = Ok ?d, Hp : log_prob ?d _ = Ok ?p |- _ =>
           exists d, p
       end.
  all: repeat match goal with |- _ /\ _ => split end;
    try assumption; try reflexivity.
Qed.

End ActMore.

Section ActMoreScenario.
Import Ideal Torch.

Lemma act_records_state_witness :
  exists self' result,
    act_outputs compute0 inputs0 "" noise0 clipped_policy = (self', Ok result) /\
    (act compute0 inputs0 "" noise0 clipped_policy).1 = self' /\
    _g_log_std self'
    = Some (clamped_log_std clipped_policy (compute0 inputs0 "").1.2) /\
    _g_num_samples self' = head (tshape (compute0 inputs0 "").1.1) /\
    exists dist,
      _g_distribution self' = Some dist /\
      Normal_init (tmap ftanh (compute0 inputs0 "").1.1)
        (tmap fexp (clamped_log_std clipped_policy (compute0 inputs0 "").1.2))
      = Ok dist.
Proof.
  destruct (clipped_call_returns inputs0 (or_introl inputs0_fresh))
    as (self' & actions & log_p & outputs & Hout & _ & _).
  exists self', (actions, log_p, outputs). split; [exact Hout|].
  exact (act_records_state compute0 inputs0 "" noise0 clipped_policy self'
           (actions, log_p, outputs) Hout).
Defined.

Lemma get_log_std_after_act_witness :
  exists self' result,
    act_outputs compute0 inputs0 "" noise0 clipped_policy = (self', Ok result) /\
    exists t, get_log_std "" self' = Ok t /\ tshape t = [2; 3]%nat /\
      forall b i,
        tdata t [b; i]
        = tdata (clamped_log_std clipped_policy (compute0 inputs0 "").1.2) [i].
Proof.
  destruct (clipped_call_returns inputs0 (or_introl inputs0_fresh))
    as (self' & actions & log_p & outputs & Hout & _ & _).
  exists self', (actions, log_p, outputs). split; [exact Hout|].
  exact (proj1 (get_log_std_after_act compute0 inputs0 "" noise0
                  clipped_policy self' (actions, log_p, outputs) 2 3 ""
                  Hout eq_refl) eq_refl).
Defined.

Lemma inputs_none_taken : inputs_none !! "taken_actions" = Some PyNone.
Proof. reflexivity. Qed.

Lemma act_taken_actions_none_witness :
  (exists self',
     act compute0 inputs_none "" noise0 plain_policy = (self', Raise TypeError) /\
     _g_distribution self' <> None) /\
  (exists self' result,
     act_outputs compute0 inputs_none "" noise0 clipped_policy
     = (self', Ok result)).
Proof.
  split.
  - exact (proj1 (act_taken_actions_none compute0 inputs_none "" noise0
                    plain_policy 2 3 inputs_none_taken eq_refl eq_refl)
             eq_refl).
  - exact (proj2 (act_taken_actions_none compute0 inputs_none "" noise0
                    clipped_policy 2 3 inputs_none_taken eq_refl eq_refl)
             eq_refl (of_list lows) (of_list highs)
             eq_refl eq_refl eq_refl eq_refl).
Defined.

Lemma act_outputs_mean_actions_witness :
  exists self' actions log_p outputs,
    act_outputs compute0 inputs0 "" noise0 clipped_policy
    = (self', Ok (actions, log_p, outputs)) /\
    (forall k, k <> "mean_actions" ->
               outputs !! k = (compute0 inputs0 "").2 !! k) /\
    exists m,
      outputs !! "mean_actions" = Some (PyTensor m) /\
      (_g_clip_actions clipped_policy = false -> m = (compute0 inputs0 "").1.1) /\
      (_g_clip_actions clipped_policy = true ->
       forall lo hi,
         _g_clip_actions_min clipped_policy = Some lo ->
         _g_clip_actions_max clipped_policy = Some hi ->
         scale_into lo hi
           (tmap (fun x => fdiv (fadd x (of_Q 1)) (of_Q 2))
              (tmap ftanh (compute0 inputs0 "").1.1)) = Ok m).
Proof.
  destruct (clipped_call_returns inputs0 (or_introl inputs0_fresh))
    as (self' & actions & log_p & outputs & Hout & _ & _).
  exists self', actions, log_p, outputs. split; [exact Hout|].
  exact (act_outputs_mean_actions compute0 inputs0 "" noise0 clipped_policy
           self' actions log_p outputs Hout).
Defined.

Lemma act_log_prob_of_sample_witness :
  exists self' actions log_p outputs,
    act_outputs compute0 inputs0 "" noise0 clipped_policy
    = (self', Ok (actions, log_p, outputs)) /\
    exists dist sample low high p,
      Normal_init (tmap ftanh (compute0 inputs0 "").1.1)
        (tmap fexp (clamped_log_std clipped_policy (compute0 inputs0 "").1.2))
      = Ok dist /\
      rsample dist noise0 = Ok sample /\
      _g_clip_actions_min clipped_policy = Some low /\
      _g_clip_actions_max clipped_policy = Some high /\
      scale_into low high
        (tmap (fun x => fdiv (fadd (ftanh x) (of_Q 1)) (of_Q 2)) sample)
      = Ok actions /\
      log_prob dist (PyTensor sample) = Ok p /\
      log_p = reduce_log_prob (_g_reduction clipped_policy) actions p.
Proof.
  destruct (clipped_call_returns inputs0 (or_introl inputs0_fresh))
    as (self' & actions & log_p & outputs & Hout & _ & _).
  exists self', actions, log_p, outputs. split; [exact Hout|].
  exact (act_log_prob_of_sample compute0 inputs0 "" noise0 clipped_policy
           self' actions log_p outputs eq_refl (or_introl inputs0_fresh) Hout).
Defined.

Lemma act_without_clipping_witness :
  exists self' actions log_p outputs,
    act_outputs compute0 inputs0 "" noise0 plain_policy
    = (self', Ok (actions, log_p, outputs)) /\
    exists dist p,
      Normal_init (compute0 inputs0 "").1.1
        (tmap fexp (clamped_log_std plain_policy (compute0 inputs0 "").1.2))
      = Ok dist /\
      rsample dist noise0 = Ok actions /\
      log_prob dist (default (PyTensor actions) (inputs0 !! "taken_actions"))
      = Ok p /\
      log_p = reduce_log_prob (_g_reduction plain_policy) actions p /\
      outputs = <["mean_actions" := PyTensor (compute0 inputs0 "").1.1]>
                  (compute0 inputs0 "").2.
Proof.
  destruct (act_outputs_shapes compute0 inputs0 "" noise0 plain_policy 2 3
              eq_refl eq_refl eq_refl (or_introl inputs0_fresh))
    as (self' & actions & log_p & outputs & Hout & _).
  exists self', actions, log_p, outputs. split; [exact Hout|].
  exact (act_without_clipping compute0 inputs0 "" noise0 plain_policy
           self' actions log_p outputs eq_refl Hout).
Defined.

End ActMoreScenario.

(** ** The life of a [Model]: construction, initialisation, modes and
    updates *)

Section ModelMore.
Context {F : Type} `{Backend F}.
Import Jax.

Implicit Types (self model : Model F) (inputs : gmap string (pyval F)).

(** X11. [update_parameters] touches the parameters only.  Whatever the
    source and [polyak], the spaces, the sizes, the mode and the apply
    function of the state dictionary are after the call what they were
    before it; a call that raises leaves the whole model as it was; and a
    call on a model, or from a model, whose [state_dict] has not been
    assigned raises [AttributeError]. *)
Theorem update_parameters_frame self model (polyak : F) :
  let out := update_parameters model polyak self in
  observation_space out.1 = observation_space self /\
  action_space out.1 = action_space self /\
  num_observations out.1 = num_observations self /\
  num_actions out.1 = num_actions self /\
  training out.1 = training self /\
  apply_fn <$> state_dict out.1 = apply_fn <$> state_dict self /\
  (forall e, out.2 = Raise e -> out.1 = self) /\
  (state_dict self = None \/ state_dict model = None ->
   out = (self, Raise AttributeError)).
Proof.
  unfold update_parameters. py_unfold.
  destruct (feqb polyak (of_Q 1));
    destruct (state_dict self) as [own|] eqn:Hown;
    destruct (state_dict model) as [source|] eqn:Hsource; cbn;
    try (repeat split; try (rewrite Hown; reflexivity);
         try discriminate; intros [?|?]; first [discriminate | reflexivity]).
  destruct (tree_map (soft_update polyak) (params own) (params source));
    cbn; repeat split; try (rewrite Hown; reflexivity);
    try discriminate; intros [?|?]; discriminate.
Qed.

(** X12. After a hard update the model acts on the parameters of the
    source: [act] hands [apply] the tree of the source, so both models
    give the same result for the same [apply] and inputs.  Hard updates do
    not add up: the last one wins, and repeating one changes nothing. *)
Theorem update_parameters_hard_then_act self model model2
    (own source source2 : StateDict F) (polyak : F) apply inputs role :
  state_dict self = Some own -> state_dict model = Some source ->
  state_dict model2 = Some source2 ->
  feqb polyak (of_Q 1) = true ->
  let self' := (update_parameters model polyak self).1 in
  act apply inputs role self' = (self', apply (params source) inputs role) /\
  (act apply inputs role self').2 = (act apply inputs role model).2 /\
  update_parameters model2 polyak self'
  = update_parameters model2 polyak self /\
  update_parameters model polyak self'
  = (self', Ok tt).
Proof.
  intros Hown Hsource Hsource2 Hhard self'. subst self'.
  rewrite (update_parameters_hard self model own source polyak
             Hown Hsource Hhard). cbn [fst].
  split; [|split; [|split]].
  - unfold act. py_unfold. cbn. reflexivity.
  - unfold act. py_unfold. cbn. rewrite Hsource. reflexivity.
  - rewrite (update_parameters_hard self model2 own source2 polyak
               Hown Hsource2 Hhard).
    rewrite (update_parameters_hard
               (set_state_dict (replace own (params source)) self) model2
               (replace own (params source)) source2 polyak
               eq_refl Hsource2 Hhard).
    reflexivity.
  - rewrite (update_parameters_hard
               (set_state_dict (replace own (params source)) self) model
               (replace own (params source)) source polyak
               eq_refl Hsource Hhard).
    reflexivity.
Qed.

(** X13. A model fresh from [__init__] holds the spaces it was given and
    their sizes, is in evaluation mode, and has no state dictionary:
    [act] and [update_parameters] raise [AttributeError] on it and leave
    it as it is.  Once [init_state_dict] has run, [act] is [apply] on the
    parameters that [init] made. *)
Theorem model_before_and_after_init_state_dict
    (obs acts : option (space F)) (m other : Model F) (polyak : F)
    apply init (key : F) inputs role inputs' role' :
  __init__ obs acts = Ok m ->
  observation_space m = obs /\ action_space m = acts /\
  (match obs with
   | None => num_observations m = None
   | Some sp => exists n, _get_space_size sp true = Ok n /\
                          num_observations m = Some n
   end) /\
  (match acts with
   | None => num_actions m = None
   | Some sp => exists n, _get_space_size sp true = Ok n /\
                          num_actions m = Some n
   end) /\
  training m = false /\
  act apply inputs' role' m = (m, Raise AttributeError) /\
  update_parameters other polyak m = (m, Raise AttributeError) /\
  let m' := (init_state_dict apply init key inputs role m).1 in
  act apply inputs' role' m'
  = (m', apply (init key inputs role) inputs' role').
Proof.
  intros Hinit. unfold __init__ in Hinit.
  unfold mbind, mret, result_bind, result_ret, fmap, result_fmap in Hinit.
  destruct obs as [o|]; destruct acts as [a|];
    repeat match type of Hinit with
           | context [_get_space_size ?sp true] =>
               destruct (_get_space_size sp true) eqn:?; try discriminate Hinit
           end;
    injection Hinit as <-; cbn;
    (repeat split; try (eexists; split; reflexivity));
    try (unfold update_parameters; py_unfold; cbn;
         destruct (feqb polyak (of_Q 1)); reflexivity).
Qed.

(** X14. [__init__] accepts the spaces the resolver knows, and no other:
    given an observation space and an action space without floats, whose
    shapes have dimensions that fit [int64], it returns a model when both
    are supported all the way down, and raises the [ValueError] for
    unsupported spaces when one of them is not. *)
Theorem init_accepts_supported_spaces (obs acts : space F) :
  no_float obs = true -> no_float acts = true ->
  int64_shapes obs = true -> int64_shapes acts = true ->
  if supported obs && supported acts
  then exists m, __init__ (Some obs) (Some acts) = Ok m
  else __init__ (Some obs) (Some acts)
       = Raise (ValueError "Space type not supported").
Proof.
  intros Hobs Hacts Hfobs Hfacts.
  pose proof (space_size_of_supported obs true Hobs Hfobs) as Ho.
  pose proof (space_size_of_supported acts true Hacts Hfacts) as Ha.
  unfold __init__, mbind, mret, result_bind, result_ret, fmap, result_fmap.
  destruct (supported obs); cbn [andb].
  - destruct Ho as (n & ->). destruct (supported acts).
    + destruct Ha as (k & ->). eexists. reflexivity.
    + rewrite Ha. reflexivity.
  - rewrite Ho. reflexivity.
Qed.

(** X15. [set_mode] returns for ["train"] and ["eval"], with the mode
    set accordingly, and raises [ValueError] for every other string, the
    model left as it was.  It changes the mode and nothing else, and the
    mode does not reach [apply]: [act] gives the same result in either
    mode. *)
Theorem set_mode_outcome self (mode : string) apply inputs role :
  let out := set_mode mode self in
  (mode = "train" -> out = (set_training true self, Ok tt)) /\
  (mode = "eval" -> out = (set_training false self, Ok tt)) /\
  (mode <> "train" -> mode <> "eval" ->
   out = (self, Raise (ValueError
     "Invalid mode. Use 'train' for training or 'eval' for evaluation"))) /\
  state_dict out.1 = state_dict self /\
  observation_space out.1 = observation_space self /\
  action_space out.1 = action_space self /\
  num_observations out.1 = num_observations self /\
  num_actions out.1 = num_actions self /\
  (act apply inputs role out.1).2 = (act apply inputs role self).2.
Proof.
  unfold set_mode, act. py_unfold.
  destruct (decide (mode = "train")) as [->|Htrain];
    [|destruct (decide (mode = "eval")) as [->|Heval]];
    cbn; repeat match goal with |- _ /\ _ => split end;
    try reflexivity; try discriminate; intros; try contradiction.
  all: destruct (state_dict self); reflexivity.
Qed.

End ModelMore.

(** ** The helper of the agent test *)

Section CheckAgentConfig.
Import TestA2C.
Context {A B : Type}.

Lemma assert_all_is_Some (keys : list string) (p : string -> bool) :
  is_Some (mapM (fun k => assert (p k)) keys) <->
  forall k, k ∈ keys -> p k = true.
Proof.
  rewrite mapM_is_Some, Forall_forall. unfold assert, compose.
  split; intros Hall k Hk; specialize (Hall k Hk).
  - destruct (p k); [reflexivity|]. destruct Hall as [? [=]].
  - rewrite Hall. eexists. reflexivity.
Qed.

(** X24. [_check_agent_config] passes exactly when the two dictionaries
    have the same keys: a key of either that the other lacks fails an
    [assert].  The values are not looked at. *)
Theorem check_agent_config_same_keys
    (config : gmap string A) (default_config : gmap string B) :
  _check_agent_config config default_config = Some tt <->
  dom config = dom default_config.
Proof.
  unfold _check_agent_config.
  pose proof (assert_all_is_Some (elements (dom config))
                (fun k => bool_decide (is_Some (default_config !! k)))) as H1.
  pose proof (assert_all_is_Some (elements (dom default_config))
                (fun k => bool_decide (is_Some (config !! k)))) as H2.
  cbv beta in H1, H2.
  split.
  - intros Hrun.
    destruct (mapM _ (elements (dom config))) as [l1|] eqn:E1;
      [|discriminate Hrun].
    cbn in Hrun.
    destruct (mapM _ (elements (dom default_config))) as [l2|] eqn:E2;
      [|discriminate Hrun].
    apply set_eq. intros k. rewrite !elem_of_dom. split; intros Hk.
    + eapply bool_decide_eq_true_1.
      apply (proj1 H1 (mk_is_Some _ _ eq_refl)).
      apply elem_of_elements, elem_of_dom. exact Hk.
    + eapply bool_decide_eq_true_1.
      apply (proj1 H2 (mk_is_Some _ _ eq_refl)).
      apply elem_of_elements, elem_of_dom. exact Hk.
  - intros Hdom.
    destruct (proj2 H1) as (l1 & ->).
    { intros k Hk. apply bool_decide_eq_true_2.
      apply elem_of_elements in Hk. rewrite Hdom in Hk.
      apply elem_of_dom. exact Hk. }
    cbn.
    destruct (proj2 H2) as (l2 & ->).
    { intros k Hk. apply bool_decide_eq_true_2.
      apply elem_of_elements in Hk. rewrite <- Hdom in Hk.
      apply elem_of_dom. exact Hk. }
    reflexivity.
Qed.

End CheckAgentConfig.

Section ModelMoreScenario.
Import Ideal.
#[local] Open Scope R_scope.

(** Rounding towards zero gives an integer no further from zero than the
    number, and less than one away from it. *)
Lemma truncate_bounds (r : R) :
  Rabs (IZR (truncate r)) <= Rabs r /\ Rabs (r - IZR (truncate r)) < 1.
Proof.
  unfold truncate. destruct (Rle_dec 0 r) as [Hr|Hr].
  - destruct (base_Int_part r) as [Hle Hgt].
    assert (Hz : (0 <= Int_part r)%Z).
    { assert (Hlt : IZR (-1) < IZR (Int_part r)) by lra.
      apply lt_IZR in Hlt. lia. }
    apply IZR_le in Hz.
    rewrite !Rabs_pos_eq by lra. lra.
  - destruct (base_Int_part (- r)) as [Hle Hgt].
    assert (Hz : (0 <= Int_part (- r))%Z).
    { assert (Hlt : IZR (-1) < IZR (Int_part (- r))) by lra.
      apply lt_IZR in Hlt. lia. }
    apply IZR_le in Hz. rewrite opp_IZR.
    rewrite (Rabs_left1 (- IZR (Int_part (- r)))) by lra.
    rewrite (Rabs_left1 r) by lra.
    rewrite (Rabs_left1 (r - - IZR (Int_part (- r)))) by lra. lra.
Qed.

(** X26. A space given as a [float] is taken as a size: the resolver
    rounds a number towards zero, so the size is less than one away from
    it and no further from zero, and it raises [OverflowError] for an
    infinity and the [ValueError] of [int] for a NaN, not the
    [ValueError] for unsupported spaces. *)
Theorem get_space_size_float (x : xreal) (flag : bool) :
  match x with
  | Fin r =>
      exists z, Jax._get_space_size (PyFloat x) flag = Ok z /\
                Rabs (IZR z) <= Rabs r /\ Rabs (r - IZR z) < 1
  | NaN =>
      Jax._get_space_size (PyFloat x) flag
      = Raise (ValueError "cannot convert float NaN to integer")
  | _ => Jax._get_space_size (PyFloat x) flag = Raise OverflowError
  end.
Proof.
  destruct x as [r| | |]; try reflexivity.
  exists (truncate r). split; [reflexivity|]. apply truncate_bounds.
Qed.

Lemma update_parameters_hard_then_act_witness :
  let self' := (Jax.update_parameters model_two (of_Q 1) model_w).1 in
  Jax.act no_apply ∅ "" self'
  = (self', no_apply (Jax.params state_two) ∅ "") /\
  (Jax.act no_apply ∅ "" self').2 = (Jax.act no_apply ∅ "" model_two).2 /\
  Jax.update_parameters model_v (of_Q 1) self'
  = Jax.update_parameters model_v (of_Q 1) model_w /\
  Jax.update_parameters model_two (of_Q 1) self' = (self', Ok tt).
Proof.
  exact (update_parameters_hard_then_act model_w model_two model_v
           state_w state_two state_v (of_Q 1) no_apply ∅ ""
           eq_refl eq_refl eq_refl (xeqb_refl _)).
Defined.

Lemma model_before_and_after_init_state_dict_witness :
  exists m,
    Jax.__init__ (Some docstring_dict) (Some (PyInt 2)) = Ok m /\
    Jax.observation_space m = Some docstring_dict /\
    Jax.action_space m = Some (PyInt 2) /\
    (exists n, Jax._get_space_size docstring_dict true = Ok n /\
               Jax.num_observations m = Some n) /\
    (exists n, Jax._get_space_size (PyInt 2) true = Ok n /\
               Jax.num_actions m = Some n) /\
    Jax.training m = false /\
    Jax.act no_apply ∅ "" m = (m, Raise AttributeError) /\
    Jax.update_parameters model_w (of_Q 1) m = (m, Raise AttributeError) /\
    let m' := (Jax.init_state_dict no_apply (fun _ _ _ => Jax.params state_w)
                 (of_Q 0) ∅ "" m).1 in
    Jax.act no_apply ∅ "" m' = (m', no_apply (Jax.params state_w) ∅ "").
Proof.
  eexists. split; [reflexivity|].
  exact (model_before_and_after_init_state_dict
           (Some docstring_dict) (Some (PyInt 2)) _ model_w (of_Q 1)
           no_apply (fun _ _ _ => Jax.params state_w) (of_Q 0) ∅ "" ∅ ""
           eq_refl).
Defined.

Lemma init_accepts_supported_spaces_witness :
  (exists m, Jax.__init__ (Some docstring_dict) (Some (PyInt 2)) = Ok m) /\
  Jax.__init__ (Some docstring_dict) (Some (OtherSpace gym))
  = Raise (ValueError "Space type not supported").
Proof.
  split.
  - exact (init_accepts_supported_spaces docstring_dict (PyInt 2)
             eq_refl eq_refl eq_refl eq_refl).
  - exact (init_accepts_supported_spaces docstring_dict (OtherSpace gym)
             eq_refl eq_refl eq_refl eq_refl).
Defined.

End ModelMoreScenario.

(** ** More on the numbers, in the ideal backend *)

Section IdealMore.
Import Ideal Torch.
#[local] Open Scope R_scope.

(** One element of the clamp of [inverse_tanh], on any value but NaN. *)
Lemma clamp_any (v : xreal) :
  fisnan v = false ->
  exists c, -1 + / 8388608 <= c <= 1 - / 8388608 /\
    fclamp (fadd (of_Q (-1)) finfo_eps) (fsub (of_Q 1) finfo_eps) v = Fin c /\
    forall y, v = Fin y -> -1 + / 8388608 <= y <= 1 - / 8388608 -> c = y.
Proof.
  destruct v as [y| | |]; try discriminate; intros _; cbn; unfold xclamp; cbn.
  - destruct (Rlt_dec y _) as [Hlo|Hlo];
      destruct (Rlt_dec _ _) as [Hhi|Hhi]; eexists;
      (split; [|split; [reflexivity|]]); try lra;
      intros y' [= <-] Hy; lra.
  - eexists. split; [|split; [reflexivity|discriminate]]. lra.
  - destruct (Rlt_dec _ _) as [Hhi|Hhi]; eexists;
      (split; [|split; [reflexivity|discriminate]]); lra.
Qed.

(** Deciding the comparisons of a computation on numbers. *)
Ltac xcases :=
  cbn; unfold signed;
  repeat (match goal with
          | |- context [Rlt_dec ?a ?b] =>
              destruct (Rlt_dec a b); try (exfalso; lra)
          | |- context [Rle_dec ?a ?b] =>
              destruct (Rle_dec a b); try (exfalso; lra)
          | |- context [Req_EM_T ?a ?b] =>
              destruct (Req_EM_T a b); try (exfalso; lra)
          end; cbn; unfold signed).

(** One element of [atanh] at and beyond the ends of [-1, 1]. *)
Lemma atanh_element_outside (x : xreal) :
  let r := fmul (of_Q (1 # 2)) (fsub (flog1p x) (flog1p (fneg x))) in
  (x = Fin 1 -> r = PInf) /\
  (x = Fin (-1) -> r = NInf) /\
  (forall v, x = Fin v -> v < -1 \/ 1 < v -> r = NaN) /\
  ((is_finite x -> False) -> r = NaN).
Proof.
  intros r. subst r. split; [|split; [|split]].
  - intros ->. xcases. reflexivity.
  - intros ->. xcases. reflexivity.
  - intros v -> [Hv|Hv]; xcases; reflexivity.
  - intros Hx. destruct x as [v| | |]; cbn in Hx; [tauto| | |]; reflexivity.
Qed.

(** X19. [atanh] by itself is infinite at 1 and -1 and NaN beyond them
    and at the infinities; [inverse_tanh], which clamps first, is not:
    on every value but NaN, the infinities included, it gives a number,
    [atanh] of a value of [-1 + eps, 1 - eps] for [eps] = 2^-23, which is
    the value itself where that lies in the range.  A NaN stays a NaN. *)
Theorem inverse_tanh_saturates (y : tensor xreal) :
  (exists r, atanh y = Ok r /\ tshape r = tshape y /\
     forall idx, idx ∈ indices (tshape y) ->
       (tdata y idx = Fin 1 -> tdata r idx = PInf) /\
       (tdata y idx = Fin (-1) -> tdata r idx = NInf) /\
       (forall v, tdata y idx = Fin v -> v < -1 \/ 1 < v ->
                  tdata r idx = NaN) /\
       ((is_finite (tdata y idx) -> False) -> tdata r idx = NaN)) /\
  (exists r, inverse_tanh y = Ok r /\ tshape r = tshape y /\
     forall idx, idx ∈ indices (tshape y) ->
       if fisnan (tdata y idx) then tdata r idx = NaN
       else exists c,
           -1 + / 8388608 <= c <= 1 - / 8388608 /\
           tdata r idx = Fin (atanh_formula c) /\
           forall v, tdata y idx = Fin v ->
                     -1 + / 8388608 <= v <= 1 - / 8388608 -> c = v).
Proof.
  split.
  - destruct (atanh_elementwise y) as (r & Hr & Hshape & Hdata).
    exists r. split; [exact Hr|]. split; [exact Hshape|].
    intros idx Hidx. rewrite (Hdata idx Hidx).
    apply atanh_element_outside.
  - unfold inverse_tanh.
    match goal with
    | |- context [atanh ?t] =>
        destruct (atanh_elementwise t) as (r & Hr & Hshape & Hdata)
    end.
    exists r. split; [exact Hr|]. split; [exact Hshape|].
    intros idx Hidx. rewrite (Hdata idx Hidx). cbn [tmap tdata].
    destruct (fisnan (tdata y idx)) eqn:Hnan.
    + destruct (tdata y idx); try discriminate. reflexivity.
    + destruct (clamp_any _ Hnan) as (c & Hc & -> & Hsame).
      exists c. split; [exact Hc|]. split; [|exact Hsame].
      apply atanh_element. lra.
Qed.

(** X25. The test for NaN at the end of [act] looks at the actions only.
    Where an action is pinned, its lower and its upper bound the same
    number, the rescaling of the taken actions divides by zero, and with
    the reduction ["none"] the log-probability that [act] returns is NaN
    in that column, for every sample and whatever the taken actions are:
    [act] returns it and does not raise. *)
Theorem act_log_prob_nan_on_pinned_bound compute inputs role noise
    (self self' : GaussianMixin xreal) (actions log_p : tensor xreal)
    (outputs : gmap string (pyval xreal)) (low high : list xreal)
    (taken : tensor xreal) (B i : nat) (a : R) :
  _g_clip_actions self = true ->
  _g_clip_actions_min self = Some (of_list low) ->
  _g_clip_actions_max self = Some (of_list high) ->
  length low = length high ->
  _g_reduction self = None ->
  low !! i = Some (Fin a) -> high !! i = Some (Fin a) ->
  inputs !! "taken_actions" = Some (PyTensor taken) ->
  tshape taken = [B; length low] ->
  tshape (compute inputs role).1.1 = [B; length low] ->
  broadcast_shapes [B; length low] (tshape (compute inputs role).1.2)
  = Some [B; length low] ->
  act compute inputs role noise self = (self', Ok (actions, log_p, outputs)) ->
  forall b, (b < B)%nat -> tdata log_p [b; i] = NaN.
Proof.
  intros Hclip Hlo Hhi Hlen Hred Hli Hhi' Htaken Hst Hsm Hss
    [Hout _]%act_returns b Hb.
  unfold act_outputs in Hout.
  destruct (compute inputs role) as [[mean log_std] outs].
  cbn [fst snd] in Hsm, Hss.
  py_unfold. py_simpl Hout. rewrite Hclip, Htaken, Hlo, Hhi, Hred in Hout.
  py_run Hout.
  unfold Normal_init in Heqr1. cbn [tshape tmap] in Heqr1.
  replace (tshape (if _g_clip_log_std self
                   then tmap (xclamp (_g_log_std_min self)
                                (_g_log_std_max self)) log_std
                   else log_std)) with (tshape log_std) in Heqr1
    by (destruct (_g_clip_log_std self); reflexivity).
  rewrite Hsm, Hss in Heqr1. injection Heqr1 as <-.
  match type of Heqr2 with
  | rsample ?d _ = _ =>
      destruct (rsample_shape d noise [B; length low] eq_refl eq_refl)
        as (sample & Hsample & Hssample)
  end.
  rewrite Hsample in Heqr2. injection Heqr2 as <-.
  unfold tbin in Heqr5. cbn [tshape of_list] in Heqr5.
  rewrite Hst, broadcast_matrix_vector in Heqr5. injection Heqr5 as <-.
  unfold tbin in Heqr6. cbn [tshape of_list] in Heqr6.
  rewrite <- Hlen, broadcast_shapes_diag in Heqr6. injection Heqr6 as <-.
  unfold tbin in Heqr7. cbn [tshape] in Heqr7.
  rewrite broadcast_matrix_vector in Heqr7. injection Heqr7 as <-.
  unfold inverse_tanh in Heqr9.
  match type of Heqr9 with
  | atanh ?t = _ => destruct (atanh_elementwise t) as (g & Hg & Hsg & _)
  end.
  rewrite Hg in Heqr9. injection Heqr9 as <-. cbn [tshape tmap] in Hsg.
  match type of Heqr11 with
  | log_prob ?d _ = _ =>
      destruct (log_prob_shape d g [B; length low] eq_refl eq_refl)
        as (p & Hp & Hsp);
      [rewrite Hsg; apply broadcast_shapes_diag|]
  end.
  rewrite Hp in Heqr11. injection Heqr11 as <-.
  unfold tbin in Heqr12. cbn [tshape tmap] in Heqr12.
  rewrite broadcast_shapes_diag in Heqr12. injection Heqr12 as <-.
  unfold tbin in Heqr13. cbn [tshape tmap] in Heqr13.
  rewrite Hsp, broadcast_shapes_diag in Heqr13. injection Heqr13 as <-.
  unfold tbin in Heqr15. cbn [tshape tmap] in Heqr15.
  rewrite Hssample, broadcast_matrix_vector in Heqr15.
  injection Heqr15 as <-.
  unfold tbin in Heqr16. cbn [tshape of_list] in Heqr16.
  rewrite broadcast_matrix_vector in Heqr16. injection Heqr16 as <-.
  injection Hout as <- <- <- <-.
  assert (Hi : (i < length low)%nat)
    by (apply lookup_lt_Some in Hli; exact Hli).
  assert (Hidx : [b; i] ∈ indices [B; length low])
    by (apply indices_spec; repeat constructor; assumption).
  cbn [tdata tmap].
  rewrite !(bidx_id _ _ Hidx).
  change [b; i] with ([b] ++ [i]).
  rewrite !bidx_vector.
  assert (Hpos : (if decide (length low = 1%nat) then 0%nat else i) = i).
  { destruct (decide (length low = 1%nat)); lia. }
  rewrite !Hpos, ?bidx_vector1, ?Hpos.
  cbn [app head from_option]. unfold Datatypes.id.
  rewrite Hli, Hhi'. cbn [from_option].
  generalize (tdata taken [b; i]) (tdata p [b; i]). intros x q.
  destruct x, q; xcases; reflexivity.
Qed.

End IdealMore.

Section IdealMoreScenario.
Import Ideal Torch.
#[local] Open Scope R_scope.

Lemma pinned_bounds_ordered :
  Forall2 (fun l h => exists a b, l = Fin a /\ h = Fin b /\ a <= b)
    lows pinned_highs.
Proof. repeat constructor; eexists _, _; repeat split; lra. Qed.

(** [act] returns on the policy with the pinned action. *)
Lemma pinned_call_returns :
  exists self' actions log_p outputs,
    act compute0 inputs_replay "" noise0 pinned_policy
    = (self', Ok (actions, log_p, outputs)).
Proof.
  destruct (act_outputs_clipped_returns compute0 inputs_replay "" noise0
              pinned_policy (of_list lows) (of_list pinned_highs) 2 3
              eq_refl eq_refl eq_refl eq_refl eq_refl eq_refl eq_refl)
    as (self' & actions & log_p & outputs & dist & sample
        & Hout & Hdist & Hsample & Hscale & Hshape & _).
  { right; right. eexists. split; [exact inputs_replay_taken|reflexivity]. }
  assert (Hnan : tany fisnan actions = false).
  { apply (scaled_sample_not_nan lows pinned_highs sample actions 2
             pinned_bounds_ordered Hscale Hshape).
    apply (sample_is_number dist sample Hdist Hsample). }
  exists self', actions, log_p, outputs.
  rewrite act_unfold, Hout, Hnan. reflexivity.
Qed.

Lemma act_log_prob_nan_on_pinned_bound_witness :
  exists self' actions log_p outputs,
    act compute0 inputs_replay "" noise0 pinned_policy
    = (self', Ok (actions, log_p, outputs)) /\
    forall b, (b < 2)%nat -> tdata log_p [b; 0%nat] = NaN.
Proof.
  destruct pinned_call_returns as (self' & actions & log_p & outputs & Hact).
  exists self', actions, log_p, outputs. split; [exact Hact|].
  exact (act_log_prob_nan_on_pinned_bound compute0 inputs_replay "" noise0
           pinned_policy self' actions log_p outputs lows pinned_highs
           (zeros [2; 3]%nat) 2 0 (-1)
           eq_refl eq_refl eq_refl eq_refl eq_refl eq_refl eq_refl
           inputs_replay_taken eq_refl eq_refl eq_refl Hact).
Defined.

End IdealMoreScenario.

(** ** The clamp of the log standard deviation in float32 *)

Section Float32Order.
Import SpecFloat.

Lemma SFcompare_antisym (x y : spec_float) :
  SFcompare y x = CompOpp <$> SFcompare x y.
Proof.
  destruct x as [sx|sx| |sx mx ex], y as [sy|sy| |sy my ey];
    try reflexivity;
    try (destruct sx; reflexivity); try (destruct sy; reflexivity);
    try (destruct sx, sy; reflexivity).
  cbn. f_equal. destruct sx, sy; try reflexivity;
    rewrite (Z.compare_antisym ex ey);
    destruct (ex ?= ey)%Z; cbn; try reflexivity;
    rewrite (Pos.compare_cont_antisym mx my Eq); reflexivity.
Qed.

Lemma SFcompare_refl (x : spec_float) :
  IEEE.is_nan x = false -> SFcompare x x = Some Eq.
Proof.
  destruct x as [s|s| |s m e]; try discriminate; intros _;
    try (destruct s; reflexivity).
  cbn. rewrite Z.compare_refl, Pos.compare_cont_refl.
  destruct s; reflexivity.
Qed.

Lemma SFleb_not_nan (x y : spec_float) :
  SFleb x y = true -> IEEE.is_nan x = false /\ IEEE.is_nan y = false.
Proof.
  destruct x, y; try discriminate; intros _; split; reflexivity.
Qed.

(** Of two values that are not NaN, one is at most the other. *)
Lemma SFltb_false_SFleb (x y : spec_float) :
  IEEE.is_nan x = false -> IEEE.is_nan y = false ->
  SFltb x y = false -> SFleb y x = true.
Proof.
  intros Hx Hy. unfold SFltb, SFleb. rewrite (SFcompare_antisym x y).
  destruct (SFcompare x y) as [[| |]|] eqn:Hc; cbn; try discriminate;
    try reflexivity.
  destruct x, y; discriminate.
Qed.

Lemma SFleb_SFltb_false (x y : spec_float) :
  SFleb x y = true -> SFltb y x = false.
Proof.
  unfold SFltb, SFleb. rewrite (SFcompare_antisym x y).
  destruct (SFcompare x y) as [[| |]|]; cbn; try discriminate; reflexivity.
Qed.

(** [clamp] between [a <= b]: NaN stays NaN, every other value comes to
    lie between [a] and [b], and a value between them is left as it is. *)
Lemma clamp_within (a b x : spec_float) :
  SFleb a b = true ->
  if IEEE.is_nan x then IEEE.clamp a b x = S754_nan
  else SFleb a (IEEE.clamp a b x) = true /\
       SFleb (IEEE.clamp a b x) b = true /\
       (SFleb a x = true -> SFleb x b = true -> IEEE.clamp a b x = x).
Proof.
  intros Hab. destruct (SFleb_not_nan a b Hab) as [Ha Hb].
  unfold IEEE.clamp. rewrite Ha, Hb.
  destruct (IEEE.is_nan x) eqn:Hx; [reflexivity|]. cbn [orb].
  destruct (SFltb x a) eqn:Hxa.
  - rewrite (SFleb_SFltb_false a b Hab).
    split; [unfold SFleb; rewrite (SFcompare_refl a Ha); reflexivity|].
    split; [exact Hab|].
    intros Hax. rewrite (SFleb_SFltb_false a x Hax) in Hxa. discriminate.
  - pose proof (SFltb_false_SFleb x a Hx Ha Hxa) as Hax.
    destruct (SFltb b x) eqn:Hbx.
    + split; [exact Hab|].
      split; [unfold SFleb; rewrite (SFcompare_refl b Hb); reflexivity|].
      intros _ Hxb. rewrite (SFleb_SFltb_false x b Hxb) in Hbx. discriminate.
    + split; [exact Hax|].
      split; [exact (SFltb_false_SFleb b x Hb Hx Hbx)|]. reflexivity.
Qed.

End Float32Order.

Section Float32Clamp.
Context `{Float32.Libm}.
Import Torch.

(** X20. In float32, with the clamp of the log standard deviation on
    and bounds [min <= max]: the log standard deviation a call of [act]
    leaves on the policy has the shape of the one of [compute]; it is NaN
    where that one is NaN, and everywhere else a value between [min] and
    [max] in the order of the floats, the one of [compute] itself if that
    lies between them.  The scale of the distribution is the [exp] of the
    mathematics library at the value left, broadcast. *)
Theorem act_scale_within_clamp compute inputs role noise
    (self self' : GaussianMixin SpecFloat.spec_float)
    (result : tensor SpecFloat.spec_float * tensor SpecFloat.spec_float
              * gmap string (pyval SpecFloat.spec_float)) :
  _g_clip_log_std self = true ->
  SpecFloat.SFleb (_g_log_std_min self) (_g_log_std_max self) = true ->
  act_outputs compute inputs role noise self = (self', Ok result) ->
  exists log_std dist,
    _g_log_std self' = Some log_std /\
    _g_distribution self' = Some dist /\
    tshape log_std = tshape (compute inputs role).1.2 /\
    (forall idx,
       if IEEE.is_nan (tdata (compute inputs role).1.2 idx)
       then tdata log_std idx = SpecFloat.S754_nan
       else
         SpecFloat.SFleb (_g_log_std_min self) (tdata log_std idx) = true /\
         SpecFloat.SFleb (tdata log_std idx) (_g_log_std_max self) = true /\
         (SpecFloat.SFleb (_g_log_std_min self)
            (tdata (compute inputs role).1.2 idx) = true ->
          SpecFloat.SFleb (tdata (compute inputs role).1.2 idx)
            (_g_log_std_max self) = true ->
          tdata log_std idx = tdata (compute inputs role).1.2 idx)) /\
    (forall idx,
       tdata (scale dist) idx
       = Float32.exp32 (tdata log_std (bidx (tshape log_std) idx))).
Proof.
  intros Hclip Hab Hout.
  destruct (act_outputs_state _ _ _ _ _ _ _ Hout)
    as (Hstd & _ & dist & Hdist & Hinit).
  unfold clamped_log_std in Hstd, Hinit. rewrite Hclip in Hstd, Hinit.
  eexists _, dist. split; [exact Hstd|]. split; [exact Hdist|].
  split; [reflexivity|]. split.
  - intros idx. cbn [tmap tdata]. apply clamp_within. exact Hab.
  - intros idx. unfold Normal_init in Hinit.
    destruct (broadcast_shapes _ _) as [s|]; [|discriminate].
    injection Hinit as <-. reflexivity.
Qed.

End Float32Clamp.

Section Float32ClampWitness.
#[local] Existing Instance Float32.plain_libm.
Import Torch.

Lemma act_scale_within_clamp_witness :
  exists self' result log_std dist,
    act_outputs compute32 inputs32 "" noise32 tenth_policy
    = (self', Ok result) /\
    _g_log_std self' = Some log_std /\
    _g_distribution self' = Some dist /\
    tshape log_std = [1] /\
    tdata log_std [0] = SpecFloat.S754_zero false /\
    tdata (scale dist) [0; 0] = Float32.exp32 (tdata log_std [0]).
Proof.
  destruct (act_outputs_clipped_returns compute32 inputs32 "" noise32
              tenth_policy (of_list [low32]) (of_list [high32]) 1 1
              eq_refl eq_refl eq_refl eq_refl eq_refl eq_refl eq_refl)
    as (self' & actions & log_p & outputs & _ & _ & Hout & _).
  { left. reflexivity. }
  destruct (act_scale_within_clamp compute32 inputs32 "" noise32
              tenth_policy self' _ eq_refl eq_refl Hout)
    as (log_std & dist & Hstd & Hdist & Hshape & Hvalues & Hscale).
  exists self', (actions, log_p, outputs), log_std, dist.
  split; [exact Hout|]. split; [exact Hstd|]. split; [exact Hdist|].
  split; [exact Hshape|].
  split; [exact (proj2 (proj2 (Hvalues [0])) eq_refl eq_refl)|].
  rewrite (Hscale [0; 0]), Hshape. reflexivity.
Defined.

End Float32ClampWitness.
